(** * The MtGox streaming client of pyalgotrade: a shallow embedding

    Source: [pyalgotrade/mtgox/client.py], classes [WSClient] and [Client].

    The transport thread and the wall clock are an explicit environment: every
    connection comes with a script of ticks (what the transport delivers while
    the consumer blocks in [Queue.get], and how long that takes).  The consumer
    side is a state-and-exception monad over the client object; loops carry
    fuel, and running out of it is the outcome [Diverge]. *)

From Stdlib Require Import ZArith Lia.
From stdpp Require Import base option list gmap strings.

Open Scope string_scope.
Open Scope list_scope.
Open Scope Z_scope.

(** ** Values *)

(** Request identifiers are opaque hashable tokens; payloads are opaque data. *)
Abbreviation RequestId := nat (only parsing).
Abbreviation Payload := string (only parsing).

(** What travels in the second slot of a queued tuple. *)
Inductive EventData : Type :=
| DNone
| DObj (payload : Payload)
| DPair (requestId : RequestId) (data : Payload).

#[global] Instance EventData_eq_dec : EqDecision EventData.
Proof. solve_decision. Defined.

(** A queued tuple [(eventType, eventData)]. *)
Abbreviation QItem := (prod nat EventData) (only parsing).

Module WSClient.

(** Events *)
Definition ON_TICKER : nat := 1.
Definition ON_WALLET : nat := 2.
Definition ON_TRADE : nat := 3.
Definition ON_USER_ORDER : nat := 4.
Definition ON_RESULT : nat := 5.
Definition ON_REMARK : nat := 6.
Definition ON_CONNECTED : nat := 7.
Definition ON_DISCONNECTED : nat := 8.

(** The callback hooks the transport invokes on its own thread. *)
Inductive Hook : Type :=
| Opened
| Closed (code : nat) (reason : Payload)
| DisconnectionDetected
| Subscribe (data : Payload)
| Unsubscribe (data : Payload)
| Remark (id : option RequestId) (data : Payload)
| UnknownOperation (operation data : Payload)
| Result (id : RequestId) (result : Payload)
| Ticker (ticker : Payload)
| Trade (trade : Payload) (publicChannel : bool)
| Wallet (wallet : Payload)
| UserOrder (userOrder : Payload).

(** One blocking [Queue.get] of the consumer, seen from the transport: the
    hooks that fire meanwhile and the time that passes (milliseconds). *)
Record Tick : Type := { arrivals : list Hook; elapsed : Z }.

(** What the environment holds for one connection: whether sending on it
    raises (and with which error code), and the script of its transport
    thread. *)
Record Session : Type := {
  send_error : option nat;
  script : list Tick;
}.

(** The object: its queue, and what is left of the script of its
    connection.  [serial] tells connections apart. *)
Record t : Type := {
  serial : nat;
  queue : list QItem;
  feed : list Tick;
  session : Session;
}.

Definition set_queue (q : list QItem) (ws : t) : t :=
  {| serial := serial ws; queue := q; feed := feed ws; session := session ws |}.
Definition set_feed (f : list Tick) (ws : t) : t :=
  {| serial := serial ws; queue := queue ws; feed := f; session := session ws |}.

(** [WSClient(currency, apiKey, apiSecret, ignoreMultiCurrency)]: a fresh
    object with an empty queue. *)
Definition new (serial : nat) (s : Session) : t :=
  {| serial := serial; queue := []; feed := script s; session := s |}.

(** [self.__queue.put(item)] *)
Definition put (item : QItem) (ws : t) : t := set_queue (queue ws ++ [item]) ws.

(** Closing the connection is the transport's business; the queue stays. *)
Definition close_connection (ws : t) : t := ws.

Definition onOpened (ws : t) : t := put (ON_CONNECTED, DNone) ws.
(** logging only *)
Definition onClosed (code : nat) (reason : Payload) (ws : t) : t := ws.
Definition onDisconnectionDetected (ws : t) : t :=
  put (ON_DISCONNECTED, DNone) (close_connection ws).
(** logging only *)
Definition onSubscribe (data : Payload) (ws : t) : t := ws.
(** logging only *)
Definition onUnsubscribe (data : Payload) (ws : t) : t := ws.
(** [if "id" in data]: queued with the id, otherwise only logged. *)
Definition onRemark (id : option RequestId) (data : Payload) (ws : t) : t :=
  match id with
  | Some i => put (ON_REMARK, DPair i data) ws
  | None => ws
  end.
(** logging only *)
Definition onUnknownOperation (operation data : Payload) (ws : t) : t := ws.
Definition onResult (id : RequestId) (result : Payload) (ws : t) : t :=
  put (ON_RESULT, DPair id result) ws.
Definition onTicker (ticker : Payload) (ws : t) : t := put (ON_TICKER, DObj ticker) ws.
(** Trades of the private channel are skipped. *)
Definition onTrade (trade : Payload) (publicChannel : bool) (ws : t) : t :=
  if publicChannel then put (ON_TRADE, DObj trade) ws else ws.
Definition onWallet (wallet : Payload) (ws : t) : t := put (ON_WALLET, DObj wallet) ws.
Definition onUserOrder (userOrder : Payload) (ws : t) : t :=
  put (ON_USER_ORDER, DObj userOrder) ws.

(** The transport fires one hook. *)
Definition fire (ws : t) (h : Hook) : t :=
  match h with
  | Opened => onOpened ws
  | Closed code reason => onClosed code reason ws
  | DisconnectionDetected => onDisconnectionDetected ws
  | Subscribe data => onSubscribe data ws
  | Unsubscribe data => onUnsubscribe data ws
  | Remark id data => onRemark id data ws
  | UnknownOperation operation data => onUnknownOperation operation data ws
  | Result id result => onResult id result ws
  | Ticker ticker => onTicker ticker ws
  | Trade trade publicChannel => onTrade trade publicChannel ws
  | Wallet wallet => onWallet wallet ws
  | UserOrder userOrder => onUserOrder userOrder ws
  end.

Definition fire_all (ws : t) (hs : list Hook) : t := foldl fire ws hs.

End WSClient.

Import WSClient (ON_TICKER, ON_WALLET, ON_TRADE, ON_USER_ORDER, ON_RESULT,
                 ON_REMARK, ON_CONNECTED, ON_DISCONNECTED).

(** ** Exceptions, callbacks, observations *)

Inductive Exn : Type :=
| AssertionError
| TypeError
| KeyError
| AttributeError
| QueueEmpty
| Exception (msg : string)
| OtherError (code : nat).   (* any other exception, of user code or of the transport *)

#[global] Instance Exn_eq_dec : EqDecision Exn.
Proof. solve_decision. Defined.

Definition is_KeyError (e : Exn) : bool :=
  match e with KeyError => true | _ => false end.
Definition is_QueueEmpty (e : Exn) : bool :=
  match e with QueueEmpty => true | _ => false end.
(** Every exception of the model derives from [Exception]. *)
Definition is_Exception (e : Exn) : bool := true.

(** A completion callback: either supplied by the caller of [waitResponse]
    (named, and free to raise), or one of the two closures that
    [requestPrivateIdKey] builds over its local [out] dictionary. *)
Inductive Callback : Type :=
| UserCallback (name : nat) (behaviour : Payload -> option Exn)
| PrivateIdKeyOnResult (out : nat)
| PrivateIdKeyOnRemark.

(** The four public notification sinks. *)
Inductive Sink : Type := TickerEvent | TradeEvent | UserOrderEvent | WalletEvent.

#[global] Instance Sink_eq_dec : EqDecision Sink.
Proof. solve_decision. Defined.

(** A listener subscribed to a sink. *)
Record Handler : Type := { h_name : nat; h_run : EventData -> option Exn }.

Inductive Level : Type := INFO | WARNING | ERROR.

(** What an execution lets the outside see, in order.  [ObsDispatch] marks the
    point where a popped event has passed the filter. *)
Inductive Obs : Type :=
| ObsDispatch (eventType : nat) (eventData : EventData)
| ObsEmit (sink : Sink) (eventData : EventData)
| ObsHandler (sink : Sink) (name : nat) (eventData : EventData)
| ObsResultCB (requestId : RequestId) (data : Payload)
| ObsRemarkCB (requestId : RequestId) (data : Payload)
| ObsLog (level : Level) (msg : string).

(** ** The client object and its environment *)

Record Client : Type := {
  paperTrading : bool;
  thread : option nat;
  initializationOk : option bool;
  stopped : bool;
  listeners : Sink -> list Handler;
  wsClient : option WSClient.t;
  enableReconnection : bool;
  resultCB : gmap nat (option Callback);
  remarkCB : gmap nat (option Callback);
  (* environment *)
  clock : Z;
  sessions : list WSClient.Session;
  connections : nat;
  nextRequestId : nat;
  outs : list (option Payload);
  trace : list Obs;
}.

(** Field assignment, one definition per attribute the code writes. *)
Definition set_thread (v : option nat) (c : Client) : Client :=
  {| paperTrading := paperTrading c; thread := v; initializationOk := initializationOk c;
     stopped := stopped c; listeners := listeners c; wsClient := wsClient c;
     enableReconnection := enableReconnection c; resultCB := resultCB c; remarkCB := remarkCB c;
     clock := clock c; sessions := sessions c; connections := connections c;
     nextRequestId := nextRequestId c; outs := outs c; trace := trace c |}.
Definition set_initializationOk (v : option bool) (c : Client) : Client :=
  {| paperTrading := paperTrading c; thread := thread c; initializationOk := v;
     stopped := stopped c; listeners := listeners c; wsClient := wsClient c;
     enableReconnection := enableReconnection c; resultCB := resultCB c; remarkCB := remarkCB c;
     clock := clock c; sessions := sessions c; connections := connections c;
     nextRequestId := nextRequestId c; outs := outs c; trace := trace c |}.
Definition set_stopped (v : bool) (c : Client) : Client :=
  {| paperTrading := paperTrading c; thread := thread c; initializationOk := initializationOk c;
     stopped := v; listeners := listeners c; wsClient := wsClient c; enableReconnection := enableReconnection c;
     resultCB := resultCB c; remarkCB := remarkCB c; clock := clock c; sessions := sessions c;
     connections := connections c; nextRequestId := nextRequestId c; outs := outs c;
     trace := trace c |}.
Definition set_wsClient (v : option WSClient.t) (c : Client) : Client :=
  {| paperTrading := paperTrading c; thread := thread c; initializationOk := initializationOk c;
     stopped := stopped c; listeners := listeners c; wsClient := v; enableReconnection := enableReconnection c;
     resultCB := resultCB c; remarkCB := remarkCB c; clock := clock c; sessions := sessions c;
     connections := connections c; nextRequestId := nextRequestId c; outs := outs c;
     trace := trace c |}.
Definition set_enableReconnection (v : bool) (c : Client) : Client :=
  {| paperTrading := paperTrading c; thread := thread c; initializationOk := initializationOk c;
     stopped := stopped c; listeners := listeners c; wsClient := wsClient c;
     enableReconnection := v; resultCB := resultCB c; remarkCB := remarkCB c;
     clock := clock c; sessions := sessions c; connections := connections c;
     nextRequestId := nextRequestId c; outs := outs c; trace := trace c |}.
Definition set_resultCB (v : gmap nat (option Callback)) (c : Client) : Client :=
  {| paperTrading := paperTrading c; thread := thread c; initializationOk := initializationOk c;
     stopped := stopped c; listeners := listeners c; wsClient := wsClient c;
     enableReconnection := enableReconnection c; resultCB := v; remarkCB := remarkCB c;
     clock := clock c; sessions := sessions c; connections := connections c;
     nextRequestId := nextRequestId c; outs := outs c; trace := trace c |}.
Definition set_remarkCB (v : gmap nat (option Callback)) (c : Client) : Client :=
  {| paperTrading := paperTrading c; thread := thread c; initializationOk := initializationOk c;
     stopped := stopped c; listeners := listeners c; wsClient := wsClient c;
     enableReconnection := enableReconnection c; resultCB := resultCB c; remarkCB := v;
     clock := clock c; sessions := sessions c; connections := connections c;
     nextRequestId := nextRequestId c; outs := outs c; trace := trace c |}.
Definition set_clock (v : Z) (c : Client) : Client :=
  {| paperTrading := paperTrading c; thread := thread c; initializationOk := initializationOk c;
     stopped := stopped c; listeners := listeners c; wsClient := wsClient c;
     enableReconnection := enableReconnection c; resultCB := resultCB c; remarkCB := remarkCB c;
     clock := v; sessions := sessions c; connections := connections c; nextRequestId := nextRequestId c;
     outs := outs c; trace := trace c |}.
Definition set_sessions (v : list WSClient.Session) (c : Client) : Client :=
  {| paperTrading := paperTrading c; thread := thread c; initializationOk := initializationOk c;
     stopped := stopped c; listeners := listeners c; wsClient := wsClient c;
     enableReconnection := enableReconnection c; resultCB := resultCB c; remarkCB := remarkCB c;
     clock := clock c; sessions := v; connections := connections c; nextRequestId := nextRequestId c;
     outs := outs c; trace := trace c |}.
Definition set_connections (v : nat) (c : Client) : Client :=
  {| paperTrading := paperTrading c; thread := thread c; initializationOk := initializationOk c;
     stopped := stopped c; listeners := listeners c; wsClient := wsClient c;
     enableReconnection := enableReconnection c; resultCB := resultCB c; remarkCB := remarkCB c;
     clock := clock c; sessions := sessions c; connections := v; nextRequestId := nextRequestId c;
     outs := outs c; trace := trace c |}.
Definition set_nextRequestId (v : nat) (c : Client) : Client :=
  {| paperTrading := paperTrading c; thread := thread c; initializationOk := initializationOk c;
     stopped := stopped c; listeners := listeners c; wsClient := wsClient c;
     enableReconnection := enableReconnection c; resultCB := resultCB c; remarkCB := remarkCB c;
     clock := clock c; sessions := sessions c; connections := connections c;
     nextRequestId := v; outs := outs c; trace := trace c |}.
Definition set_outs (v : list (option Payload)) (c : Client) : Client :=
  {| paperTrading := paperTrading c; thread := thread c; initializationOk := initializationOk c;
     stopped := stopped c; listeners := listeners c; wsClient := wsClient c;
     enableReconnection := enableReconnection c; resultCB := resultCB c; remarkCB := remarkCB c;
     clock := clock c; sessions := sessions c; connections := connections c;
     nextRequestId := nextRequestId c; outs := v; trace := trace c |}.
Definition set_trace (v : list Obs) (c : Client) : Client :=
  {| paperTrading := paperTrading c; thread := thread c; initializationOk := initializationOk c;
     stopped := stopped c; listeners := listeners c; wsClient := wsClient c;
     enableReconnection := enableReconnection c; resultCB := resultCB c; remarkCB := remarkCB c;
     clock := clock c; sessions := sessions c; connections := connections c;
     nextRequestId := nextRequestId c; outs := outs c; trace := v |}.

(** ** Computations of the consumer side *)

Inductive Outcome (A : Type) : Type :=
| Return (a : A)
| Raise (e : Exn)
| Diverge.
Arguments Return {A} a.
Arguments Raise {A} e.
Arguments Diverge {A}.

Definition Py (A : Type) : Type := Client -> Outcome A * Client.

Definition ret {A} (a : A) : Py A := fun c => (Return a, c).
Definition raise {A} (e : Exn) : Py A := fun c => (Raise e, c).
Definition diverge {A} : Py A := fun c => (Diverge, c).
Definition bind {A B} (m : Py A) (k : A -> Py B) : Py B :=
  fun c =>
    match m c with
    | (Return a, c') => k a c'
    | (Raise e, c') => (Raise e, c')
    | (Diverge, c') => (Diverge, c')
    end.

Declare Scope py_scope.
Delimit Scope py_scope with py.
Notation "x <- m ;; k" := (bind m (fun x => k))
  (at level 100, m at next level, right associativity) : py_scope.
Notation "m ;; k" := (bind m (fun _ => k))
  (at level 100, right associativity) : py_scope.
Open Scope py_scope.

Definition get {A} (f : Client -> A) : Py A := fun c => (Return (f c), c).
Definition modify (f : Client -> Client) : Py unit := fun c => (Return tt, f c).

(** [try: body except E: handler] *)
Definition try_except {A} (body : Py A) (catches : Exn -> bool) (handler : Exn -> Py A) : Py A :=
  fun c =>
    match body c with
    | (Raise e, c') => if catches e then handler e c' else (Raise e, c')
    | r => r
    end.

(** [try: body finally: cleanup].  The cleanup sees the locals the body has
    assigned: its result when it ended normally, [None] when it raised.  An
    exception of the cleanup replaces whatever the body raised. *)
Definition try_finally {A} (body : Py A) (cleanup : option A -> Py unit) : Py A :=
  fun c =>
    match body c with
    | (Return a, c') =>
        match cleanup (Some a) c' with
        | (Return _, c'') => (Return a, c'')
        | (Raise e, c'') => (Raise e, c'')
        | (Diverge, c'') => (Diverge, c'')
        end
    | (Raise e, c') =>
        match cleanup None c' with
        | (Return _, c'') => (Raise e, c'')
        | (Raise e', c'') => (Raise e', c'')
        | (Diverge, c'') => (Diverge, c'')
        end
    | (Diverge, c') => (Diverge, c')
    end.

(** [assert(b)] *)
Definition assert_ (b : bool) : Py unit := if b then ret tt else raise AssertionError.

Definition observe (o : Obs) : Py unit := modify (fun c => set_trace (trace c ++ [o]) c).
Definition log (level : Level) (msg : string) : Py unit := observe (ObsLog level msg).

(** [time.time()], in milliseconds *)
Definition time_time : Py Z := get clock.
(** [time.sleep(seconds)] *)
Definition time_sleep (seconds : Z) : Py unit :=
  modify (fun c => set_clock (clock c + 1000 * seconds) c).

(** ** observer.Event *)

(** Modelled from the spec: [observer.Event], the notification sink of the
    observer module, which is not among the sources.  A sink supports several
    independent listeners; emitting calls them in subscription order, and an
    error of a listener is not caught. *)
Fixpoint call_handlers (sink : Sink) (hs : list Handler) (eventData : EventData) : Py unit :=
  match hs with
  | [] => ret tt
  | h :: hs' =>
      observe (ObsHandler sink (h_name h) eventData) ;;
      match h_run h eventData with
      | Some e => raise e
      | None => call_handlers sink hs' eventData
      end
  end.

Definition emit (sink : Sink) (eventData : EventData) : Py unit :=
  observe (ObsEmit sink eventData) ;;
  hs <- get (fun c => listeners c sink) ;;
  call_handlers sink hs eventData.

(** ** The request correlator *)

(** [key in d] *)
Definition contains (d : gmap nat (option Callback)) (key : RequestId) : bool :=
  bool_decide (is_Some (d !! key)).

Definition registerCallbacks (requestId : RequestId) (resultCB' remarkCB' : option Callback)
  : Py unit :=
  inR <- get (fun c => contains (resultCB c) requestId) ;;
  assert_ (negb inR) ;;
  inM <- get (fun c => contains (remarkCB c) requestId) ;;
  assert_ (negb inM) ;;
  modify (fun c => set_resultCB (<[requestId := resultCB']> (resultCB c)) c) ;;
  modify (fun c => set_remarkCB (<[requestId := remarkCB']> (remarkCB c)) c).

Definition unregisterCallbacks (requestId : RequestId) : Py unit :=
  inR <- get (fun c => contains (resultCB c) requestId) ;;
  assert_ inR ;;
  inM <- get (fun c => contains (remarkCB c) requestId) ;;
  assert_ inM ;;
  modify (fun c => set_remarkCB (delete requestId (remarkCB c)) c) ;;
  modify (fun c => set_resultCB (delete requestId (resultCB c)) c).

(** [self.__unregisterCallbacks()] as [waitResponse] writes it: the call
    leaves out the required [requestId], so binding the arguments fails
    before the body runs. *)
Definition unregisterCallbacks_without_argument : Py unit := raise TypeError.

Definition callbacksRegistered (requestId : RequestId) : Py bool :=
  get (fun c => contains (resultCB c) requestId && contains (remarkCB c) requestId).

(** [d[key]] *)
Definition subscript (d : Client -> gmap nat (option Callback)) (key : RequestId)
  : Py (option Callback) :=
  v <- get (fun c => d c !! key) ;;
  match v with
  | Some cb => ret cb
  | None => raise KeyError
  end.

(** [cb(data)] *)
Definition call (cb : Callback) (data : Payload) : Py unit :=
  match cb with
  | UserCallback _ behaviour =>
      match behaviour data with
      | Some e => raise e
      | None => ret tt
      end
  | PrivateIdKeyOnResult out =>
      (* out["result"] = data *)
      modify (fun c => set_outs (<[out := Some data]> (outs c)) c)
  | PrivateIdKeyOnRemark =>
      log ERROR "Remark requesting private id key"
  end.

Definition onRemark (requestId : RequestId) (data : Payload) : Py unit :=
  try_except
    (cb <- subscript remarkCB requestId ;;
     unregisterCallbacks requestId ;;
     match cb with
     | Some f => observe (ObsRemarkCB requestId data) ;; call f data
     | None => ret tt
     end)
    is_KeyError
    (fun _ => log WARNING "Remark for request").

Definition onResult (requestId : RequestId) (data : Payload) : Py unit :=
  try_except
    (cb <- subscript resultCB requestId ;;
     unregisterCallbacks requestId ;;
     match cb with
     | Some f => observe (ObsResultCB requestId data) ;; call f data
     | None => ret tt
     end)
    is_KeyError
    (fun _ => log WARNING "Result for request").

(** ** The transport, seen from the consumer *)

(** Modelled from the spec: the stream transport behind [WSClient] (its base
    class [wsclient.WebSocketClient], the queue and the worker thread), which
    is not among the sources.  It exposes connect, close and the
    subscribe/unsubscribe/request sends; connecting opens the transport, a
    send fails when the connection says so, and what the transport delivers
    is the script of the connection. *)
Module Stream.

Definition QUEUE_TIMEOUT : Z := 10.

Definition the_wsClient : Py WSClient.t :=
  w <- get wsClient ;;
  match w with
  | Some ws => ret ws
  | None => raise AttributeError
  end.

(** The tick that passes during one blocking [get]: the next one of the
    script; once the script is over nothing arrives any more, and an empty
    queue keeps the caller for the whole poll timeout. *)
Definition next_tick (ws : WSClient.t) : WSClient.Tick :=
  match WSClient.feed ws with
  | t :: _ => t
  | [] => {| WSClient.arrivals := [];
             WSClient.elapsed := match WSClient.queue ws with
                                 | [] => QUEUE_TIMEOUT
                                 | _ :: _ => 0
                                 end |}
  end.

(** [getQueue().get(True, timeout)]: the hooks of the tick fire, time
    passes, and the oldest item is taken, or [Queue.Empty] raised. *)
Definition Queue_get : Py QItem :=
  ws <- the_wsClient ;;
  let tick := next_tick ws in
  let ws1 := WSClient.fire_all (WSClient.set_feed (tail (WSClient.feed ws)) ws)
                               (WSClient.arrivals tick) in
  modify (fun c => set_clock (clock c + WSClient.elapsed tick) c) ;;
  match WSClient.queue ws1 with
  | [] => modify (set_wsClient (Some ws1)) ;; raise QueueEmpty
  | item :: q => modify (set_wsClient (Some (WSClient.set_queue q ws1))) ;; ret item
  end.

(** A connection on which nothing ever arrives: what the environment offers
    once its list of connections is used up. *)
Definition dead : WSClient.Session :=
  {| WSClient.send_error := None; WSClient.script := [] |}.

Definition next_session (c : Client) : WSClient.Session :=
  match sessions c with s :: _ => s | [] => dead end.

(** [self.__wsClient = WSClient(...)], on the next connection of the
    environment. *)
Definition new_WSClient : Py unit :=
  modify (fun c =>
    set_wsClient (Some (WSClient.new (connections c) (next_session c)))
      (set_sessions (tail (sessions c)) (set_connections (S (connections c)) c))).

(** [connect()]: opens the transport of the client object in place. *)
Definition connect : Py unit :=
  ws <- the_wsClient ;;
  ret tt.

(** Any send on the stream; it raises when the environment says so. *)
Definition send : Py unit :=
  ws <- the_wsClient ;;
  match WSClient.send_error (WSClient.session ws) with
  | Some code => raise (OtherError code)
  | None => ret tt
  end.

Definition unsubscribeChannel : Py unit := send.
Definition subscribePrivateChannel (privateIdKey : Payload) : Py unit := send.
(** Sends the request and returns its fresh identifier. *)
Definition requestPrivateIdKey : Py RequestId :=
  send ;;
  requestId <- get nextRequestId ;;
  modify (set_nextRequestId (S requestId)) ;;
  ret requestId.

(** [stopClient()]: the transport thread ends; nothing more arrives. *)
Definition stopClient : Py unit :=
  ws <- the_wsClient ;;
  modify (set_wsClient (Some (WSClient.set_feed [] ws))).

(** [threading.Thread(target=self.__threadMain)] and [start()]: the thread
    runs the client object currently in place. *)
Definition new_Thread : Py unit :=
  ws <- the_wsClient ;;
  modify (set_thread (Some (WSClient.serial ws))).

(** [self.__thread.is_alive()]: the thread lives as long as the script of
    the connection it runs has ticks left. *)
Definition is_alive : Py bool :=
  t <- get thread ;;
  match t with
  | None => raise AttributeError
  | Some k =>
      w <- get wsClient ;;
      ret match w with
          | Some ws => bool_decide (k = WSClient.serial ws)
                       && negb (bool_decide (WSClient.feed ws = []))
          | None => false
          end
  end.

(** [self.__thread.join()]: waits for the thread to end, that is for the
    whole remaining script of its connection to play. *)
Definition run_tick (ws : WSClient.t) (tick : WSClient.Tick) : WSClient.t :=
  WSClient.fire_all ws (WSClient.arrivals tick).

Definition join : Py unit :=
  t <- get thread ;;
  match t with
  | None => raise AttributeError
  | Some k =>
      w <- get wsClient ;;
      match w with
      | Some ws =>
          if bool_decide (k = WSClient.serial ws) then
            modify (fun c => set_clock
              (clock c + foldr (fun tick acc => WSClient.elapsed tick + acc) 0 (WSClient.feed ws)) c) ;;
            modify (set_wsClient
              (Some (WSClient.set_feed [] (foldl run_tick ws (WSClient.feed ws)))))
          else ret tt
      | None => ret tt
      end
  end.

End Stream.

(** ** Client: the consumer side *)

Definition truthy (v : option bool) : bool :=
  match v with Some true => true | _ => false end.

Definition is_None {A} (v : option A) : bool :=
  match v with None => true | Some _ => false end.

(** [x in xs] over event types. *)
Definition type_in (eventType : nat) (eventFilter : list nat) : bool :=
  bool_decide (eventType ∈ eventFilter).

(** [requestId, data = eventData] *)
Definition unpack (eventData : EventData) : Py (RequestId * Payload) :=
  match eventData with
  | DPair requestId data => ret (requestId, data)
  | _ => raise TypeError
  end.

(** The body of the [try] in [dispatchImpl] once [ret] has its value: when
    [Queue.Empty] comes out of it, [except Queue.Empty: pass] lets the method
    return [ret] as it stands. *)
Definition returning (ret_ : bool) (body : Py unit) : Py bool :=
  try_except (body ;; ret ret_) is_QueueEmpty (fun _ => ret ret_).

Section Handlers.

(** [self.dispatchImpl], as the methods below call it. *)
Variable self_dispatchImpl : option (list nat) -> Py bool.

(** The [while] of [waitResponse]; its value is the final [done]. *)
Fixpoint waitLoop (fuel : nat) (requestId : RequestId) (start timeout : Z) : Py bool :=
  match fuel with
  | O => diverge
  | S fuel' =>
      now <- time_time ;;
      if now - start <? timeout then
        self_dispatchImpl (Some [ON_RESULT; ON_REMARK]) ;;
        registered <- callbacksRegistered requestId ;;
        if negb registered then ret true
        else waitLoop fuel' requestId start timeout
      else ret false
  end.

Definition waitResponse (fuel : nat) (requestId : RequestId)
    (resultCB' remarkCB' : option Callback) (timeout : Z) : Py bool :=
  registerCallbacks requestId resultCB' remarkCB' ;;
  start <- time_time ;;
  try_finally
    (waitLoop fuel requestId start timeout)
    (fun done =>
       (* If we timed out then we need to remove the callbacks. *)
       match done with
       | Some true => ret tt
       | _ => unregisterCallbacks_without_argument
       end).

Definition requestPrivateIdKey (fuel : nat) : Py Payload :=
  (* out = {"result": None} *)
  out <- get (fun c => length (outs c)) ;;
  modify (fun c => set_outs (outs c ++ [None]) c) ;;
  log INFO "Requesting private id key." ;;
  requestId <- Stream.requestPrivateIdKey ;;
  waitResponse fuel requestId (Some (PrivateIdKeyOnResult out)) (Some PrivateIdKeyOnRemark)
               30000 ;;
  r <- get (fun c => outs c !! out) ;;
  match r with
  | Some (Some key) =>
      if bool_decide (key = "") then raise (Exception "Failed to get private id key")
      else ret key
  | _ => raise (Exception "Failed to get private id key")
  end.

Definition onConnected (fuel : nat) : Py unit :=
  log INFO "Connection opened." ;;
  try_except
    (log INFO "Unsubscribing from depth notifications channel." ;;
     Stream.unsubscribeChannel ;;
     paper <- get paperTrading ;;
     (if negb paper then
        privateIdKey <- requestPrivateIdKey fuel ;;
        log INFO "Subscribing to private channel." ;;
        Stream.subscribePrivateChannel privateIdKey
      else ret tt) ;;
     modify (set_initializationOk (Some true)))
    is_Exception
    (fun _ =>
       modify (set_initializationOk (Some false)) ;;
       log ERROR "handshake error").

(** The [while] of [__initializeClient]. *)
Fixpoint initLoop (fuel : nat) : Py unit :=
  match fuel with
  | O => diverge
  | S fuel' =>
      ok <- get initializationOk ;;
      if is_None ok then
        alive <- Stream.is_alive ;;
        if alive then
          self_dispatchImpl (Some [ON_CONNECTED]) ;;
          initLoop fuel'
        else ret tt
      else ret tt
  end.

Definition initializeClient (fuel : nat) : Py (option bool) :=
  log INFO "Initializing MtGox client." ;;
  modify (set_initializationOk None) ;;
  Stream.new_WSClient ;;
  Stream.connect ;;
  (* Start the thread that will run the client. *)
  Stream.new_Thread ;;
  (* Wait for initialization to complete. *)
  initLoop fuel ;;
  ok <- get initializationOk ;;
  (if truthy ok then log INFO "Initialization ok."
   else log ERROR "Initialization failed.") ;;
  ret ok.

(** The [while] of [__onDisconnected]; every round starts with
    [initialized] false. *)
Fixpoint reconnectLoop (fuel : nat) : Py unit :=
  match fuel with
  | O => diverge
  | S fuel' =>
      stop <- get stopped ;;
      if stop then ret tt
      else
        log INFO "Reconnecting" ;;
        initialized <- initializeClient fuel' ;;
        if truthy initialized then ret tt
        else time_sleep 5 ;; reconnectLoop fuel'
  end.

Definition onDisconnected (fuel : nat) : Py unit :=
  log ERROR "Disconnection detected" ;;
  enable <- get enableReconnection ;;
  if enable then reconnectLoop fuel
  else modify (set_stopped true).

(** The [if]/[elif] chain of [dispatchImpl], entered with [ret = True]. *)
Definition route (fuel : nat) (eventType : nat) (eventData : EventData) : Py bool :=
  if bool_decide (eventType = ON_TICKER) then
    returning true (emit TickerEvent eventData)
  else if bool_decide (eventType = ON_WALLET) then
    returning true (emit WalletEvent eventData)
  else if bool_decide (eventType = ON_TRADE) then
    returning true (emit TradeEvent eventData)
  else if bool_decide (eventType = ON_USER_ORDER) then
    returning true (emit UserOrderEvent eventData)
  else if bool_decide (eventType = ON_RESULT) then
    returning false (p <- unpack eventData ;; onResult p.1 p.2)
  else if bool_decide (eventType = ON_REMARK) then
    returning false (p <- unpack eventData ;; onRemark p.1 p.2)
  else if bool_decide (eventType = ON_CONNECTED) then
    returning true (onConnected fuel)
  else if bool_decide (eventType = ON_DISCONNECTED) then
    returning true (onDisconnected fuel)
  else
    returning false (log ERROR "Invalid event received to dispatch").

Definition dispatchImpl_body (fuel : nat) (eventFilter : option (list nat)) : Py bool :=
  item <- try_except (x <- Stream.Queue_get ;; ret (Some x))
                     is_QueueEmpty (fun _ => ret None) ;;
  match item with
  | None => ret false
  | Some (eventType, eventData) =>
      if match eventFilter with
         | Some f => negb (type_in eventType f)
         | None => false
         end
      then ret false
      else
        observe (ObsDispatch eventType eventData) ;;
        route fuel eventType eventData
  end.

End Handlers.

(** [Client.dispatchImpl]: the fuel bounds the nesting of dispatches (a
    dispatch that reconnects polls for the handshake, which polls for the
    private id key) and the rounds of the loops below it. *)
Fixpoint dispatchImpl (fuel : nat) (eventFilter : option (list nat)) : Py bool :=
  match fuel with
  | O => diverge
  | S fuel' => dispatchImpl_body (dispatchImpl fuel') fuel' eventFilter
  end.

(** The public methods. *)
Module Methods.

Definition currencies : list string :=
  ["USD"; "AUD"; "CAD"; "CHF"; "CNY"; "DKK"; "EUR"; "GBP"; "HKD"; "JPY"; "NZD"; "PLN";
   "RUB"; "SEK"; "SGD"; "THB"; "NOK"; "CZK"].

(** The attributes a new object starts with, in a world that holds the
    given connections. *)
Definition fresh (paper : bool) (world : list WSClient.Session) : Client :=
  {| paperTrading := paper;
     thread := None;
     initializationOk := None;
     stopped := false;
     listeners := fun _ => [];
     wsClient := None;
     enableReconnection := true;
     resultCB := ∅;
     remarkCB := ∅;
     clock := 0;
     sessions := world;
     connections := 0;
     nextRequestId := 0;
     outs := [];
     trace := [] |}.

(** [Client.__init__] *)
Definition init (currency : string) (apiKey apiSecret : option string)
    (world : list WSClient.Session) : Outcome Client :=
  if negb (bool_decide (currency ∈ currencies)) then Raise (Exception "Invalid currency")
  else Return (fresh (is_None apiKey || is_None apiSecret) world).

(** [getTickerEvent().subscribe(handler)] and its three siblings. *)
Definition subscribe (sink : Sink) (handler : Handler) (c : Client) : Client :=
  {| paperTrading := paperTrading c; thread := thread c;
     initializationOk := initializationOk c; stopped := stopped c;
     listeners := fun s => if bool_decide (s = sink) then listeners c s ++ [handler]
                           else listeners c s;
     wsClient := wsClient c; enableReconnection := enableReconnection c;
     resultCB := resultCB c; remarkCB := remarkCB c; clock := clock c;
     sessions := sessions c; connections := connections c;
     nextRequestId := nextRequestId c; outs := outs c; trace := trace c |}.

Definition waitResponse (fuel : nat) (requestId : RequestId)
    (resultCB' remarkCB' : option Callback) (timeout : Z) : Py bool :=
  waitResponse (dispatchImpl fuel) fuel requestId resultCB' remarkCB' timeout.

Definition setEnableReconnection (enable : bool) : Py unit :=
  modify (set_enableReconnection enable).

Definition requestPrivateIdKey (fuel : nat) : Py Payload :=
  requestPrivateIdKey (dispatchImpl fuel) fuel.

Definition start (fuel : nat) : Py unit :=
  t <- get thread ;;
  if negb (is_None t) then raise (Exception "Already running")
  else
    ok <- initializeClient (dispatchImpl fuel) fuel ;;
    if negb (truthy ok) then
      modify (set_stopped true) ;;
      raise (Exception "Initialization failed")
    else ret tt.

Definition stop : Py unit :=
  try_except
    (modify (set_stopped true) ;;
     t <- get thread ;;
     if negb (is_None t) then
       alive <- Stream.is_alive ;;
       if alive then
         log INFO "Shutting down MtGox client." ;;
         Stream.stopClient
       else ret tt
     else ret tt)
    is_Exception
    (fun _ => log ERROR "Error shutting down MtGox client").

Definition join : Py unit :=
  t <- get thread ;;
  if negb (is_None t) then Stream.join else ret tt.

Definition eof : Py bool := get stopped.

Definition dispatch (fuel : nat) : Py bool := dispatchImpl fuel None.

End Methods.

(** ** Vocabulary of the properties *)

(** The items a run of hooks puts on the queue, oldest first. *)
Definition enqueued (hs : list WSClient.Hook) : list QItem :=
  WSClient.queue (WSClient.fire_all (WSClient.new 0 Stream.dead) hs).

(** A request is pending when both dictionaries hold it. *)
Definition pending_request (c : Client) (requestId : RequestId) : bool :=
  contains (resultCB c) requestId && contains (remarkCB c) requestId.

(** What a computation added to the trace. *)
Definition added (before after : Client) : list Obs :=
  drop (length (trace before)) (trace after).

Definition is_emission (o : Obs) : bool :=
  match o with
  | ObsEmit _ _ | ObsHandler _ _ _ => true
  | _ => false
  end.

Definition is_completion (requestId : RequestId) (o : Obs) : bool :=
  match o with
  | ObsResultCB i _ | ObsRemarkCB i _ => bool_decide (i = requestId)
  | _ => false
  end.

(** The listeners an emission reaches: all of them up to and including the
    first one that raises; and what that one raises. *)
Fixpoint called (hs : list Handler) (eventData : EventData) : list Handler :=
  match hs with
  | [] => []
  | h :: hs' => h :: match h_run h eventData with
                     | Some _ => []
                     | None => called hs' eventData
                     end
  end.

Fixpoint raised (hs : list Handler) (eventData : EventData) : option Exn :=
  match hs with
  | [] => None
  | h :: hs' => match h_run h eventData with
                | Some e => Some e
                | None => raised hs' eventData
                end
  end.

(** The sink that matches a notification kind. *)
Definition notification_sink (eventType : nat) : option Sink :=
  if bool_decide (eventType = ON_TICKER) then Some TickerEvent
  else if bool_decide (eventType = ON_WALLET) then Some WalletEvent
  else if bool_decide (eventType = ON_TRADE) then Some TradeEvent
  else if bool_decide (eventType = ON_USER_ORDER) then Some UserOrderEvent
  else None.

(** A stored callback that returns when called with [data] ([None] is never
    called). *)
Definition returns_normally (cb : option Callback) (data : Payload) : Prop :=
  match cb with
  | Some (UserCallback _ behaviour) => behaviour data = None
  | _ => True
  end.

(** The event passes the filter of the poll. *)
Definition passes (eventFilter : option (list nat)) (eventType : nat) : Prop :=
  match eventFilter with
  | Some f => type_in eventType f = true
  | None => True
  end.

(** What a poll finds: the queue as it is, followed by what arrives while
    the poll blocks. *)
Definition found (ws : WSClient.t) : list QItem :=
  WSClient.queue ws ++ enqueued (WSClient.arrivals (Stream.next_tick ws)).

(** The state in which a poll leaves the client after taking the oldest of
    the events it found, [rest] being the others. *)
Definition polled (c : Client) (ws : WSClient.t) (rest : list QItem) : Client :=
  let tick := Stream.next_tick ws in
  set_wsClient
    (Some (WSClient.set_queue rest
             (WSClient.fire_all (WSClient.set_feed (tail (WSClient.feed ws)) ws)
                                (WSClient.arrivals tick))))
    (set_clock (clock c + WSClient.elapsed tick) c).

(** The shape [__onResult] and [__onRemark] share: look the callback up in
    one of the two dictionaries, unregister the request, call the callback. *)
Definition resolve (d : Client -> gmap nat (option Callback))
    (mark : RequestId -> Payload -> Obs) (msg : string)
    (requestId : RequestId) (data : Payload) : Py unit :=
  try_except
    (cb <- subscript d requestId ;;
     unregisterCallbacks requestId ;;
     match cb with
     | Some f => observe (mark requestId data) ;; call f data
     | None => ret tt
     end)
    is_KeyError
    (fun _ => log WARNING msg).

Definition is_log (o : Obs) : Prop :=
  match o with ObsLog _ _ => True | _ => False end.

(** The completion that a response of the given kind triggers for the request
    ends normally: the two dictionaries agree on the request, and the stored
    callback of that kind, if any, returns. *)
Definition completes_quietly (c : Client) (eventType : nat)
    (requestId : RequestId) (data : Payload) : Prop :=
  contains (resultCB c) requestId = contains (remarkCB c) requestId ∧
  ∀ cb, (if bool_decide (eventType = ON_RESULT) then resultCB c else remarkCB c)
          !! requestId = Some cb →
        returns_normally cb data.

Definition is_emit (o : Obs) : bool :=
  match o with ObsEmit _ _ => true | _ => false end.

(** An observation that is not the dispatch of a CommandResult for the
    request; and one that, moreover, is no completion of the request. *)
Definition not_result_dispatch (requestId : RequestId) (o : Obs) : Prop :=
  ∀ data, o ≠ ObsDispatch ON_RESULT (DPair requestId data).

Definition foreign (requestId : RequestId) (o : Obs) : Prop :=
  is_completion requestId o = false ∧ not_result_dispatch requestId o.

(** The request is registered with the given pair of callbacks. *)
Definition registered (requestId : RequestId) (rcb : Callback) (mcb : option Callback)
    (c : Client) : Prop :=
  resultCB c !! requestId = Some (Some rcb) ∧ remarkCB c !! requestId = Some mcb.

(** The events a trace shows as dispatched, oldest first. *)
Definition dispatched (tr : list Obs) : list QItem :=
  omap (fun o => match o with ObsDispatch t d => Some (t, d) | _ => None end) tr.

(** What a script of ticks will put on the queue, oldest first. *)
Definition scheduled (ticks : list WSClient.Tick) : list QItem :=
  concat (map (fun tick => enqueued (WSClient.arrivals tick)) ticks).

(** Everything the transport side has pushed and not yet seen taken, followed
    by everything it is still going to push, on this connection and on the
    later ones, in the order of the pushes. *)
Definition pushed (c : Client) : list QItem :=
  match wsClient c with
  | Some ws => WSClient.queue ws ++ scheduled (WSClient.feed ws)
  | None => []
  end ++ concat (map (fun s => scheduled (WSClient.script s)) (sessions c)).

(** [n] calls of [dispatch] in a row, whatever each returns or raises. *)
Fixpoint pump (fuel n : nat) (c : Client) : Client :=
  match n with
  | O => c
  | S n' => pump fuel n' (Methods.dispatch fuel c).2
  end.

(** A relation between the states before and after a computation that every
    step of the client respects: it tolerates the assignments and the
    observations other than the dispatch mark (basic), and moreover what the
    transport does. *)
Definition steps (R : Client -> Client -> Prop) {A} (m : Py A) : Prop :=
  ∀ c, R c (m c).2.

Record ToleratesBasic (R : Client -> Client -> Prop) : Prop := {
  tol_refl : ∀ c, R c c;
  tol_trans : ∀ a b c, R a b → R b c → R a c;
  tol_clock : ∀ v c, R c (set_clock v c);
  tol_resultCB : ∀ v c, R c (set_resultCB v c);
  tol_remarkCB : ∀ v c, R c (set_remarkCB v c);
  tol_outs : ∀ v c, R c (set_outs v c);
  tol_initializationOk : ∀ v c, R c (set_initializationOk v c);
  tol_stopped : ∀ v c, R c (set_stopped v c);
  tol_nextRequestId : ∀ v c, R c (set_nextRequestId v c);
  tol_enableReconnection : ∀ v c, R c (set_enableReconnection v c);
  tol_observe : ∀ o c, (∀ t d, o ≠ ObsDispatch t d) → R c (set_trace (trace c ++ [o]) c);
}.

Record Tolerates (R : Client -> Client -> Prop) : Prop := {
  tol_basic : ToleratesBasic R;
  tol_Queue_get : ∀ c, R c (Stream.Queue_get c).2;
  tol_mark : ∀ c x c1, Stream.Queue_get c = (Return x, c1) →
                       R c (set_trace (trace c1 ++ [ObsDispatch x.1 x.2]) c1);
  tol_new_WSClient : ∀ c, R c (Stream.new_WSClient c).2;
  tol_stopClient : ∀ c, R c (Stream.stopClient c).2;
  tol_join : ∀ c, R c (Stream.join c).2;
  tol_new_Thread : ∀ c, R c (Stream.new_Thread c).2;
  tol_subscribe : ∀ sink handler c, R c (Methods.subscribe sink handler c);
}.

(** The relations used below: the thread reference, once set, stays set; the
    trace only grows; what is dispatched is taken, in order, from what is
    pushed; and the queue is left alone while nothing more is dispatched. *)
Definition keeps_thread (c c' : Client) : Prop :=
  is_Some (thread c) → is_Some (thread c').

Definition extends_trace (c c' : Client) : Prop :=
  ∃ delta, trace c' = trace c ++ delta.

Definition in_order (c c' : Client) : Prop :=
  sublist (dispatched (trace c') ++ pushed c') (dispatched (trace c) ++ pushed c).

Definition undisturbed (c c' : Client) : Prop :=
  wsClient c' = wsClient c ∧ ∃ delta, trace c' = trace c ++ delta ∧ dispatched delta = [].

(** The calls a user of the client can make. *)
Inductive Op : Type :=
| OpStart (fuel : nat)
| OpStop
| OpJoin
| OpEof
| OpDispatchImpl (fuel : nat) (eventFilter : option (list nat))
| OpWaitResponse (fuel : nat) (requestId : RequestId)
                 (resultCB' remarkCB' : option Callback) (timeout : Z)
| OpRequestPrivateIdKey (fuel : nat)
| OpSetEnableReconnection (enable : bool)
| OpSubscribe (sink : Sink) (handler : Handler).

Definition run_op (op : Op) (c : Client) : Client :=
  match op with
  | OpStart fuel => (Methods.start fuel c).2
  | OpStop => (Methods.stop c).2
  | OpJoin => (Methods.join c).2
  | OpEof => (Methods.eof c).2
  | OpDispatchImpl fuel eventFilter => (dispatchImpl fuel eventFilter c).2
  | OpWaitResponse fuel requestId r m timeout =>
      (Methods.waitResponse fuel requestId r m timeout c).2
  | OpRequestPrivateIdKey fuel => (Methods.requestPrivateIdKey fuel c).2
  | OpSetEnableReconnection enable => (Methods.setEnableReconnection enable c).2
  | OpSubscribe sink handler => Methods.subscribe sink handler c
  end.

Definition run_ops (ops : list Op) (c : Client) : Client :=
  foldl (fun c op => run_op op c) c ops.

(** Worlds and clients the statements are tried on. *)
Module Scenario.

Definition tick (hs : list WSClient.Hook) : WSClient.Tick :=
  {| WSClient.arrivals := hs; WSClient.elapsed := 1 |}.

(** [n] polls of the full timeout during which nothing arrives. *)
Definition silence (n : nat) : list WSClient.Tick :=
  repeat {| WSClient.arrivals := []; WSClient.elapsed := Stream.QUEUE_TIMEOUT |} n.

Definition session (ticks : list WSClient.Tick) : WSClient.Session :=
  {| WSClient.send_error := None; WSClient.script := ticks |}.

(** A paper-trading client in its ready state, with the given queue and
    the given rest of the script. *)
Definition ready (q : list QItem) (f : list WSClient.Tick) : Client :=
  set_wsClient
    (Some {| WSClient.serial := 0; WSClient.queue := q; WSClient.feed := f;
             WSClient.session := session [] |})
    (set_thread (Some 0%nat)
       (set_initializationOk (Some true)
          (set_connections 1 (Methods.fresh true [])))).

Definition quiet (name : nat) : Callback := UserCallback name (fun _ => None).
Definition failing (name : nat) (e : Exn) : Callback := UserCallback name (fun _ => Some e).

(** An authenticated client over four connections: the first handshake
    succeeds and the connection is then lost; on the second nobody answers
    the private id key request; the third succeeds and is lost again; the
    fourth succeeds. *)
Definition reconnections : list WSClient.Session :=
  [ session [tick [WSClient.Opened]; tick [WSClient.Result 0 "key0"];
             tick [WSClient.DisconnectionDetected]];
    session [tick [WSClient.Opened]];
    session [tick [WSClient.Opened]; tick [WSClient.Result 2 "key2"];
             tick [WSClient.DisconnectionDetected]];
    session [tick [WSClient.Opened]; tick [WSClient.Result 3 "key3"]; tick []] ].

Definition live : Client := Methods.fresh false reconnections.

Definition fuel : nat := 3100.

End Scenario.

(** ** Vocabulary of the further properties *)

(** The completion handler of a kind of response. *)
Definition completion (result : bool) : RequestId → Payload → Py unit :=
  if result then onResult else onRemark.

(** A relation between the states before and after a computation that the
    code keeps, assignment by assignment: it allows any assignment to the
    attributes of the transport, the clock and the trace, but to [stopped]
    only the assignment of True, and to the two dictionaries only what
    [__registerCallbacks] and [__unregisterCallbacks] do as a whole. *)
Record Keeps (R : Client → Client → Prop) : Prop := {
  keep_refl : ∀ c, R c c;
  keep_trans : ∀ a b c, R a b → R b c → R a c;
  keep_clock : ∀ v c, R c (set_clock v c);
  keep_outs : ∀ v c, R c (set_outs v c);
  keep_initializationOk : ∀ v c, R c (set_initializationOk v c);
  keep_nextRequestId : ∀ v c, R c (set_nextRequestId v c);
  keep_trace : ∀ v c, R c (set_trace v c);
  keep_wsClient : ∀ v c, R c (set_wsClient v c);
  keep_thread : ∀ v c, R c (set_thread v c);
  keep_sessions : ∀ v c, R c (set_sessions v c);
  keep_connections : ∀ v c, R c (set_connections v c);
  keep_enableReconnection : ∀ v c, R c (set_enableReconnection v c);
  keep_subscribe : ∀ sink handler c, R c (Methods.subscribe sink handler c);
  keep_stopped : ∀ c, R c (set_stopped true c);
  keep_register : ∀ i r m c, R c (registerCallbacks i r m c).2;
  keep_unregister : ∀ i c, R c (unregisterCallbacks i c).2;
}.

(** Once [stopped] is True it stays True. *)
Definition stays_stopped (c c' : Client) : Prop :=
  stopped c = true → stopped c' = true.

(** The two dictionaries hold the same request ids. *)
Definition same_requests (c : Client) : Prop :=
  ∀ requestId, contains (resultCB c) requestId = contains (remarkCB c) requestId.

Definition keeps_same_requests (c c' : Client) : Prop :=
  same_requests c → same_requests c'.

(** The client as [__initializeClient] leaves it when it enters its loop: on
    the next connection of the environment, with a new thread running it. *)
Definition connecting (c : Client) : Client :=
  set_thread (Some (connections c))
    (set_wsClient (Some (WSClient.new (connections c) (Stream.next_session c)))
       (set_sessions (tail (sessions c))
          (set_connections (S (connections c))
             (set_initializationOk None
                (set_trace (trace c ++ [ObsLog INFO "Initializing MtGox client."]) c))))).

(** The time a run of ticks takes. *)
Definition duration (ticks : list WSClient.Tick) : Z :=
  foldr (fun tick acc => WSClient.elapsed tick + acc) 0 ticks.

(** A connection on which the transport never reports that it is open. *)
Definition never_opens (s : WSClient.Session) : Prop :=
  Forall (fun x : QItem => x.1 ≠ ON_CONNECTED) (scheduled (WSClient.script s)).

(** The time that attempts on the given connections take when none of them
    opens: each attempt lasts as long as its transport thread lives, and is
    followed by a sleep of five seconds. *)
Definition downtime (fails : list WSClient.Session) : Z :=
  foldr (fun s acc => duration (WSClient.script s) + 5000 + acc) 0 fails.

(** What handling responses lets the outside see: the dispatch of a result
    or a remark, the call of a completion callback, a log line; never an
    emission on a sink or the call of a listener. *)
Definition response_activity (o : Obs) : bool :=
  match o with
  | ObsDispatch eventType _ => type_in eventType [ON_RESULT; ON_REMARK]
  | ObsEmit _ _ | ObsHandler _ _ _ => false
  | ObsResultCB _ _ | ObsRemarkCB _ _ | ObsLog _ _ => true
  end.

(** The hook by which the transport reports a notification for a sink, and
    the kind of the event that the hook queues. *)
Definition report (sink : Sink) (payload : Payload) : WSClient.Hook :=
  match sink with
  | TickerEvent => WSClient.Ticker payload
  | TradeEvent => WSClient.Trade payload true
  | UserOrderEvent => WSClient.UserOrder payload
  | WalletEvent => WSClient.Wallet payload
  end.

Definition kind (sink : Sink) : nat :=
  match sink with
  | TickerEvent => ON_TICKER
  | TradeEvent => ON_TRADE
  | UserOrderEvent => ON_USER_ORDER
  | WalletEvent => ON_WALLET
  end.

(** ** Vocabulary of the order of deliveries *)

(** The events that a trace shows as handed over: to the listeners of a
    sink, or to a completion callback. *)
Definition delivered (tr : list Obs) : list QItem :=
  omap (fun o => match o with
                 | ObsEmit sink eventData => Some (kind sink, eventData)
                 | ObsResultCB requestId data => Some (ON_RESULT, DPair requestId data)
                 | ObsRemarkCB requestId data => Some (ON_REMARK, DPair requestId data)
                 | _ => None
                 end) tr.

(** Everything handed over is the event of a dispatch, in the order of the
    dispatches and at most once for each. *)
Definition deliveries_follow (c c' : Client) : Prop :=
  ∃ delta, trace c' = trace c ++ delta ∧ sublist (delivered delta) (dispatched delta).

(** A relation that tolerates the assignments, the transport and the log
    lines, but no other observation. *)
Record ToleratesLogs (R : Client → Client → Prop) : Prop := {
  logs_refl : ∀ c, R c c;
  logs_trans : ∀ a b c, R a b → R b c → R a c;
  logs_clock : ∀ v c, R c (set_clock v c);
  logs_resultCB : ∀ v c, R c (set_resultCB v c);
  logs_remarkCB : ∀ v c, R c (set_remarkCB v c);
  logs_outs : ∀ v c, R c (set_outs v c);
  logs_initializationOk : ∀ v c, R c (set_initializationOk v c);
  logs_stopped : ∀ v c, R c (set_stopped v c);
  logs_nextRequestId : ∀ v c, R c (set_nextRequestId v c);
  logs_wsClient : ∀ v c, R c (set_wsClient v c);
  logs_thread : ∀ v c, R c (set_thread v c);
  logs_sessions : ∀ v c, R c (set_sessions v c);
  logs_connections : ∀ v c, R c (set_connections v c);
  logs_log : ∀ level msg c, R c (set_trace (trace c ++ [ObsLog level msg]) c);
}.

(** The first thing that the handler of a response lets the outside see:
    the call of the callback stored for a pending request, a warning for a
    request that the dictionary does not hold. *)
Definition response_entry (d : Client → gmap nat (option Callback))
    (mark : RequestId → Payload → Obs) (msg : string)
    (c : Client) (eventData : EventData) : list Obs :=
  match eventData with
  | DPair requestId data =>
      match d c !! requestId with
      | None => [ObsLog WARNING msg]
      | Some (Some _) => if pending_request c requestId then [mark requestId data] else []
      | Some None => []
      end
  | _ => []
  end.

(** The first thing that the handler of an event lets the outside see, by
    the kind of the event: the emission on the matching sink, the entry of the
    correlator, the first log line of the handshake or of the reconnection,
    the error for an event of no known kind. *)
Definition entry (c : Client) (x : QItem) : list Obs :=
  match notification_sink x.1 with
  | Some sink => [ObsEmit sink x.2]
  | None =>
      if bool_decide (x.1 = ON_RESULT) then
        response_entry resultCB ObsResultCB "Result for request" c x.2
      else if bool_decide (x.1 = ON_REMARK) then
        response_entry remarkCB ObsRemarkCB "Remark for request" c x.2
      else if bool_decide (x.1 = ON_CONNECTED) then [ObsLog INFO "Connection opened."]
      else if bool_decide (x.1 = ON_DISCONNECTED) then [ObsLog ERROR "Disconnection detected"]
      else [ObsLog ERROR "Invalid event received to dispatch"]
  end.

(** * Properties *)

(** ** The queue of the adapter *)

Lemma fire_queue ws h :
  WSClient.queue (WSClient.fire ws h) = WSClient.queue ws ++ enqueued [h].
Proof.
  destruct h as [| | | | |[i|] ?| | | |? []| |]; cbn; rewrite ?app_nil_r; reflexivity.
Qed.

Lemma fire_rest ws h :
  WSClient.feed (WSClient.fire ws h) = WSClient.feed ws ∧
  WSClient.serial (WSClient.fire ws h) = WSClient.serial ws ∧
  WSClient.session (WSClient.fire ws h) = WSClient.session ws.
Proof. destruct h as [| | | | |[i|] ?| | | |? []| |]; cbn; auto. Qed.

Lemma fire_all_flat hs : ∀ ws,
  WSClient.queue (WSClient.fire_all ws hs)
  = WSClient.queue ws ++ concat (map (fun h => enqueued [h]) hs).
Proof.
  unfold WSClient.fire_all.
  induction hs as [|h hs IH]; intros ws; cbn [foldl map concat].
  - by rewrite app_nil_r.
  - rewrite IH, fire_queue, <- app_assoc. reflexivity.
Qed.

Lemma enqueued_flat hs : enqueued hs = concat (map (fun h => enqueued [h]) hs).
Proof. unfold enqueued at 1. rewrite fire_all_flat. reflexivity. Qed.

Lemma fire_all_queue ws hs :
  WSClient.queue (WSClient.fire_all ws hs) = WSClient.queue ws ++ enqueued hs.
Proof. rewrite fire_all_flat, <- enqueued_flat. reflexivity. Qed.

Lemma fire_all_rest hs : ∀ ws,
  WSClient.feed (WSClient.fire_all ws hs) = WSClient.feed ws ∧
  WSClient.serial (WSClient.fire_all ws hs) = WSClient.serial ws ∧
  WSClient.session (WSClient.fire_all ws hs) = WSClient.session ws.
Proof.
  unfold WSClient.fire_all.
  induction hs as [|h hs IH]; intros ws; cbn [foldl]; [auto|].
  destruct (IH (WSClient.fire ws h)) as (-> & -> & ->). apply fire_rest.
Qed.

(** ** Symbolic execution *)

Ltac unfold_py :=
  unfold returning, onResult, onRemark, unpack, subscript, unregisterCallbacks,
    unregisterCallbacks_without_argument, registerCallbacks, callbacksRegistered,
    call, emit, observe, log, assert_, time_time, time_sleep,
    try_except, try_finally, bind, ret, raise, get, modify, diverge in *.

Lemma set_trace_same c : set_trace (trace c) c = c.
Proof. by destruct c. Qed.

Lemma added_app c c' delta : trace c' = trace c ++ delta → added c c' = delta.
Proof. unfold added. intros ->. apply drop_app_length. Qed.

Lemma contains_true d (k : nat) : contains d k = true ↔ is_Some (d !! k).
Proof. unfold contains. by rewrite bool_decide_eq_true. Qed.

Lemma contains_false d (k : nat) : contains d k = false ↔ d !! k = None.
Proof. unfold contains. by rewrite bool_decide_eq_false, eq_None_not_Some. Qed.

Lemma contains_insert d (k : nat) v : contains (<[k := v]> d) k = true.
Proof. apply contains_true. rewrite lookup_insert_eq. eauto. Qed.

Lemma contains_delete d (k : nat) : contains (delete k d) k = false.
Proof. apply contains_false, lookup_delete_eq. Qed.

(** ** The request correlator *)

(** C4: registering callbacks for a request id that is already in one of the
    two dictionaries fails with an assertion error and leaves the whole client,
    hence the callback pair already stored, exactly as it was. *)
Theorem registerCallbacks_duplicate_rejected
    (c : Client) (requestId : RequestId) (resultCB' remarkCB' : option Callback) :
  contains (resultCB c) requestId = true ∨ contains (remarkCB c) requestId = true →
  registerCallbacks requestId resultCB' remarkCB' c = (Raise AssertionError, c).
Proof.
  intros H. unfold_py.
  destruct (contains (resultCB c) requestId) eqn:ER; cbn; [reflexivity|].
  destruct H as [H|H]; [discriminate|]. rewrite H. reflexivity.
Qed.

Lemma registerCallbacks_duplicate_rejected_witness :
  let c := set_remarkCB {[ 7%nat := Some (Scenario.quiet 2) ]}
             (set_resultCB {[ 7%nat := Some (Scenario.quiet 1) ]} (Scenario.ready [] [])) in
  pending_request c 7 = true ∧
  registerCallbacks 7 (Some (Scenario.quiet 3)) (Some (Scenario.quiet 4)) c
  = (Raise AssertionError, c) ∧
  resultCB c !! 7%nat = Some (Some (Scenario.quiet 1)) ∧
  remarkCB c !! 7%nat = Some (Some (Scenario.quiet 2)).
Proof.
  split; [reflexivity|]. split; [|split; reflexivity].
  apply (registerCallbacks_duplicate_rejected _ 7%nat). left. reflexivity.
Defined.

Lemma registerCallbacks_fresh c requestId r m :
  contains (resultCB c) requestId = false →
  contains (remarkCB c) requestId = false →
  registerCallbacks requestId r m c
  = (Return tt, set_remarkCB (<[requestId := m]> (remarkCB c))
                  (set_resultCB (<[requestId := r]> (resultCB c)) c)).
Proof. intros H1 H2. unfold_py. rewrite H1. cbn. rewrite H2. reflexivity. Qed.

(** ** One poll of the queue *)

Lemma Queue_get_absent c :
  wsClient c = None → Stream.Queue_get c = (Raise AttributeError, c).
Proof. intros H. unfold Stream.Queue_get, Stream.the_wsClient. unfold_py. by rewrite H. Qed.

Lemma Queue_get_present c ws :
  wsClient c = Some ws →
  let tick := Stream.next_tick ws in
  let ws1 := WSClient.fire_all (WSClient.set_feed (tail (WSClient.feed ws)) ws)
                               (WSClient.arrivals tick) in
  let c1 := set_clock (clock c + WSClient.elapsed tick) c in
  Stream.Queue_get c =
    match WSClient.queue ws ++ enqueued (WSClient.arrivals tick) with
    | [] => (Raise QueueEmpty, set_wsClient (Some ws1) c1)
    | item :: q => (Return item, set_wsClient (Some (WSClient.set_queue q ws1)) c1)
    end.
Proof.
  intros H. cbv zeta. unfold Stream.Queue_get, Stream.the_wsClient. unfold_py.
  rewrite H. cbn beta iota. rewrite fire_all_queue. cbn [WSClient.queue WSClient.set_feed].
  destruct (WSClient.queue ws ++ _); reflexivity.
Qed.

(** ** Dispatching one event *)

Lemma returning_eq b (m : Py unit) c :
  returning b m c =
    match m c with
    | (Return _, c') => (Return b, c')
    | (Raise e, c') => if is_QueueEmpty e then (Return b, c') else (Raise e, c')
    | (Diverge, c') => (Diverge, c')
    end.
Proof. unfold returning, try_except, bind, ret. by destruct (m c) as [[?|?|] ?]. Qed.

Lemma dispatchImpl_empty fuel eventFilter c ws :
  wsClient c = Some ws →
  WSClient.queue ws ++ enqueued (WSClient.arrivals (Stream.next_tick ws)) = [] →
  ∃ c', dispatchImpl (S fuel) eventFilter c = (Return false, c') ∧
        trace c' = trace c ∧ resultCB c' = resultCB c ∧ remarkCB c' = remarkCB c.
Proof.
  intros Hws Hq. cbn [dispatchImpl]. unfold dispatchImpl_body.
  unfold try_except at 1. unfold bind at 1 2.
  rewrite (Queue_get_present c ws Hws), Hq. cbn. unfold ret. eauto.
Qed.

Lemma dispatchImpl_absent fuel eventFilter c :
  wsClient c = None → dispatchImpl (S fuel) eventFilter c = (Raise AttributeError, c).
Proof.
  intros Hws. cbn [dispatchImpl]. unfold dispatchImpl_body.
  unfold try_except at 1. unfold bind at 1 2.
  by rewrite (Queue_get_absent c Hws).
Qed.

Lemma dispatchImpl_polled fuel eventFilter c ws eventType eventData q :
  wsClient c = Some ws →
  WSClient.queue ws ++ enqueued (WSClient.arrivals (Stream.next_tick ws))
    = (eventType, eventData) :: q →
  dispatchImpl (S fuel) eventFilter c =
    if match eventFilter with
       | Some f => negb (type_in eventType f)
       | None => false
       end
    then (Return false,
          set_wsClient
            (Some (WSClient.set_queue q
               (WSClient.fire_all (WSClient.set_feed (tail (WSClient.feed ws)) ws)
                                  (WSClient.arrivals (Stream.next_tick ws)))))
            (set_clock (clock c + WSClient.elapsed (Stream.next_tick ws)) c))
    else route (dispatchImpl fuel) fuel eventType eventData
           (set_trace (trace c ++ [ObsDispatch eventType eventData])
              (set_wsClient
                 (Some (WSClient.set_queue q
                    (WSClient.fire_all (WSClient.set_feed (tail (WSClient.feed ws)) ws)
                                       (WSClient.arrivals (Stream.next_tick ws)))))
                 (set_clock (clock c + WSClient.elapsed (Stream.next_tick ws)) c))).
Proof.
  intros Hws Hq. cbn [dispatchImpl]. unfold dispatchImpl_body.
  unfold try_except at 1. unfold bind at 1 2.
  rewrite (Queue_get_present c ws Hws), Hq. unfold ret at 1. cbn beta iota.
  destruct (match eventFilter with Some f => _ | None => false end); reflexivity.
Qed.

Lemma dispatchImpl_head fuel eventFilter c ws eventType eventData rest :
  wsClient c = Some ws →
  found ws = (eventType, eventData) :: rest →
  passes eventFilter eventType →
  dispatchImpl (S fuel) eventFilter c =
    route (dispatchImpl fuel) fuel eventType eventData
      (set_trace (trace c ++ [ObsDispatch eventType eventData]) (polled c ws rest)).
Proof.
  intros Hws Hq Hp.
  rewrite (dispatchImpl_polled fuel eventFilter c ws eventType eventData rest Hws Hq).
  destruct eventFilter as [f|]; cbn in Hp; [rewrite Hp|]; reflexivity.
Qed.

(** C6: when the event a poll takes, the oldest it finds, has a kind outside
    a non-null filter, [dispatchImpl] returns False, leaves the trace (hence
    every handler and sink) and the correlator untouched, and the event is
    gone: the queue is left holding the other events, so the next poll takes
    the next one. *)
Theorem dispatchImpl_filter_discards
    (fuel : nat) (eventFilter : list nat) (c : Client) (ws : WSClient.t)
    (eventType : nat) (eventData : EventData) (rest : list QItem) :
  wsClient c = Some ws →
  found ws = (eventType, eventData) :: rest →
  type_in eventType eventFilter = false →
  ∃ c' ws',
    dispatchImpl (S fuel) (Some eventFilter) c = (Return false, c') ∧
    trace c' = trace c ∧
    resultCB c' = resultCB c ∧ remarkCB c' = remarkCB c ∧
    initializationOk c' = initializationOk c ∧ stopped c' = stopped c ∧
    thread c' = thread c ∧
    wsClient c' = Some ws' ∧
    WSClient.queue ws' = rest ∧
    ∀ next others, rest = next :: others → (Stream.Queue_get c').1 = Return next.
Proof.
  intros Hws Hq Hf.
  rewrite (dispatchImpl_polled fuel _ c ws eventType eventData rest Hws Hq), Hf.
  cbn [negb]. eexists _, _. split; [reflexivity|].
  repeat (split; [reflexivity|]).
  intros next others ->.
  erewrite Queue_get_present by reflexivity.
  cbn [WSClient.queue WSClient.set_queue app]. reflexivity.
Qed.

Lemma dispatchImpl_filter_discards_witness :
  let c := Scenario.ready [(ON_TICKER, DObj "t1")] [Scenario.tick [WSClient.Result 7 "r"]] in
  ∃ c' ws',
    dispatchImpl 1 (Some [ON_RESULT; ON_REMARK]) c = (Return false, c') ∧
    trace c' = trace c ∧
    resultCB c' = resultCB c ∧ remarkCB c' = remarkCB c ∧
    initializationOk c' = initializationOk c ∧ stopped c' = stopped c ∧
    thread c' = thread c ∧
    wsClient c' = Some ws' ∧
    WSClient.queue ws' = [(ON_RESULT, DPair 7 "r")] ∧
    ∀ next others, [(ON_RESULT, DPair 7 "r")] = next :: others →
                   (Stream.Queue_get c').1 = Return next.
Proof.
  intros c.
  exact (dispatchImpl_filter_discards 0 [ON_RESULT; ON_REMARK] c _ ON_TICKER (DObj "t1")
           [(ON_RESULT, DPair 7 "r")] eq_refl eq_refl eq_refl).
Defined.

Lemma call_handlers_eq sink eventData hs : ∀ c,
  call_handlers sink hs eventData c =
    (match raised hs eventData with Some e => Raise e | None => Return tt end,
     set_trace (trace c ++ map (fun h => ObsHandler sink (h_name h) eventData)
                               (called hs eventData)) c).
Proof.
  induction hs as [|h hs IH]; intros c; cbn [call_handlers raised called map].
  - by rewrite app_nil_r, set_trace_same.
  - unfold_py. cbn. destruct (h_run h eventData) as [e|]; [reflexivity|].
    rewrite IH. cbn. by rewrite <- app_assoc.
Qed.

Lemma emit_eq sink eventData c :
  emit sink eventData c =
    (match raised (listeners c sink) eventData with Some e => Raise e | None => Return tt end,
     set_trace (trace c ++ ObsEmit sink eventData ::
                  map (fun h => ObsHandler sink (h_name h) eventData)
                      (called (listeners c sink) eventData)) c).
Proof.
  unfold emit, observe, bind, modify, get. cbn. rewrite call_handlers_eq. cbn.
  by rewrite <- app_assoc.
Qed.

(** ** Resolving a request *)

Lemma onResult_resolve : onResult = resolve resultCB ObsResultCB "Result for request".
Proof. reflexivity. Qed.

Lemma onRemark_resolve : onRemark = resolve remarkCB ObsRemarkCB "Remark for request".
Proof. reflexivity. Qed.

Lemma call_effect (f : Callback) data c :
  ∃ logs, trace (call f data c).2 = trace c ++ logs ∧ Forall is_log logs ∧
          resultCB (call f data c).2 = resultCB c ∧
          remarkCB (call f data c).2 = remarkCB c ∧
          (call f data c).1 ≠ Diverge ∧
          (returns_normally (Some f) data → (call f data c).1 = Return tt).
Proof.
  destruct f as [name b| out |]; cbn [call returns_normally].
  - destruct (b data) as [e|]; exists []; unfold_py; cbn;
      rewrite app_nil_r; repeat split; auto; discriminate.
  - exists []. unfold_py. cbn. rewrite app_nil_r. repeat split; auto; discriminate.
  - eexists [_]. unfold_py. cbn. repeat split; auto; try discriminate.
    repeat constructor.
Qed.

(** What resolving does, case by case: the request is unknown (a warning is
    logged); the two dictionaries disagree (the assertion of the
    unregistration fails); or the request is removed from both dictionaries
    and its callback, if any, is called once. *)
Lemma resolve_cases d mark msg requestId data c :
  d = resultCB ∨ d = remarkCB →
  let r := resolve d mark msg requestId data c in
  (d c !! requestId = None ∧
   r = (Return tt, set_trace (trace c ++ [ObsLog WARNING msg]) c))
  ∨ (is_Some (d c !! requestId) ∧ pending_request c requestId = false ∧
     r = (Raise AssertionError, c))
  ∨ (∃ cb logs,
       d c !! requestId = Some cb ∧ pending_request c requestId = true ∧
       trace r.2 = trace c ++ match cb with
                              | Some _ => mark requestId data :: logs
                              | None => []
                              end ∧
       Forall is_log logs ∧
       resultCB r.2 = delete requestId (resultCB c) ∧
       remarkCB r.2 = delete requestId (remarkCB c) ∧
       r.1 ≠ Diverge ∧
       (returns_normally cb data → r.1 = Return tt)).
Proof.
  intros Hd r.
  assert (Er : r = resolve d mark msg requestId data c) by reflexivity.
  clearbody r. unfold resolve, subscript in Er.
  unfold try_except, bind at 1 2, get at 1 in Er.
  destruct (d c !! requestId) as [cb|] eqn:Hcb; cbn beta iota in Er.
  2:{ left. split; [reflexivity|]. subst r. reflexivity. }
  right. unfold ret at 1 in Er. cbn beta iota in Er. unfold bind at 1 in Er.
  destruct (pending_request c requestId) eqn:Hp.
  - right. unfold pending_request in Hp. apply andb_true_iff in Hp as [HR HM].
    exists cb.
    assert (Hun : unregisterCallbacks requestId c =
              (Return tt, set_resultCB (delete requestId (resultCB c))
                            (set_remarkCB (delete requestId (remarkCB c)) c))).
    { unfold_py. rewrite HR. cbn. rewrite HM. reflexivity. }
    rewrite Hun in Er. cbn beta iota in Er.
    destruct cb as [f|].
    + unfold bind, observe, modify in Er. cbn beta iota in Er.
      set (c3 := set_trace _ _) in Er.
      destruct (call_effect f data c3) as (logs & Ht & Hl & HRc & HMc & Hnd & Hok).
      destruct (call f data c3) as [[[]|e|] c4] eqn:Ec; cbn [fst snd] in *.
      * exists logs. subst r c3. cbn in *.
        rewrite Ht, <- app_assoc. repeat split; auto.
      * destruct (is_KeyError e) eqn:Ek.
        -- exists (logs ++ [ObsLog WARNING msg]). subst r c3. unfold_py. cbn in *.
           rewrite Ht, <- !app_assoc. repeat split; auto; try discriminate.
           apply Forall_app; split; [assumption|]. repeat constructor.
        -- exists logs. subst r c3. cbn in *. rewrite Ht, <- app_assoc.
           repeat split; auto; try discriminate.
      * congruence.
    + exists []. subst r. unfold ret. cbn. repeat split; auto.
      all: try discriminate. by rewrite app_nil_r.
  - left. split; [eauto|]. split; [reflexivity|].
    unfold pending_request in Hp. subst r. unfold_py.
    destruct (contains (resultCB c) requestId) eqn:HR; cbn; [|reflexivity].
    cbn in Hp. rewrite Hp. reflexivity.
Qed.

(** ** Routing *)

Ltac decide_types :=
  repeat match goal with
  | |- context [bool_decide (?a = ?b)] =>
      let v := eval vm_compute in (bool_decide (a = b)) in
      change (bool_decide (a = b)) with v
  end; cbn beta iota.

(** C7: an event that passes the filter is routed by its kind.  A Ticker,
    Wallet, Trade or UserOrder event adds to the trace the emission on its
    matching sink and the calls of that sink's listeners, nothing else, and
    [dispatchImpl] returns True when the listeners return.  A CommandResult or
    CommandRemark event goes to the correlator: nothing is emitted on any sink,
    the request is no longer pending afterwards, [dispatchImpl] never returns
    True, and it returns False when the completion ends normally. *)
Theorem dispatchImpl_routing
    (fuel : nat) (eventFilter : option (list nat)) (c : Client) (ws : WSClient.t)
    (eventType : nat) (eventData : EventData) (rest : list QItem) :
  wsClient c = Some ws →
  found ws = (eventType, eventData) :: rest →
  passes eventFilter eventType →
  let r := dispatchImpl (S fuel) eventFilter c in
  (∀ sink, notification_sink eventType = Some sink →
     added c r.2 = ObsDispatch eventType eventData :: ObsEmit sink eventData ::
                     map (fun h => ObsHandler sink (h_name h) eventData)
                         (called (listeners c sink) eventData) ∧
     (raised (listeners c sink) eventData = None → r.1 = Return true)) ∧
  (∀ requestId data,
     eventType = ON_RESULT ∨ eventType = ON_REMARK →
     eventData = DPair requestId data →
     Forall (fun o => is_emission o = false) (added c r.2) ∧
     r.1 ≠ Return true ∧
     pending_request r.2 requestId = false ∧
     (completes_quietly c eventType requestId data → r.1 = Return false)).
Proof.
  intros Hws Hq Hp r.
  assert (Er : r = dispatchImpl (S fuel) eventFilter c) by reflexivity. clearbody r.
  rewrite (dispatchImpl_head fuel eventFilter c ws eventType eventData rest Hws Hq Hp) in Er.
  split.
  - intros sink Hs. unfold notification_sink in Hs.
    repeat case_bool_decide; try discriminate; subst eventType;
      injection Hs as <-; unfold route in Er; revert Er; decide_types; intros Er;
      rewrite returning_eq, emit_eq in Er; cbn [listeners set_trace polled set_wsClient set_clock] in Er.
    all: destruct (raised (listeners c _) eventData) as [e|] eqn:Era;
      try destruct (is_QueueEmpty e); subst r; cbn [fst snd];
      (split; [apply added_app; cbn; rewrite <- app_assoc; reflexivity
              | intros; congruence]).
  - intros requestId data Ht ->.
    assert (E : r = returning false
                  (resolve (if bool_decide (eventType = ON_RESULT) then resultCB else remarkCB)
                           (if bool_decide (eventType = ON_RESULT) then ObsResultCB else ObsRemarkCB)
                           (if bool_decide (eventType = ON_RESULT) then "Result for request"
                            else "Remark for request") requestId data)
                  (set_trace (trace c ++ [ObsDispatch eventType (DPair requestId data)])
                             (polled c ws rest))).
    { rewrite Er. destruct Ht; subst eventType; reflexivity. }
    clear Er. rewrite returning_eq in E.
    set (c1 := set_trace _ _) in E.
    set (d := if bool_decide (eventType = ON_RESULT) then resultCB else remarkCB) in E.
    set (mark := if bool_decide (eventType = ON_RESULT) then ObsResultCB else ObsRemarkCB) in E.
    assert (Hmark : ∀ i x, is_emission (mark i x) = false).
    { intros. subst mark. by case_bool_decide. }
    assert (Hd : d = resultCB ∨ d = remarkCB).
    { subst d. case_bool_decide; auto. }
    set (msg := if bool_decide (eventType = ON_RESULT) then _ else _) in E.
    assert (Hc1 : trace c1 = trace c ++ [ObsDispatch eventType (DPair requestId data)]
                  ∧ resultCB c1 = resultCB c ∧ remarkCB c1 = remarkCB c) by done.
    destruct Hc1 as (Ht1 & HR1 & HM1).
    destruct (resolve_cases d mark msg requestId data c1 Hd)
      as [(Hn & Hr)|[(Hs & Hpf & Hr)|(cb & logs & Hcb & Hpt & Htr & Hl & HR & HM & Hnd & Hok)]].
    + rewrite Hr in E. subst r. cbn [fst snd].
      rewrite (added_app c _ [ObsDispatch eventType (DPair requestId data); ObsLog WARNING msg])
        by (cbn [trace set_trace]; rewrite Ht1, <- app_assoc; reflexivity).
      split; [repeat constructor|]. split; [discriminate|]. split; [|reflexivity].
      unfold pending_request. apply andb_false_iff.
      destruct Hd as [Hd|Hd]; rewrite Hd in Hn; [left|right]; by apply contains_false.
    + rewrite Hr in E. subst r. cbn [fst snd is_QueueEmpty].
      rewrite (added_app c _ _ Ht1).
      split; [repeat constructor|]. split; [discriminate|]. split; [assumption|].
      intros [Heq _]. exfalso.
      unfold pending_request in Hpf. rewrite HR1, HM1 in Hpf.
      assert (contains (d c1) requestId = true) as Hin by (by apply contains_true).
      destruct Hd as [Hd|Hd]; rewrite Hd in Hin; [rewrite HR1 in Hin|rewrite HM1 in Hin];
        rewrite Hin in *; [rewrite <- Heq in Hpf|rewrite Heq in Hpf]; discriminate.
    + assert (Hadd : added c (resolve d mark msg requestId data c1).2
                     = ObsDispatch eventType (DPair requestId data) ::
                       match cb with Some _ => mark requestId data :: logs | None => [] end).
      { apply added_app. rewrite Htr, Ht1, <- app_assoc. reflexivity. }
      assert (Hpend : pending_request (resolve d mark msg requestId data c1).2 requestId = false).
      { unfold pending_request. rewrite HR. by rewrite contains_delete. }
      assert (Hquiet : completes_quietly c eventType requestId data →
                       (resolve d mark msg requestId data c1).1 = Return tt).
      { intros [_ Hq']. apply Hok. apply Hq'.
        rewrite <- Hcb. subst d. case_bool_decide; [by rewrite HR1|by rewrite HM1]. }
      destruct (resolve d mark msg requestId data c1) as [[[]|e|] c2];
        cbn [fst snd] in *; try congruence;
        try destruct (is_QueueEmpty e); subst r; cbn [fst snd]; rewrite Hadd.
      all: split; [destruct cb; repeat constructor; auto;
                   apply Forall_forall; intros o Ho;
                   rewrite Forall_forall in Hl; specialize (Hl o Ho); by destruct o|].
      all: split; [discriminate|]. 
      all: split; [assumption|]; intros Hcq; specialize (Hquiet Hcq); congruence.
Qed.


Lemma dispatchImpl_routing_witness :
  let listener := {| h_name := 1; h_run := fun _ => None |} in
  let c := Methods.subscribe TickerEvent listener
             (Scenario.ready [(ON_TICKER, DObj "t")] []) in
  let c' := Scenario.ready [(ON_RESULT, DPair 7 "r")] [] in
  (added c (dispatchImpl 1 None c).2
     = [ObsDispatch ON_TICKER (DObj "t"); ObsEmit TickerEvent (DObj "t");
        ObsHandler TickerEvent 1 (DObj "t")]
   ∧ (dispatchImpl 1 None c).1 = Return true)
  ∧ (Forall (fun o => is_emission o = false) (added c' (dispatchImpl 1 None c').2)
     ∧ (dispatchImpl 1 None c').1 = Return false).
Proof.
  intros listener c c'. split.
  - destruct (dispatchImpl_routing 0 None c _ ON_TICKER (DObj "t") [] eq_refl eq_refl I)
      as [Hn _].
    destruct (Hn TickerEvent eq_refl) as [Ha Hr]. split; [exact Ha|].
    apply Hr. reflexivity.
  - destruct (dispatchImpl_routing 0 None c' _ ON_RESULT (DPair 7 "r") [] eq_refl eq_refl I)
      as [_ Hc].
    destruct (Hc 7%nat "r" (or_introl eq_refl) eq_refl) as (He & _ & _ & Hq).
    split; [exact He|]. apply Hq. split; [reflexivity|].
    intros cb Hcb. vm_compute in Hcb. discriminate.
Defined.

(** ** Trades of the private channel *)

Lemma no_emit_among_handlers sink eventData (hs : list Handler) :
  List.filter is_emit (map (fun h => ObsHandler sink (h_name h) eventData) hs) = [].
Proof. induction hs as [|h hs IH]; cbn; auto. Qed.

(** C8: a trade reported on the private channel enqueues nothing; a trade
    reported on both channels, in either order, enqueues exactly one Trade
    event, the public copy; and polling a queue that held nothing else then
    emits exactly one trade notification. *)
Theorem onTrade_only_public_copy (trade : Payload) (ws : WSClient.t) :
  WSClient.onTrade trade false ws = ws ∧
  WSClient.queue (WSClient.fire_all ws [WSClient.Trade trade true; WSClient.Trade trade false])
    = WSClient.queue ws ++ [(ON_TRADE, DObj trade)] ∧
  WSClient.queue (WSClient.fire_all ws [WSClient.Trade trade false; WSClient.Trade trade true])
    = WSClient.queue ws ++ [(ON_TRADE, DObj trade)] ∧
  ∀ (c : Client) (fuel : nat),
    WSClient.queue ws = [] → WSClient.feed ws = [] →
    let c1 := set_wsClient
                (Some (WSClient.fire_all ws [WSClient.Trade trade true;
                                             WSClient.Trade trade false])) c in
    let r1 := Methods.dispatch (S fuel) c1 in
    let r2 := Methods.dispatch (S fuel) r1.2 in
    List.filter is_emit (added c1 r2.2) = [ObsEmit TradeEvent (DObj trade)].
Proof.
  split; [reflexivity|]. split; [reflexivity|]. split; [reflexivity|].
  intros c fuel Hq Hf c1 r1 r2.
  set (ws1 := WSClient.fire_all ws _) in c1.
  assert (Hq1 : WSClient.queue ws1 = [(ON_TRADE, DObj trade)]).
  { subst ws1. cbn. by rewrite Hq. }
  assert (Hf1 : WSClient.feed ws1 = []) by (subst ws1; cbn; by rewrite Hf).
  assert (E1 : r1 = dispatchImpl (S fuel) None c1) by reflexivity.
  assert (Hfound : found ws1 = [(ON_TRADE, DObj trade)]).
  { unfold found, Stream.next_tick. by rewrite Hf1, Hq1. }
  rewrite (dispatchImpl_head fuel None c1 ws1 ON_TRADE (DObj trade) [] eq_refl Hfound I) in E1.
  unfold route in E1. revert E1. decide_types. intros E1.
  rewrite returning_eq, emit_eq in E1.
  set (c2 := set_trace (trace (set_trace _ _) ++ _) _) in E1.
  assert (E1' : r1.2 = c2).
  { rewrite E1. destruct (raised _ _) as [e|]; [destruct (is_QueueEmpty e)|]; reflexivity. }
  clear E1. subst r2. rewrite E1'. unfold Methods.dispatch.
  assert (Hws2 : ∃ ws2, wsClient c2 = Some ws2 ∧ WSClient.queue ws2 = [] ∧ WSClient.feed ws2 = []).
  { eexists. split; [reflexivity|]. unfold Stream.next_tick. rewrite Hf1. cbn. done. }
  destruct Hws2 as (ws2 & Hws2 & Hq2 & Hf2).
  destruct (dispatchImpl_empty fuel None c2 ws2 Hws2) as (c3 & -> & Ht3 & _).
  { unfold Stream.next_tick. rewrite Hf2, Hq2. reflexivity. }
  cbn [snd].
  erewrite added_app; [|rewrite Ht3; subst c2; cbn [trace set_trace polled set_wsClient set_clock];
                         rewrite <- app_assoc; reflexivity].
  cbn [app List.filter is_emit]. by rewrite no_emit_among_handlers.
Qed.


Lemma onTrade_only_public_copy_witness :
  let ws := WSClient.new 0 (Scenario.session []) in
  let c := Scenario.ready [] [] in
  let c1 := set_wsClient
              (Some (WSClient.fire_all ws [WSClient.Trade "t" true;
                                           WSClient.Trade "t" false])) c in
  WSClient.queue ws = [] ∧ WSClient.feed ws = [] ∧
  List.filter is_emit (added c1 (Methods.dispatch 1 (Methods.dispatch 1 c1).2).2)
  = [ObsEmit TradeEvent (DObj "t")].
Proof.
  intros ws c c1. split; [reflexivity|]. split; [reflexivity|].
  destruct (onTrade_only_public_copy "t" ws) as (_ & _ & _ & H).
  exact (H c 0%nat eq_refl eq_refl).
Defined.

(** ** Waiting for a response: the exits of [waitResponse] *)

Lemma registerCallbacks_pending c requestId r m :
  pending_request c requestId = true →
  registerCallbacks requestId r m c = (Raise AssertionError, c).
Proof.
  unfold pending_request. intros [H _]%andb_true_iff. unfold_py. by rewrite H.
Qed.

Lemma registerCallbacks_returns c requestId r m c1 :
  registerCallbacks requestId r m c = (Return tt, c1) →
  pending_request c requestId = false ∧
  pending_request c1 requestId = true ∧
  resultCB c1 = <[requestId := r]> (resultCB c) ∧
  remarkCB c1 = <[requestId := m]> (remarkCB c) ∧
  trace c1 = trace c ∧ clock c1 = clock c ∧ wsClient c1 = wsClient c.
Proof.
  destruct (contains (resultCB c) requestId) eqn:HR.
  { unfold_py. rewrite HR. cbn. discriminate. }
  destruct (contains (remarkCB c) requestId) eqn:HM.
  { unfold_py. rewrite HR. cbn. rewrite HM. cbn. discriminate. }
  rewrite registerCallbacks_fresh by assumption. intros [= <-].
  unfold pending_request. cbn. rewrite HR, !contains_insert. done.
Qed.

Lemma waitLoop_unresolved dispatch requestId start timeout : ∀ fuel c c',
  pending_request c requestId = true →
  waitLoop dispatch fuel requestId start timeout c = (Return false, c') →
  pending_request c' requestId = true.
Proof.
  induction fuel as [|fuel IH]; intros c c' Hp; cbn [waitLoop]; [discriminate|].
  unfold bind at 1, time_time, get. cbn beta iota.
  destruct (clock c - start <? timeout); [|unfold ret; by intros [= <-]].
  unfold bind at 1. destruct (dispatch _ c) as [[b|e|] c1]; try discriminate.
  unfold bind, callbacksRegistered, get. cbn beta iota.
  fold (pending_request c1 requestId).
  destruct (pending_request c1 requestId) eqn:Hp1; cbn [negb]; [|discriminate].
  by apply IH.
Qed.

(** C1: what the code does when the deadline passes unresolved.  The call
    never returns False: whenever the loop ends with the request still
    unresolved, the cleanup call, which leaves out the request id, raises
    TypeError, the request stays in both dictionaries, and registering the
    same id again fails its assertion.  The last part runs a wait of 20 ms on
    a silent connection. *)
Theorem waitResponse_timeout_leaks :
  (∀ dispatch fuel requestId r m timeout c,
     (waitResponse dispatch fuel requestId r m timeout c).1 ≠ Return false)
  ∧ (∀ dispatch fuel requestId r m timeout c c1 c2,
       registerCallbacks requestId r m c = (Return tt, c1) →
       waitLoop dispatch fuel requestId (clock c1) timeout c1 = (Return false, c2) →
       waitResponse dispatch fuel requestId r m timeout c = (Raise TypeError, c2)
       ∧ pending_request c2 requestId = true
       ∧ ∀ r' m', registerCallbacks requestId r' m' c2 = (Raise AssertionError, c2))
  ∧ (let c := Scenario.ready [] (Scenario.silence 5) in
     let out := Methods.waitResponse 10 7 (Some (Scenario.quiet 1)) (Some (Scenario.quiet 2))
                                     20 c in
     out.1 = Raise TypeError ∧ clock out.2 = 20 ∧ pending_request out.2 7 = true ∧
     (registerCallbacks 7 (Some (Scenario.quiet 3)) (Some (Scenario.quiet 4)) out.2).1
     = Raise AssertionError).
Proof.
  split; [|split].
  - intros. unfold waitResponse, bind, try_finally, time_time, get.
    destruct (registerCallbacks _ _ _ c) as [[[]|e|] c1]; cbn; try discriminate.
    destruct (waitLoop _ _ _ _ _ c1) as [[[]|e|] c2]; cbn; discriminate.
  - intros * Hreg Hloop.
    destruct (registerCallbacks_returns _ _ _ _ _ Hreg) as (_ & Hp1 & _).
    pose proof (waitLoop_unresolved _ _ _ _ _ _ _ Hp1 Hloop) as Hp2.
    split; [|split; [assumption|intros; by apply registerCallbacks_pending]].
    unfold waitResponse, bind, try_finally, time_time, get. rewrite Hreg. cbn beta iota.
    rewrite Hloop. reflexivity.
  - vm_compute. repeat split.
Qed.

(** C2: what the code does when a completion callback raises.  No exception
    other than the TypeError of the cleanup (or the AssertionError of a
    refused registration) ever leaves [waitResponse]; on the run below the
    request is unregistered and the callback called, but an exception [e] of
    the callback reaches the caller as TypeError, and as a normal return of
    True when [e] is a KeyError or Queue.Empty. *)
Theorem waitResponse_masks_callback_exception :
  (∀ dispatch fuel requestId r m timeout c e,
     (waitResponse dispatch fuel requestId r m timeout c).1 = Raise e →
     e = TypeError
     ∨ (e = AssertionError
        ∧ (contains (resultCB c) requestId = true ∨ contains (remarkCB c) requestId = true)))
  ∧ (∀ e : Exn,
     let c := Scenario.ready [(ON_RESULT, DPair 7 "r")] [] in
     let out := Methods.waitResponse 10 7 (Some (Scenario.failing 1 e))
                                     (Some (Scenario.quiet 2)) 20 c in
     pending_request out.2 7 = false ∧
     trace out.2 = [ObsDispatch ON_RESULT (DPair 7 "r"); ObsResultCB 7 "r"]
                   ++ (if is_KeyError e then [ObsLog WARNING "Result for request"] else []) ∧
     out.1 = if is_KeyError e || is_QueueEmpty e then Return true else Raise TypeError).
Proof.
  split.
  - intros *. unfold waitResponse, bind, try_finally, time_time, get.
    destruct (registerCallbacks _ _ _ c) as [[[]|e'|] c1] eqn:Hreg; cbn.
    + destruct (waitLoop _ _ _ _ _ c1) as [[[]|e'|] c2]; cbn; intros [= <-]; auto.
    + intros [= <-]. revert Hreg. unfold_py.
      destruct (contains (resultCB c) requestId) eqn:HR; cbn.
      * intros [= <- <-]. auto.
      * destruct (contains (remarkCB c) requestId) eqn:HM; cbn; intros [= <- <-]; auto.
    + discriminate.
  - intros e. destruct e; vm_compute; repeat split.
Qed.

(** C3: a run of an authenticated client.  The first handshake succeeds;
    after a disconnection the private id key request 1 gets no answer and its
    wait times out, leaving request 1 registered; the next attempt succeeds.
    A second Disconnected event is then dispatched with reconnection enabled
    while request 1 is pending; the client reconnects and is ready again, and
    request 1 is still pending. *)
Theorem stale_request_survives_reconnection :
  let r1 := Methods.start Scenario.fuel Scenario.live in
  let r2 := Methods.dispatch Scenario.fuel r1.2 in
  let r3 := Methods.dispatch Scenario.fuel r2.2 in
  r1.1 = Return tt ∧
  r2.1 = Return true ∧ initializationOk r2.2 = Some true ∧
  enableReconnection r2.2 = true ∧ pending_request r2.2 1 = true ∧
  head (added r2.2 r3.2) = Some (ObsDispatch ON_DISCONNECTED DNone) ∧
  r3.1 = Return true ∧ initializationOk r3.2 = Some true ∧ stopped r3.2 = false ∧
  pending_request r3.2 1 = true.
Proof. vm_compute. repeat split. Qed.

(** ** Waiting for a response: resolution by a result *)

Lemma pending_lookup c requestId x y :
  resultCB c !! requestId = Some x → remarkCB c !! requestId = Some y →
  pending_request c requestId = true.
Proof.
  intros H1 H2. unfold pending_request.
  apply andb_true_iff; split; apply contains_true; eauto.
Qed.

Lemma type_in_responses eventType :
  type_in eventType [ON_RESULT; ON_REMARK] = true →
  eventType = ON_RESULT ∨ eventType = ON_REMARK.
Proof.
  unfold type_in. rewrite bool_decide_eq_true. intros H.
  apply elem_of_cons in H as [->|H]; [auto|].
  apply elem_of_cons in H as [->|H]; [auto|]. by apply elem_of_nil in H.
Qed.

Lemma is_log_foreign requestId logs : Forall is_log logs → Forall (foreign requestId) logs.
Proof.
  intros Hl. eapply Forall_impl; [exact Hl|].
  intros [] H; done.
Qed.

Lemma foreign_not_result requestId l :
  Forall (foreign requestId) l → Forall (not_result_dispatch requestId) l.
Proof. intros Hl. eapply Forall_impl; [exact Hl|]. by intros o [_ H]. Qed.

Section Poll.
Variables (requestId : nat) (rcb : Callback) (mcb : option Callback).

(** One poll of the wait, seen from a registered request: it leaves the
    request alone, or dispatches a result for it, or a remark for it. *)
Lemma poll_responses n c :
  registered requestId rcb mcb c →
  let r := dispatchImpl n (Some [ON_RESULT; ON_REMARK]) c in
  ∃ delta, trace r.2 = trace c ++ delta ∧
    ((registered requestId rcb mcb r.2 ∧ Forall (foreign requestId) delta)
     ∨ (∃ data logs,
          delta = ObsDispatch ON_RESULT (DPair requestId data)
                    :: ObsResultCB requestId data :: logs ∧
          Forall is_log logs ∧ pending_request r.2 requestId = false ∧
          (returns_normally (Some rcb) data → r.1 = Return false))
     ∨ (pending_request r.2 requestId = false ∧
        Forall (not_result_dispatch requestId) delta)).
Proof.
  intros [HR HM] r.
  assert (Er : r = dispatchImpl n (Some [ON_RESULT; ON_REMARK]) c) by reflexivity.
  clearbody r.
  destruct n as [|n].
  { subst r. exists []. rewrite app_nil_r. split; [done|]. left. by repeat split. }
  destruct (wsClient c) as [ws|] eqn:Hws.
  2:{ rewrite dispatchImpl_absent in Er by done. subst r. exists [].
      rewrite app_nil_r. split; [done|]. left. by repeat split. }
  destruct (WSClient.queue ws ++ enqueued (WSClient.arrivals (Stream.next_tick ws)))
    as [|[eventType eventData] q] eqn:Hq.
  { destruct (dispatchImpl_empty n (Some [ON_RESULT; ON_REMARK]) c ws Hws Hq)
      as (c' & E & Ht & HR' & HM').
    rewrite E in Er. subst r. exists []. rewrite app_nil_r. split; [done|].
    left. split; [|done]. split; cbn; [by rewrite HR'|by rewrite HM']. }
  rewrite (dispatchImpl_polled n _ c ws eventType eventData q Hws Hq) in Er.
  destruct (type_in eventType [ON_RESULT; ON_REMARK]) eqn:Hty; cbn [negb] in Er.
  2:{ subst r. exists []. rewrite app_nil_r. split; [done|]. left. by repeat split. }
  apply type_in_responses in Hty.
  set (c1 := set_trace _ _) in Er.
  assert (Hc1 : trace c1 = trace c ++ [ObsDispatch eventType eventData]
                ∧ resultCB c1 = resultCB c ∧ remarkCB c1 = remarkCB c) by done.
  destruct Hc1 as (Ht1 & HR1 & HM1).
  assert (Hforeign : ∀ o, (∀ i x, o ≠ ObsDispatch ON_RESULT (DPair i x)) →
                          is_completion requestId o = false → foreign requestId o).
  { intros o H1 H2. split; [done|]. intros x. apply H1. }
  destruct eventData as [|payload|requestId' data].
  1,2: eexists [ObsDispatch eventType _]; 
       assert (r = (Raise TypeError, c1)) as ->
         by (rewrite Er; destruct Hty; subst eventType; reflexivity);
       (split; [done|]); left; (split; [split; cbn; congruence|]);
       repeat constructor; intros x; discriminate.
  assert (E : r = returning false
                (resolve (if bool_decide (eventType = ON_RESULT) then resultCB else remarkCB)
                         (if bool_decide (eventType = ON_RESULT) then ObsResultCB else ObsRemarkCB)
                         (if bool_decide (eventType = ON_RESULT) then "Result for request"
                          else "Remark for request") requestId' data) c1).
  { rewrite Er. destruct Hty; subst eventType; reflexivity. }
  clear Er. rewrite returning_eq in E.
  set (d := if bool_decide (eventType = ON_RESULT) then resultCB else remarkCB) in E.
  set (mark := if bool_decide (eventType = ON_RESULT) then ObsResultCB else ObsRemarkCB) in E.
  set (msg := if bool_decide (eventType = ON_RESULT) then _ else _) in E.
  assert (Hd : d = resultCB ∨ d = remarkCB) by (subst d; case_bool_decide; auto).
  assert (Hpc1 : pending_request c1 requestId = true).
  { apply (pending_lookup _ _ (Some rcb) mcb); congruence. }
  destruct (resolve_cases d mark msg requestId' data c1 Hd)
    as [(Hn & Hr)|[(Hs & Hpf & Hr)|(cb & logs & Hcb & Hpt & Htr & Hl & HR' & HM' & Hnd & Hok)]].
  - (* nobody waits for requestId' *)
    assert (requestId' ≠ requestId).
    { intros ->. destruct Hd as [Hd|Hd]; rewrite Hd in Hn; congruence. }
    rewrite Hr in E. subst r. cbn [fst snd].
    exists [ObsDispatch eventType (DPair requestId' data); ObsLog WARNING msg].
    split; [cbn [trace set_trace]; by rewrite Ht1, <- app_assoc|].
    left. split; [split; cbn; congruence|].
    repeat constructor; try done. intros x [= -> ->]. done.
  - (* the dictionaries disagree on requestId' *)
    assert (requestId' ≠ requestId) by (intros ->; congruence).
    rewrite Hr in E. subst r. cbn [fst snd is_QueueEmpty].
    exists [ObsDispatch eventType (DPair requestId' data)].
    split; [done|]. left. split; [split; cbn; congruence|].
    repeat constructor; try done. intros x [= -> ->]. done.
  - (* requestId' is resolved *)
    assert (Hr2 : r.2 = (resolve d mark msg requestId' data c1).2).
    { rewrite E. destruct (resolve _ _ _ _ _ _) as [[[]|e|] c2]; cbn;
        try destruct (is_QueueEmpty e); reflexivity. }
    assert (Hr1 : (resolve d mark msg requestId' data c1).1 = Return tt → r.1 = Return false).
    { rewrite E. destruct (resolve _ _ _ _ _ _) as [[[]|e|] c2]; cbn; done. }
    clear E. rewrite <- Hr2 in Htr, HR', HM'. rewrite HR1 in HR'. rewrite HM1 in HM'.
    exists (ObsDispatch eventType (DPair requestId' data) ::
            match cb with Some _ => mark requestId' data :: logs | None => [] end).
    split; [by rewrite Htr, Ht1, <- app_assoc|].
    destruct (decide (requestId' = requestId)) as [->|Hne].
    + right. destruct Hty as [-> | ->]; subst d mark;
        [change (bool_decide (ON_RESULT = ON_RESULT)) with true in *
        |change (bool_decide (ON_REMARK = ON_RESULT)) with false in *]; cbn beta iota in *.
      * left. rewrite HR1, HR in Hcb. injection Hcb as <-.
        exists data, logs. split; [done|]. split; [done|]. split.
        { unfold pending_request. by rewrite HR', contains_delete. }
        intros Hn. apply Hr1, Hok, Hn.
      * right. split.
        { unfold pending_request. by rewrite HR', contains_delete. }
        constructor; [intros x; discriminate|].
        destruct cb; [|constructor].
        constructor; [intros x; discriminate|].
        by apply foreign_not_result, is_log_foreign.
    + left. split.
      { split; [rewrite HR'|rewrite HM']; by rewrite lookup_delete_ne. }
      constructor.
      { split; [done|]. intros x [= _ ?]. done. }
      destruct cb; [|constructor]. constructor; [|by apply is_log_foreign].
      split; [|intros x; subst mark; case_bool_decide; discriminate].
      subst mark. case_bool_decide; cbn; by apply bool_decide_eq_false.
Qed.

Lemma waitLoop_result n start timeout : ∀ fuel c,
  registered requestId rcb mcb c →
  let r := waitLoop (dispatchImpl n) fuel requestId start timeout c in
  ∃ delta, trace r.2 = trace c ++ delta ∧
    (Forall (not_result_dispatch requestId) delta
     ∨ ∃ data pre logs,
         delta = pre ++ ObsDispatch ON_RESULT (DPair requestId data)
                          :: ObsResultCB requestId data :: logs ∧
         Forall (foreign requestId) pre ∧ Forall is_log logs ∧
         pending_request r.2 requestId = false ∧
         (returns_normally (Some rcb) data → r.1 = Return true)).
Proof.
  induction fuel as [|fuel IH]; intros c Hreg r;
    assert (Er : r = waitLoop (dispatchImpl n) _ requestId start timeout c) by done;
    clearbody r; cbn [waitLoop] in Er.
  { subst r. exists []. rewrite app_nil_r. split; [done|]. left. constructor. }
  unfold bind at 1, time_time, get in Er. cbn beta iota in Er.
  destruct (clock c - start <? timeout).
  2:{ subst r. exists []. rewrite app_nil_r. split; [done|]. left. constructor. }
  unfold bind at 1 in Er.
  destruct (poll_responses n c Hreg) as (delta1 & Ht1 & Hcase).
  destruct (dispatchImpl n (Some [ON_RESULT; ON_REMARK]) c) as [o c1].
  cbn [fst snd] in *.
  unfold bind, callbacksRegistered, get in Er. fold (pending_request c1 requestId) in Er.
  destruct Hcase as [[Hreg1 Hf]|[(data & logs & -> & Hl & Hp & Hok)|[Hp Hf]]].
  - destruct o as [b|e|]; cbn beta iota in Er.
    2,3: subst r; exists delta1; split; [done|]; left; by apply foreign_not_result.
    destruct Hreg1 as [H1 H2]. rewrite (pending_lookup c1 _ _ _ H1 H2) in Er.
    cbn [negb] in Er.
    destruct (IH c1 (conj H1 H2)) as (delta2 & Ht2 & Hcase2). rewrite <- Er in *.
    exists (delta1 ++ delta2). split; [by rewrite Ht2, Ht1, <- app_assoc|].
    destruct Hcase2 as [Hn|(data & pre & logs & -> & Hpre & Hl & Hp & Hok)].
    + left. apply Forall_app. split; [by apply foreign_not_result|done].
    + right. exists data, (delta1 ++ pre), logs. rewrite <- app_assoc.
      split; [done|]. split; [by apply Forall_app|]. done.
  - assert (r.2 = c1 ∧ (o = Return false → r.1 = Return true)) as [E2 E1].
    { subst r. destruct o as [b|e|]; cbn beta iota; [|done..].
      rewrite Hp. cbn. done. }
    exists (ObsDispatch ON_RESULT (DPair requestId data) :: ObsResultCB requestId data :: logs).
    rewrite E2. split; [done|]. right. exists data, [], logs.
    split; [done|]. split; [constructor|]. split; [done|]. split; [done|].
    intros Hn. by apply E1, Hok.
  - assert (r.2 = c1) as E2.
    { subst r. destruct o as [b|e|]; cbn beta iota; [|done..].
      rewrite Hp. cbn. done. }
    exists delta1. rewrite E2. split; [done|by left].
Qed.
End Poll.

Lemma filter_foreign requestId l :
  Forall (foreign requestId) l → List.filter (is_completion requestId) l = [].
Proof.
  induction 1 as [|o l [Ho _] _ IH]; cbn; [done|]. by rewrite Ho.
Qed.

Lemma registerCallbacks_trace requestId r m c :
  trace (registerCallbacks requestId r m c).2 = trace c.
Proof.
  unfold_py. destruct (contains (resultCB c) requestId); cbn; [done|].
  destruct (contains (remarkCB c) requestId); cbn; done.
Qed.

(** C5: when a CommandResult for the request is dispatched during the call,
    that is before the deadline, and the result callback returns, the call
    returns True, and of the two callbacks of the request exactly the result
    callback has been called, once, with the data of the result; the request
    is no longer pending. *)
Theorem waitResponse_resolved_by_result
    (fuel : nat) (requestId : RequestId) (rcb : Callback) (mcb : option Callback)
    (timeout : Z) (c : Client) (data : Payload) :
  let r := Methods.waitResponse fuel requestId (Some rcb) mcb timeout c in
  ObsDispatch ON_RESULT (DPair requestId data) ∈ added c r.2 →
  returns_normally (Some rcb) data →
  r.1 = Return true ∧
  List.filter (is_completion requestId) (added c r.2) = [ObsResultCB requestId data] ∧
  pending_request r.2 requestId = false.
Proof.
  intros r.
  assert (Er : r = Methods.waitResponse fuel requestId (Some rcb) mcb timeout c) by done.
  clearbody r. unfold Methods.waitResponse, waitResponse in Er.
  unfold bind at 1 in Er.
  pose proof (registerCallbacks_trace requestId (Some rcb) mcb c) as Htr.
  destruct (registerCallbacks requestId (Some rcb) mcb c) as [[[]|e|] c1] eqn:Hreg;
    cbn [snd] in Htr.
  2,3: subst r; cbn [fst snd]; intros Hin;
       rewrite (added_app c c1 []) in Hin by (by rewrite app_nil_r);
       by apply elem_of_nil in Hin.
  destruct (registerCallbacks_returns _ _ _ _ _ Hreg) as (_ & _ & HR & HM & _).
  assert (Hregd : registered requestId rcb mcb c1).
  { split; [rewrite HR|rewrite HM]; apply lookup_insert_eq. }
  unfold bind, time_time, get, try_finally in Er. cbn beta iota in Er.
  destruct (waitLoop_result requestId rcb mcb fuel (clock c1) timeout fuel c1 Hregd)
    as (delta & Ht & Hcase).
  assert (E2 : r.2 = (waitLoop (dispatchImpl fuel) fuel requestId (clock c1) timeout c1).2
               ∧ ((waitLoop (dispatchImpl fuel) fuel requestId (clock c1) timeout c1).1
                  = Return true → r.1 = Return true)).
  { rewrite Er. destruct (waitLoop _ _ _ _ _ c1) as [[[]|e|] c2]; cbn; done. }
  destruct E2 as [E2 E1]. rewrite <- E2 in *. clear Er.
  rewrite (added_app c r.2 delta) by congruence.
  intros Hin Hn.
  destruct Hcase as [Hno|(data' & pre & logs & -> & Hpre & Hl & Hp & Hok)].
  { exfalso. rewrite Forall_forall in Hno. exact (Hno _ Hin data eq_refl). }
  assert (data' = data) as ->.
  { apply elem_of_app in Hin as [Hin|Hin].
    - rewrite Forall_forall in Hpre. destruct (Hpre _ Hin) as [_ Hnr].
      by destruct (Hnr data).
    - apply elem_of_cons in Hin as [[= ->]|Hin]; [done|].
      apply elem_of_cons in Hin as [?|Hin]; [done|].
      rewrite Forall_forall in Hl. by destruct (Hl _ Hin). }
  split; [by apply E1, Hok|]. split; [|done].
  rewrite List.filter_app, (filter_foreign _ _ Hpre). cbn.
  rewrite bool_decide_eq_true_2 by done.
  by rewrite (filter_foreign _ logs (is_log_foreign _ _ Hl)).
Qed.

Lemma waitResponse_resolved_by_result_witness :
  let c := Scenario.ready [(ON_TICKER, DObj "t"); (ON_RESULT, DPair 7 "r")]
                          (Scenario.silence 3) in
  let r := Methods.waitResponse 10 7 (Some (Scenario.quiet 1)) (Some (Scenario.quiet 2))
                                1000 c in
  r.1 = Return true ∧
  List.filter (is_completion 7) (added c r.2) = [ObsResultCB 7 "r"] ∧
  pending_request r.2 7 = false.
Proof.
  intros c r. apply (waitResponse_resolved_by_result 10 7 _ _ 1000 c "r").
  - vm_compute. constructor.
  - reflexivity.
Defined.

(** ** Relations that every step respects *)

(** For a relation that tolerates the primitive steps, every method of the
    client relates the state it starts in to the state it ends in, whatever
    its outcome. *)
Section Basic.
Variable R : Client → Client → Prop.
Hypothesis HB : ToleratesBasic R.

Lemma steps_ret {A} (a : A) : steps R (ret a).
Proof. intros c. apply (tol_refl R HB). Qed.

Lemma steps_raise {A} e : steps R (@raise A e).
Proof. intros c. apply (tol_refl R HB). Qed.

Lemma steps_diverge {A} : steps R (@diverge A).
Proof. intros c. apply (tol_refl R HB). Qed.

Lemma steps_get {A} (f : Client → A) : steps R (get f).
Proof. intros c. apply (tol_refl R HB). Qed.

Lemma steps_modify f : (∀ c, R c (f c)) → steps R (modify f).
Proof. intros H c. apply H. Qed.

Lemma steps_bind {A B} (m : Py A) (k : A → Py B) :
  steps R m → (∀ a, steps R (k a)) → steps R (bind m k).
Proof.
  intros Hm Hk c. unfold bind. specialize (Hm c).
  destruct (m c) as [[a|e|] c1]; cbn in *; [|done..].
  eapply (tol_trans R HB); [exact Hm|apply Hk].
Qed.

Lemma steps_try_except {A} (m : Py A) catches handler :
  steps R m → (∀ e, steps R (handler e)) → steps R (try_except m catches handler).
Proof.
  intros Hm Hh c. unfold try_except. specialize (Hm c).
  destruct (m c) as [[a|e|] c1]; cbn in *; [done| |done].
  destruct (catches e); [|done]. eapply (tol_trans R HB); [exact Hm|apply Hh].
Qed.

Lemma steps_try_finally {A} (m : Py A) cleanup :
  steps R m → (∀ a, steps R (cleanup a)) → steps R (try_finally m cleanup).
Proof.
  intros Hm Hc c. unfold try_finally. specialize (Hm c).
  destruct (m c) as [[a|e|] c1]; cbn in *; [| |done].
  - specialize (Hc (Some a) c1). destruct (cleanup (Some a) c1) as [[[]|e|] c2];
      cbn in *; eapply (tol_trans R HB); eauto.
  - specialize (Hc None c1). destruct (cleanup None c1) as [[[]|e'|] c2];
      cbn in *; eapply (tol_trans R HB); eauto.
Qed.

Lemma steps_observe o : (∀ t d, o ≠ ObsDispatch t d) → steps R (observe o).
Proof. intros H c. by apply (tol_observe R HB). Qed.

End Basic.

(** One step of the proof that a computation respects [R]: a hypothesis or
    lemma at hand, a combinator, an assignment [R] tolerates, or a case
    distinction of the code. *)
Ltac step_in R HB :=
  first
    [ match goal with
      | H : context [steps R _] |- steps R _ => solve [apply H]
      end
    | apply (steps_ret R HB) | apply (steps_raise R HB) | apply (steps_diverge R HB)
    | apply (steps_get R HB)
    | apply (steps_observe R HB); intros ? ?; discriminate
    | apply (steps_bind R HB); [|intros ?]
    | apply (steps_try_except R HB); [|intros ?]
    | apply (steps_try_finally R HB); [|intros ?]
    | apply (steps_modify R); intros ?;
      first [ apply (tol_clock R HB) | apply (tol_resultCB R HB) | apply (tol_remarkCB R HB)
            | apply (tol_outs R HB) | apply (tol_initializationOk R HB)
            | apply (tol_stopped R HB) | apply (tol_nextRequestId R HB)
            | apply (tol_enableReconnection R HB) ]
    | match goal with
      | |- steps R (match ?x with _ => _ end) => destruct x
      | |- steps R (let (_, _) := ?x in _) => destruct x
      end ].

Ltac steps_in R HB := repeat step_in R HB.

Section Derived.
Variable R : Client → Client → Prop.
Hypothesis HB : ToleratesBasic R.

Lemma steps_assert b : steps R (assert_ b).
Proof. unfold assert_. steps_in R HB. Qed.

Lemma steps_log l m : steps R (log l m).
Proof. unfold log. steps_in R HB. Qed.

Lemma steps_registerCallbacks i r m : steps R (registerCallbacks i r m).
Proof. unfold registerCallbacks. pose proof steps_assert. steps_in R HB. Qed.

Lemma steps_unregisterCallbacks i : steps R (unregisterCallbacks i).
Proof. unfold unregisterCallbacks. pose proof steps_assert. steps_in R HB. Qed.

Lemma steps_call f data : steps R (call f data).
Proof. unfold call. pose proof steps_log. steps_in R HB. Qed.

Lemma steps_resolve d mark msg i data :
  (∀ t x, mark i data ≠ ObsDispatch t x) → steps R (resolve d mark msg i data).
Proof.
  intros Hm. unfold resolve, subscript.
  pose proof steps_log. pose proof steps_unregisterCallbacks. pose proof steps_call.
  steps_in R HB. by apply (steps_observe R HB).
Qed.

Lemma steps_onResult i data : steps R (onResult i data).
Proof. rewrite onResult_resolve. by apply steps_resolve. Qed.

Lemma steps_onRemark i data : steps R (onRemark i data).
Proof. rewrite onRemark_resolve. by apply steps_resolve. Qed.

Lemma steps_call_handlers sink d hs : steps R (call_handlers sink hs d).
Proof. induction hs as [|h hs IH]; cbn [call_handlers]; steps_in R HB. Qed.

Lemma steps_emit sink d : steps R (emit sink d).
Proof. unfold emit. pose proof steps_call_handlers. steps_in R HB. Qed.

Lemma steps_returning b m : steps R m → steps R (returning b m).
Proof. intros. unfold returning. steps_in R HB. Qed.

Lemma steps_the_wsClient : steps R Stream.the_wsClient.
Proof. unfold Stream.the_wsClient. steps_in R HB. Qed.

Lemma steps_send : steps R Stream.send.
Proof. unfold Stream.send. pose proof steps_the_wsClient. steps_in R HB. Qed.

Lemma steps_connect : steps R Stream.connect.
Proof. unfold Stream.connect. pose proof steps_the_wsClient. steps_in R HB. Qed.

Lemma steps_requestId : steps R Stream.requestPrivateIdKey.
Proof. unfold Stream.requestPrivateIdKey. pose proof steps_send. steps_in R HB. Qed.

Lemma steps_is_alive : steps R Stream.is_alive.
Proof. unfold Stream.is_alive. steps_in R HB. Qed.

Lemma steps_time_sleep s : steps R (time_sleep s).
Proof. unfold time_sleep. steps_in R HB. Qed.


(** Events other than Connected and Disconnected are handled without another
    poll. *)
Lemma steps_route_plain dispatch fuel t d :
  t ≠ ON_CONNECTED → t ≠ ON_DISCONNECTED → steps R (route dispatch fuel t d).
Proof.
  intros H7 H8. unfold route, unpack.
  pose proof steps_log. pose proof steps_emit. pose proof steps_onResult.
  pose proof steps_onRemark.
  repeat case_bool_decide; try done; apply steps_returning; steps_in R HB.
Qed.

End Derived.

Section Steps.
Variable R : Client → Client → Prop.
Hypothesis HT : Tolerates R.
Let HB : ToleratesBasic R := tol_basic R HT.

Lemma steps_new_WSClient : steps R Stream.new_WSClient.
Proof. exact (tol_new_WSClient R HT). Qed.

Lemma steps_new_Thread : steps R Stream.new_Thread.
Proof. exact (tol_new_Thread R HT). Qed.

Lemma steps_stopClient : steps R Stream.stopClient.
Proof. exact (tol_stopClient R HT). Qed.

Lemma steps_join : steps R Stream.join.
Proof. exact (tol_join R HT). Qed.

Section Open.
Variable dispatch : option (list nat) → Py bool.
Hypothesis Hdispatch : ∀ f, steps R (dispatch f).

Lemma steps_waitLoop i start timeout : ∀ fuel, steps R (waitLoop dispatch fuel i start timeout).
Proof.
  induction fuel as [|fuel IH]; cbn [waitLoop]; unfold time_time, callbacksRegistered; steps_in R HB.
Qed.

Lemma steps_waitResponse fuel i r m timeout : steps R (waitResponse dispatch fuel i r m timeout).
Proof.
  unfold waitResponse, time_time, unregisterCallbacks_without_argument.
  pose proof (steps_registerCallbacks R HB). pose proof steps_waitLoop. steps_in R HB.
Qed.

Lemma steps_requestPrivateIdKey fuel : steps R (requestPrivateIdKey dispatch fuel).
Proof.
  unfold requestPrivateIdKey.
  pose proof (steps_log R HB). pose proof (steps_requestId R HB). pose proof steps_waitResponse. steps_in R HB.
Qed.

Lemma steps_onConnected fuel : steps R (onConnected dispatch fuel).
Proof.
  unfold onConnected, Stream.unsubscribeChannel, Stream.subscribePrivateChannel.
  pose proof (steps_log R HB). pose proof (steps_send R HB). pose proof steps_requestPrivateIdKey. steps_in R HB.
Qed.

Lemma steps_initLoop : ∀ fuel, steps R (initLoop dispatch fuel).
Proof.
  induction fuel as [|fuel IH]; cbn [initLoop]; pose proof (steps_is_alive R HB); steps_in R HB.
Qed.

Lemma steps_initializeClient fuel : steps R (initializeClient dispatch fuel).
Proof.
  unfold initializeClient.
  pose proof (steps_log R HB). pose proof (steps_connect R HB). pose proof steps_initLoop.
  pose proof steps_new_WSClient. pose proof steps_new_Thread. steps_in R HB.
Qed.

Lemma steps_reconnectLoop : ∀ fuel, steps R (reconnectLoop dispatch fuel).
Proof.
  induction fuel as [|fuel IH]; cbn [reconnectLoop];
    pose proof (steps_log R HB); pose proof steps_initializeClient; pose proof (steps_time_sleep R HB); steps_in R HB.
Qed.

Lemma steps_onDisconnected fuel : steps R (onDisconnected dispatch fuel).
Proof.
  unfold onDisconnected. pose proof (steps_log R HB). pose proof steps_reconnectLoop. steps_in R HB.
Qed.

Lemma steps_route fuel t d : steps R (route dispatch fuel t d).
Proof.
  unfold route, unpack.
  pose proof (steps_log R HB). pose proof (steps_emit R HB). pose proof (steps_onResult R HB).
  pose proof (steps_onRemark R HB). pose proof steps_onConnected. pose proof steps_onDisconnected.
  repeat case_bool_decide; apply (steps_returning R HB); steps_in R HB.
Qed.

Lemma steps_dispatchImpl_body fuel f : steps R (dispatchImpl_body dispatch fuel f).
Proof.
  intros c. unfold dispatchImpl_body, try_except. unfold bind at 1 2, ret at 1.
  pose proof (tol_Queue_get R HT c) as Hget.
  destruct (Stream.Queue_get c) as [[[t d]|e|] c1] eqn:E; cbn [fst snd] in *.
  - destruct (match f with Some _ => _ | None => _ end); [done|].
    unfold bind, observe, modify. cbn beta iota.
    eapply (tol_trans R HB); [exact (tol_mark R HT c (t, d) c1 E)|]. apply steps_route.
  - destruct (is_QueueEmpty e); done.
  - done.
Qed.

End Open.

Lemma steps_dispatchImpl : ∀ fuel f, steps R (dispatchImpl fuel f).
Proof.
  induction fuel as [|fuel IH]; intros f; cbn [dispatchImpl].
  - apply (steps_diverge R HB).
  - apply steps_dispatchImpl_body. apply IH.
Qed.

Lemma steps_Methods_waitResponse fuel i r m timeout :
  steps R (Methods.waitResponse fuel i r m timeout).
Proof. apply steps_waitResponse, steps_dispatchImpl. Qed.

Lemma steps_Methods_requestPrivateIdKey fuel : steps R (Methods.requestPrivateIdKey fuel).
Proof. apply steps_requestPrivateIdKey, steps_dispatchImpl. Qed.

Lemma steps_start fuel : steps R (Methods.start fuel).
Proof.
  unfold Methods.start.
  pose proof (steps_initializeClient (dispatchImpl fuel) (steps_dispatchImpl fuel)).
  steps_in R HB.
Qed.

Lemma steps_stop : steps R Methods.stop.
Proof.
  unfold Methods.stop.
  pose proof (steps_log R HB). pose proof (steps_is_alive R HB). pose proof steps_stopClient. steps_in R HB.
Qed.

Lemma steps_Methods_join : steps R Methods.join.
Proof. unfold Methods.join. pose proof steps_join. steps_in R HB. Qed.

Lemma steps_run_op op c : R c (run_op op c).
Proof.
  destruct op; cbn [run_op].
  - apply steps_start.
  - apply steps_stop.
  - apply steps_Methods_join.
  - apply (tol_refl R HB).
  - apply steps_dispatchImpl.
  - apply steps_Methods_waitResponse.
  - apply steps_Methods_requestPrivateIdKey.
  - apply (tol_enableReconnection R HB).
  - apply (tol_subscribe R HT).
Qed.

Lemma steps_run_ops ops : ∀ c, R c (run_ops ops c).
Proof.
  unfold run_ops. induction ops as [|op ops IH]; intros c; cbn [foldl].
  - apply (tol_refl R HB).
  - eapply (tol_trans R HB); [apply steps_run_op|apply IH].
Qed.

Lemma steps_pump fuel n : ∀ c, R c (pump fuel n c).
Proof.
  induction n as [|n IH]; intros c; cbn [pump].
  - apply (tol_refl R HB).
  - eapply (tol_trans R HB); [apply steps_dispatchImpl|apply IH].
Qed.

End Steps.

(** The thread reference is only ever assigned a thread. *)
Lemma keeps_thread_basic : ToleratesBasic keeps_thread.
Proof. split; unfold keeps_thread; try done. auto. Qed.

Lemma keeps_thread_tolerated : Tolerates keeps_thread.
Proof.
  split; [exact keeps_thread_basic|..]; unfold keeps_thread; try done.
  - intros c. unfold Stream.Queue_get, Stream.the_wsClient. unfold_py.
    destruct (wsClient c) as [ws|]; cbn; [|done].
    destruct (WSClient.queue _); done.
  - intros c x c1. unfold Stream.Queue_get, Stream.the_wsClient. unfold_py.
    destruct (wsClient c) as [ws|]; cbn; [|done].
    destruct (WSClient.queue _); [done|]. by intros [= _ <-].
  - intros c. unfold Stream.stopClient, Stream.the_wsClient. unfold_py.
    destruct (wsClient c) as [ws|]; cbn; done.
  - intros c Hc. unfold Stream.join. unfold_py.
    destruct (thread c) eqn:Et; cbn; [|by rewrite Et].
    destruct (wsClient c); cbn; [|by rewrite Et].
    case_bool_decide; cbn; by rewrite Et.
  - intros c. unfold Stream.new_Thread, Stream.the_wsClient. unfold_py.
    destruct (wsClient c) as [ws|]; cbn; [eauto|done].
Qed.

Lemma extends_trace_same c c1 : trace c1 = trace c → extends_trace c c1.
Proof. intros H. exists []. by rewrite app_nil_r. Qed.

Lemma extends_trace_basic : ToleratesBasic extends_trace.
Proof.
  split; try (intros; by apply extends_trace_same).
  - intros a b c [d1 H1] [d2 H2]. exists (d1 ++ d2). by rewrite H2, H1, <- app_assoc.
  - intros o c _. by exists [o].
Qed.

Lemma extends_trace_tolerated : Tolerates extends_trace.
Proof.
  split; [exact extends_trace_basic|..]; try (intros; by apply extends_trace_same).
  - intros c. apply extends_trace_same.
    unfold Stream.Queue_get, Stream.the_wsClient. unfold_py.
    destruct (wsClient c) as [ws|]; cbn; [|done].
    destruct (WSClient.queue _); done.
  - intros c x c1. unfold Stream.Queue_get, Stream.the_wsClient. unfold_py.
    destruct (wsClient c) as [ws|]; cbn; [|done].
    destruct (WSClient.queue _); [done|]. intros [= _ <-]. by eexists [_].
  - intros c. apply extends_trace_same.
    unfold Stream.stopClient, Stream.the_wsClient. unfold_py.
    destruct (wsClient c) as [ws|]; cbn; done.
  - intros c. apply extends_trace_same. unfold Stream.join. unfold_py.
    destruct (thread c); cbn; [|done]. destruct (wsClient c); cbn; [|done].
    case_bool_decide; done.
  - intros c. apply extends_trace_same.
    unfold Stream.new_Thread, Stream.the_wsClient. unfold_py.
    destruct (wsClient c) as [ws|]; cbn; done.
Qed.

Lemma dispatched_app a b : dispatched (a ++ b) = dispatched a ++ dispatched b.
Proof. apply omap_app. Qed.

Lemma scheduled_cons tick ticks :
  scheduled (tick :: ticks) = enqueued (WSClient.arrivals tick) ++ scheduled ticks.
Proof. reflexivity. Qed.

Lemma next_tick_scheduled ws :
  scheduled (WSClient.feed ws)
  = enqueued (WSClient.arrivals (Stream.next_tick ws)) ++ scheduled (tail (WSClient.feed ws)).
Proof. unfold Stream.next_tick. by destruct (WSClient.feed ws). Qed.

Lemma run_ticks_queue ticks : ∀ ws,
  WSClient.queue (foldl Stream.run_tick ws ticks) = WSClient.queue ws ++ scheduled ticks.
Proof.
  induction ticks as [|tick ticks IH]; intros ws; cbn [foldl].
  - by rewrite app_nil_r.
  - rewrite IH. unfold Stream.run_tick. rewrite fire_all_queue, scheduled_cons.
    by rewrite <- app_assoc.
Qed.

Lemma in_order_sub c c' :
  trace c' = trace c → sublist (pushed c') (pushed c) → in_order c c'.
Proof. intros Ht Hs. unfold in_order. rewrite Ht. by apply sublist_app. Qed.

Lemma in_order_basic : ToleratesBasic in_order.
Proof.
  split.
  - intros c. unfold in_order. done.
  - intros a b c H1 H2. unfold in_order in *. by etrans.
  - intros v c. by apply in_order_sub.
  - intros v c. by apply in_order_sub.
  - intros v c. by apply in_order_sub.
  - intros v c. by apply in_order_sub.
  - intros v c. by apply in_order_sub.
  - intros v c. by apply in_order_sub.
  - intros v c. by apply in_order_sub.
  - intros v c. by apply in_order_sub.
  - intros o c Ho. unfold in_order. cbn [trace set_trace]. rewrite dispatched_app.
    assert (dispatched [o] = []) as -> by (destruct o; try done; by destruct (Ho eventType eventData)).
    by rewrite app_nil_r.
Qed.

Lemma in_order_tolerated : Tolerates in_order.
Proof.
  split; [exact in_order_basic|..].
  - intros c. destruct (wsClient c) as [ws|] eqn:Hws.
    2:{ rewrite Queue_get_absent by done. by apply in_order_sub. }
    rewrite (Queue_get_present c ws Hws).
    assert (Hp : pushed c = (WSClient.queue ws ++ enqueued (WSClient.arrivals (Stream.next_tick ws)))
                  ++ scheduled (tail (WSClient.feed ws))
                  ++ concat (map (fun s => scheduled (WSClient.script s)) (sessions c))).
    { unfold pushed. rewrite Hws, (next_tick_scheduled ws). by rewrite <- !app_assoc. }
    destruct (fire_all_rest (WSClient.arrivals (Stream.next_tick ws))
                (WSClient.set_feed (tail (WSClient.feed ws)) ws)) as (Hfeed & _).
    destruct (WSClient.queue ws ++ _) as [|x q] eqn:Hq; cbn [snd]; apply in_order_sub; try done.
    + rewrite Hp. unfold pushed. cbn. rewrite fire_all_queue, Hfeed. cbn.
      rewrite Hq. by rewrite <- app_assoc.
    + rewrite Hp. unfold pushed. cbn. rewrite Hfeed. cbn.
      rewrite <- !app_assoc. by apply sublist_cons.
  - intros c x c1. destruct (wsClient c) as [ws|] eqn:Hws.
    2:{ by rewrite Queue_get_absent. }
    rewrite (Queue_get_present c ws Hws).
    assert (Hp : pushed c = (WSClient.queue ws ++ enqueued (WSClient.arrivals (Stream.next_tick ws)))
                  ++ scheduled (tail (WSClient.feed ws))
                  ++ concat (map (fun s => scheduled (WSClient.script s)) (sessions c))).
    { unfold pushed. rewrite Hws, (next_tick_scheduled ws). by rewrite <- !app_assoc. }
    destruct (fire_all_rest (WSClient.arrivals (Stream.next_tick ws))
                (WSClient.set_feed (tail (WSClient.feed ws)) ws)) as (Hfeed & _).
    destruct (WSClient.queue ws ++ _) as [|y q] eqn:Hq; [done|]. intros [= -> <-].
    unfold in_order. cbn [trace set_trace set_wsClient set_clock]. rewrite dispatched_app, Hp.
    unfold pushed. cbn. rewrite Hfeed. cbn. destruct x as [t d]. cbn.
    by rewrite <- !app_assoc.
  - intros c. apply in_order_sub; [done|]. unfold pushed. cbn. unfold Stream.next_session.
    destruct (sessions c) as [|s rest]; cbn.
    + apply sublist_nil_l.
    + apply sublist_inserts_l. done.
  - intros c. unfold Stream.stopClient, Stream.the_wsClient. unfold_py.
    destruct (wsClient c) as [ws|] eqn:Hws; cbn; [|by apply in_order_sub].
    apply in_order_sub; [done|]. unfold pushed. rewrite Hws. cbn.
    apply sublist_app; [|done]. apply sublist_app; [done|apply sublist_nil_l].
  - intros c. unfold Stream.join. unfold_py.
    destruct (thread c); cbn; [|by apply in_order_sub].
    destruct (wsClient c) as [ws|] eqn:Hws; cbn; [|by apply in_order_sub].
    case_bool_decide; cbn; [|by apply in_order_sub]. apply in_order_sub; [done|].
    unfold pushed. rewrite Hws. cbn. rewrite run_ticks_queue. by rewrite app_nil_r.
  - intros c. unfold Stream.new_Thread, Stream.the_wsClient. unfold_py.
    destruct (wsClient c) as [ws|] eqn:Hws; cbn; apply in_order_sub; done.
  - intros s h c. by apply in_order_sub.
Qed.

(** ** Order of dispatch *)

(** Handling an event that needs no further poll leaves the queue alone and
    dispatches nothing more. *)
Lemma undisturbed_basic : ToleratesBasic undisturbed.
Proof.
  split; try (intros; split; [done|]; exists []; by rewrite app_nil_r).
  - intros a b c [Hw1 (d1 & H1 & E1)] [Hw2 (d2 & H2 & E2)]. split; [congruence|].
    exists (d1 ++ d2). rewrite H2, H1, <- app_assoc. split; [done|].
    by rewrite dispatched_app, E1, E2.
  - intros o c Ho. split; [done|]. exists [o]. split; [done|].
    destruct o; try done. by destruct (Ho eventType eventData).
Qed.

(** ** Order of dispatch *)

Lemma added_same c c1 c2 : trace c1 = trace c → added c c2 = added c1 c2.
Proof. unfold added. by intros ->. Qed.

Lemma dispatchImpl_idle fuel eventFilter c ws :
  wsClient c = Some ws → found ws = [] →
  dispatchImpl (S fuel) eventFilter c =
    (Return false,
     set_wsClient
       (Some (WSClient.fire_all (WSClient.set_feed (tail (WSClient.feed ws)) ws)
                                (WSClient.arrivals (Stream.next_tick ws))))
       (set_clock (clock c + WSClient.elapsed (Stream.next_tick ws)) c)).
Proof.
  intros Hws Hq. cbn [dispatchImpl]. unfold dispatchImpl_body.
  unfold try_except at 1. unfold bind at 1 2.
  unfold found in Hq. rewrite (Queue_get_present c ws Hws), Hq. reflexivity.
Qed.

(** On a connection that delivers nothing more, the polls of a queue without
    Connected or Disconnected events dispatch exactly its events, one each. *)
Lemma plain_polls fuel : ∀ n c ws,
  wsClient c = Some ws → WSClient.feed ws = [] →
  Forall (fun x => x.1 ≠ ON_CONNECTED ∧ x.1 ≠ ON_DISCONNECTED) (WSClient.queue ws) →
  dispatched (added c (pump (S fuel) n c)) = take n (WSClient.queue ws).
Proof.
  induction n as [|n IH]; intros c ws Hws Hf Hq; cbn [pump].
  { unfold added. by rewrite drop_all. }
  assert (Hfound : found ws = WSClient.queue ws).
  { unfold found, Stream.next_tick. rewrite Hf. cbn. by rewrite app_nil_r. }
  unfold Methods.dispatch.
  destruct (WSClient.queue ws) as [|[t d] q] eqn:Eq.
  - rewrite (dispatchImpl_idle fuel None c ws Hws Hfound). cbn [snd].
    set (c1 := set_wsClient _ _).
    rewrite (added_same c c1) by done.
    rewrite (IH c1 (WSClient.set_feed [] ws)); cbn; rewrite ?Eq; try done.
    + by rewrite take_nil.
    + subst c1. unfold Stream.next_tick. rewrite Hf. reflexivity.
  - rewrite (dispatchImpl_head fuel None c ws t d q Hws Hfound I).
    apply Forall_cons in Hq as [[H7 H8] Hq]. cbn in H7, H8.
    set (c1 := set_trace _ _).
    destruct (steps_route_plain undisturbed undisturbed_basic (dispatchImpl fuel) fuel t d
                H7 H8 c1) as [Hw (d2 & Ht2 & Hd2)].
    set (c2 := (route (dispatchImpl fuel) fuel t d c1).2) in *.
    destruct (steps_pump extends_trace extends_trace_tolerated (S fuel) n c2) as [d3 Ht3].
    assert (Hws2 : wsClient c2 = Some (WSClient.set_queue q (WSClient.set_feed [] ws))).
    { rewrite Hw. subst c1. cbn. unfold Stream.next_tick. rewrite Hf. reflexivity. }
    specialize (IH c2 _ Hws2 eq_refl Hq).
    rewrite (added_app c2 _ d3 Ht3) in IH.
    rewrite (added_app c _ ([ObsDispatch t d] ++ d2 ++ d3)).
    + rewrite !dispatched_app, Hd2, IH. reflexivity.
    + rewrite Ht3, Ht2. subst c1. cbn. by rewrite <- !app_assoc.
Qed.

(** ** What reaches the handlers *)

Section Logs.
Variable R : Client → Client → Prop.
Hypothesis HL : ToleratesLogs R.

Lemma quiet_ret {A} (a : A) : steps R (ret a).
Proof. intros c. apply (logs_refl R HL). Qed.

Lemma quiet_raise {A} e : steps R (@raise A e).
Proof. intros c. apply (logs_refl R HL). Qed.

Lemma quiet_diverge {A} : steps R (@diverge A).
Proof. intros c. apply (logs_refl R HL). Qed.

Lemma quiet_get {A} (f : Client → A) : steps R (get f).
Proof. intros c. apply (logs_refl R HL). Qed.

Lemma quiet_modify f : (∀ c, R c (f c)) → steps R (modify f).
Proof. intros H c. apply H. Qed.

Lemma quiet_bind {A B} (m : Py A) (k : A → Py B) :
  steps R m → (∀ a, steps R (k a)) → steps R (bind m k).
Proof.
  intros Hm Hk c. unfold bind. specialize (Hm c).
  destruct (m c) as [[a|e|] c1]; cbn in *; [|done..].
  eapply (logs_trans R HL); [exact Hm|apply Hk].
Qed.

Lemma quiet_try_except {A} (m : Py A) catches handler :
  steps R m → (∀ e, steps R (handler e)) → steps R (try_except m catches handler).
Proof.
  intros Hm Hh c. unfold try_except. specialize (Hm c).
  destruct (m c) as [[a|e|] c1]; cbn in *; [done| |done].
  destruct (catches e); [|done]. eapply (logs_trans R HL); [exact Hm|apply Hh].
Qed.

Lemma quiet_try_finally {A} (m : Py A) cleanup :
  steps R m → (∀ a, steps R (cleanup a)) → steps R (try_finally m cleanup).
Proof.
  intros Hm Hc c. unfold try_finally. specialize (Hm c).
  destruct (m c) as [[a|e|] c1]; cbn in *; [| |done].
  - specialize (Hc (Some a) c1). destruct (cleanup (Some a) c1) as [[[]|e|] c2];
      cbn in *; eapply (logs_trans R HL); eauto.
  - specialize (Hc None c1). destruct (cleanup None c1) as [[[]|e'|] c2];
      cbn in *; eapply (logs_trans R HL); eauto.
Qed.

Lemma quiet_log level msg : steps R (log level msg).
Proof. intros c. apply (logs_log R HL). Qed.

End Logs.

Ltac quiet_step R HL :=
  first
    [ match goal with
      | H : context [steps R _] |- steps R _ => solve [apply H]
      end
    | apply (quiet_ret R HL) | apply (quiet_raise R HL) | apply (quiet_diverge R HL)
    | apply (quiet_get R HL) | apply (quiet_log R HL)
    | apply (quiet_bind R HL); [|intros ?]
    | apply (quiet_try_except R HL); [|intros ?]
    | apply (quiet_try_finally R HL); [|intros ?]
    | apply (quiet_modify R); intros ?;
      first [ apply (logs_clock R HL) | apply (logs_resultCB R HL) | apply (logs_remarkCB R HL)
            | apply (logs_outs R HL) | apply (logs_initializationOk R HL)
            | apply (logs_stopped R HL) | apply (logs_nextRequestId R HL)
            | apply (logs_wsClient R HL) | apply (logs_thread R HL) ]
    | match goal with
      | |- steps R (match ?x with _ => _ end) => destruct x
      | |- steps R (let (_, _) := ?x in _) => destruct x
      end ].

Ltac quiet_steps R HL := repeat quiet_step R HL.

(** The handshake and the reconnection write log lines only, apart from
    what the polls they make dispatch. *)
Section LogsOnly.
Variable R : Client → Client → Prop.
Hypothesis HL : ToleratesLogs R.
Variable dispatch : option (list nat) → Py bool.
Hypothesis Hdispatch : ∀ f, steps R (dispatch f).

Lemma quiet_registerCallbacks i r m : steps R (registerCallbacks i r m).
Proof. unfold registerCallbacks, assert_. quiet_steps R HL. Qed.

Lemma quiet_the_wsClient : steps R Stream.the_wsClient.
Proof. unfold Stream.the_wsClient. quiet_steps R HL. Qed.

Lemma quiet_send : steps R Stream.send.
Proof. unfold Stream.send. pose proof quiet_the_wsClient. quiet_steps R HL. Qed.

Lemma quiet_requestId : steps R Stream.requestPrivateIdKey.
Proof. unfold Stream.requestPrivateIdKey. pose proof quiet_send. quiet_steps R HL. Qed.

Lemma quiet_is_alive : steps R Stream.is_alive.
Proof. unfold Stream.is_alive. quiet_steps R HL. Qed.

Lemma quiet_new_WSClient : steps R Stream.new_WSClient.
Proof.
  intros c. cbn.
  eapply (logs_trans R HL); [apply (logs_connections R HL)|].
  eapply (logs_trans R HL); [apply (logs_sessions R HL)|].
  apply (logs_wsClient R HL).
Qed.

Lemma quiet_new_Thread : steps R Stream.new_Thread.
Proof. unfold Stream.new_Thread. pose proof quiet_the_wsClient. quiet_steps R HL. Qed.

Lemma quiet_waitLoop i start timeout : ∀ fuel, steps R (waitLoop dispatch fuel i start timeout).
Proof.
  induction fuel as [|fuel IH]; cbn [waitLoop]; unfold time_time, callbacksRegistered;
    quiet_steps R HL.
Qed.

Lemma quiet_waitResponse fuel i r m timeout :
  steps R (waitResponse dispatch fuel i r m timeout).
Proof.
  unfold waitResponse, time_time, unregisterCallbacks_without_argument.
  pose proof quiet_registerCallbacks. pose proof quiet_waitLoop. quiet_steps R HL.
Qed.

Lemma quiet_requestPrivateIdKey fuel : steps R (requestPrivateIdKey dispatch fuel).
Proof.
  unfold requestPrivateIdKey.
  pose proof quiet_requestId. pose proof quiet_waitResponse. quiet_steps R HL.
Qed.

Lemma quiet_handshake fuel :
  steps R (try_except
    (log INFO "Unsubscribing from depth notifications channel." ;;
     Stream.unsubscribeChannel ;;
     paper <- get paperTrading ;;
     (if negb paper then
        privateIdKey <- requestPrivateIdKey dispatch fuel ;;
        log INFO "Subscribing to private channel." ;;
        Stream.subscribePrivateChannel privateIdKey
      else ret tt) ;;
     modify (set_initializationOk (Some true)))
    is_Exception
    (fun _ =>
       modify (set_initializationOk (Some false)) ;;
       log ERROR "handshake error")).
Proof.
  unfold Stream.unsubscribeChannel, Stream.subscribePrivateChannel.
  pose proof quiet_send. pose proof quiet_requestPrivateIdKey. quiet_steps R HL.
Qed.

Lemma quiet_onConnected fuel : steps R (onConnected dispatch fuel).
Proof. unfold onConnected. pose proof quiet_handshake. quiet_steps R HL. Qed.

Lemma quiet_initLoop : ∀ fuel, steps R (initLoop dispatch fuel).
Proof.
  induction fuel as [|fuel IH]; cbn [initLoop]; pose proof quiet_is_alive; quiet_steps R HL.
Qed.

Lemma quiet_initializeClient fuel : steps R (initializeClient dispatch fuel).
Proof.
  unfold initializeClient, Stream.connect.
  pose proof quiet_the_wsClient. pose proof quiet_initLoop.
  pose proof quiet_new_WSClient. pose proof quiet_new_Thread. quiet_steps R HL.
Qed.

Lemma quiet_reconnectLoop : ∀ fuel, steps R (reconnectLoop dispatch fuel).
Proof.
  induction fuel as [|fuel IH]; cbn [reconnectLoop]; unfold time_sleep;
    pose proof quiet_initializeClient; quiet_steps R HL.
Qed.

Lemma quiet_reconnection fuel :
  steps R (enable <- get enableReconnection ;;
           if enable then reconnectLoop dispatch fuel
           else modify (set_stopped true)).
Proof. pose proof quiet_reconnectLoop. quiet_steps R HL. Qed.

Lemma quiet_onDisconnected fuel : steps R (onDisconnected dispatch fuel).
Proof. unfold onDisconnected. pose proof quiet_reconnection. quiet_steps R HL. Qed.

End LogsOnly.

Lemma delivered_app a b : delivered (a ++ b) = delivered a ++ delivered b.
Proof. apply omap_app. Qed.

Lemma delivered_logs logs : Forall is_log logs → delivered logs = [] ∧ dispatched logs = [].
Proof. induction 1 as [|o l Ho _ [IH1 IH2]]; [done|]. by destruct o. Qed.

Lemma delivered_handlers sink eventData (hs : list Handler) :
  delivered (map (fun h => ObsHandler sink (h_name h) eventData) hs) = [] ∧
  dispatched (map (fun h => ObsHandler sink (h_name h) eventData) hs) = [].
Proof. induction hs as [|h hs [IH1 IH2]]; cbn; auto. Qed.

Lemma deliveries_follow_same c c1 : trace c1 = trace c → deliveries_follow c c1.
Proof. intros H. exists []. by rewrite app_nil_r. Qed.

Lemma deliveries_follow_logs : ToleratesLogs deliveries_follow.
Proof.
  split; try (intros; by apply deliveries_follow_same).
  - intros a b c (d1 & H1 & S1) (d2 & H2 & S2). exists (d1 ++ d2).
    rewrite H2, H1, <- app_assoc. split; [done|].
    rewrite delivered_app, dispatched_app. by apply sublist_app.
  - intros level msg c. by exists [ObsLog level msg].
Qed.

Lemma deliveries_follow_after c c1 c2 eventType eventData :
  trace c1 = trace c ++ [ObsDispatch eventType eventData] →
  deliveries_follow c1 c2 → deliveries_follow c c2.
Proof.
  intros H1 (d2 & H2 & S2). exists (ObsDispatch eventType eventData :: d2).
  rewrite H2, H1, <- app_assoc. split; [done|]. cbn. by apply sublist_cons.
Qed.

Lemma returning_snd b (m : Py unit) c : (returning b m c).2 = (m c).2.
Proof.
  rewrite returning_eq. destruct (m c) as [[?|e|] ?]; cbn; try done. by destruct (is_QueueEmpty e).
Qed.

Lemma kind_sink eventType sink : notification_sink eventType = Some sink → kind sink = eventType.
Proof.
  unfold notification_sink. repeat case_bool_decide; try done; intros [= <-]; by subst.
Qed.

Lemma route_notification dispatch fuel eventType eventData sink c :
  notification_sink eventType = Some sink →
  route dispatch fuel eventType eventData c = returning true (emit sink eventData) c.
Proof.
  unfold notification_sink, route.
  repeat case_bool_decide; try done; intros [= <-]; reflexivity.
Qed.

(** The trace that handling a response adds: the entry of the correlator,
    then log lines. *)
Lemma response_trace d mark msg c eventData :
  d = resultCB ∨ d = remarkCB →
  ∃ logs, trace ((p <- unpack eventData ;; resolve d mark msg p.1 p.2) c).2
          = trace c ++ response_entry d mark msg c eventData ++ logs ∧
          Forall is_log logs.
Proof.
  intros Hd. unfold response_entry.
  destruct eventData as [|payload|requestId data];
    [exists []; rewrite !app_nil_r; split; [done|constructor]..|].
  unfold unpack, bind at 1, ret at 1. cbn [fst snd].
  destruct (resolve_cases d mark msg requestId data c Hd)
    as [(Hn & ->)|[(Hs & Hpf & ->)|(cb & logs & Hcb & Hpt & Htr & Hl & _)]].
  - rewrite Hn. exists []. rewrite app_nil_r. split; [done|constructor].
  - destruct Hs as [cb Hcb]. rewrite Hcb, Hpf. exists [].
    split; [destruct cb; cbn; by rewrite app_nil_r|constructor].
  - rewrite Hcb, Hpt, Htr. destruct cb; [by exists logs|].
    exists []. rewrite !app_nil_r. split; [done|constructor].
Qed.

Lemma delivered_response_entry d mark msg c eventType eventData :
  (d = resultCB ∧ mark = ObsResultCB ∧ eventType = ON_RESULT) ∨
  (d = remarkCB ∧ mark = ObsRemarkCB ∧ eventType = ON_REMARK) →
  sublist (delivered (response_entry d mark msg c eventData)) [(eventType, eventData)] ∧
  dispatched (response_entry d mark msg c eventData) = [].
Proof.
  intros H. unfold response_entry.
  destruct eventData as [|payload|requestId data]; [split; [apply sublist_nil_l|done]..|].
  destruct (d c !! requestId) as [[f|]|]; [|split; [apply sublist_nil_l|done]..].
  destruct (pending_request c requestId); [|split; [apply sublist_nil_l|done]].
  destruct H as [(-> & -> & ->)|(-> & -> & ->)]; done.
Qed.

(** Handling one dispatched event hands it over at most once, and hands
    over nothing else but what the polls of the handler dispatch. *)
Lemma deliveries_route dispatch fuel eventType eventData c c1 :
  (∀ f, steps deliveries_follow (dispatch f)) →
  trace c1 = trace c ++ [ObsDispatch eventType eventData] →
  deliveries_follow c (route dispatch fuel eventType eventData c1).2.
Proof.
  intros Hdispatch Ht1.
  destruct (notification_sink eventType) as [sink|] eqn:Hs.
  { rewrite (route_notification _ _ _ _ sink) by done.
    rewrite returning_snd, emit_eq. cbn [snd].
    exists (ObsDispatch eventType eventData :: ObsEmit sink eventData ::
            map (fun h => ObsHandler sink (h_name h) eventData)
                (called (listeners c1 sink) eventData)).
    cbn [trace set_trace]. rewrite Ht1, <- app_assoc. split; [done|].
    destruct (delivered_handlers sink eventData (called (listeners c1 sink) eventData))
      as [E1 E2].
    cbn. fold (delivered (map (fun h => ObsHandler sink (h_name h) eventData)
                              (called (listeners c1 sink) eventData))).
    fold (dispatched (map (fun h => ObsHandler sink (h_name h) eventData)
                          (called (listeners c1 sink) eventData))).
    rewrite E1, E2, (kind_sink _ _ Hs). done. }
  unfold notification_sink in Hs. unfold route.
  repeat (case_bool_decide; [discriminate|]). clear Hs.
  case_bool_decide as E5; [|case_bool_decide as E6; [|case_bool_decide as E7;
    [|case_bool_decide as E8]]]; rewrite returning_snd.
  - destruct (response_trace resultCB ObsResultCB "Result for request" c1 eventData)
      as (logs & Htr & Hl); [by left|].
    change (fun p : nat * string => onResult p.1 p.2)
      with (fun p : nat * string => resolve resultCB ObsResultCB "Result for request" p.1 p.2).
    unfold deliveries_follow. rewrite Htr, Ht1, <- app_assoc.
    destruct (delivered_response_entry resultCB ObsResultCB "Result for request" c1
                eventType eventData) as [S1 S2]; [by left|].
    destruct (delivered_logs logs Hl) as [L1 L2].
    eexists. split; [reflexivity|]. cbn [app].
    change (delivered (ObsDispatch eventType eventData :: ?l)) with (delivered l).
    rewrite delivered_app, L1, app_nil_r.
    cbn. fold (dispatched (response_entry resultCB ObsResultCB "Result for request" c1 eventData
                           ++ logs)).
    rewrite dispatched_app, S2, L2. exact S1.
  - destruct (response_trace remarkCB ObsRemarkCB "Remark for request" c1 eventData)
      as (logs & Htr & Hl); [by right|].
    change (fun p : nat * string => onRemark p.1 p.2)
      with (fun p : nat * string => resolve remarkCB ObsRemarkCB "Remark for request" p.1 p.2).
    unfold deliveries_follow. rewrite Htr, Ht1, <- app_assoc.
    destruct (delivered_response_entry remarkCB ObsRemarkCB "Remark for request" c1
                eventType eventData) as [S1 S2]; [by right|].
    destruct (delivered_logs logs Hl) as [L1 L2].
    eexists. split; [reflexivity|]. cbn [app].
    change (delivered (ObsDispatch eventType eventData :: ?l)) with (delivered l).
    rewrite delivered_app, L1, app_nil_r.
    cbn. fold (dispatched (response_entry remarkCB ObsRemarkCB "Remark for request" c1 eventData
                           ++ logs)).
    rewrite dispatched_app, S2, L2. exact S1.
  - eapply deliveries_follow_after; [exact Ht1|].
    by apply (quiet_onConnected deliveries_follow deliveries_follow_logs).
  - eapply deliveries_follow_after; [exact Ht1|].
    by apply (quiet_onDisconnected deliveries_follow deliveries_follow_logs).
  - eapply deliveries_follow_after; [exact Ht1|].
    apply (quiet_log deliveries_follow deliveries_follow_logs).
Qed.

Lemma deliveries_dispatchImpl : ∀ fuel f, steps deliveries_follow (dispatchImpl fuel f).
Proof.
  induction fuel as [|fuel IH]; intros f c; [by apply deliveries_follow_same|].
  destruct (wsClient c) as [ws|] eqn:Hws.
  2:{ rewrite dispatchImpl_absent by done. by apply deliveries_follow_same. }
  destruct (found ws) as [|[t d] q] eqn:Hq.
  { rewrite (dispatchImpl_idle fuel f c ws Hws Hq). by apply deliveries_follow_same. }
  unfold found in Hq. rewrite (dispatchImpl_polled fuel f c ws t d q Hws Hq).
  destruct (match f with Some _ => _ | None => false end);
    [by apply deliveries_follow_same|].
  by apply deliveries_route.
Qed.

Lemma deliveries_pump fuel n : ∀ c, deliveries_follow c (pump fuel n c).
Proof.
  induction n as [|n IH]; intros c; cbn [pump].
  - apply (logs_refl _ deliveries_follow_logs).
  - eapply (logs_trans _ deliveries_follow_logs); [apply deliveries_dispatchImpl|apply IH].
Qed.

Lemma extends_trace_logs : ToleratesLogs extends_trace.
Proof.
  split; try (intros; by apply extends_trace_same).
  - intros a b c [d1 H1] [d2 H2]. exists (d1 ++ d2). by rewrite H2, H1, <- app_assoc.
  - intros level msg c. by eexists [_].
Qed.

Lemma log_then {A} level msg (k : Py A) c :
  steps extends_trace k →
  ∃ delta, trace ((log level msg ;; k) c).2 = trace c ++ ObsLog level msg :: delta.
Proof.
  intros Hk. unfold bind, log, observe, modify. cbn beta iota.
  destruct (Hk (set_trace (trace c ++ [ObsLog level msg]) c)) as [delta Hd].
  exists delta. rewrite Hd. cbn. by rewrite <- app_assoc.
Qed.

(** Handling an event starts with the entry of its handler. *)
Lemma route_entry fuel eventType eventData c c1 :
  resultCB c1 = resultCB c → remarkCB c1 = remarkCB c →
  ∃ delta, trace (route (dispatchImpl fuel) fuel eventType eventData c1).2
           = trace c1 ++ entry c (eventType, eventData) ++ delta.
Proof.
  intros HR HM. unfold entry. cbn [fst snd].
  destruct (notification_sink eventType) as [sink|] eqn:Hs.
  { rewrite (route_notification _ _ _ _ sink) by done.
    rewrite returning_snd, emit_eq. cbn [snd trace set_trace]. by eexists. }
  unfold notification_sink in Hs. unfold route.
  repeat (case_bool_decide; [discriminate|]). clear Hs.
  assert (Hd : ∀ f, steps extends_trace (dispatchImpl fuel f))
    by apply (steps_dispatchImpl extends_trace extends_trace_tolerated).
  assert (Hentry : ∀ d mark msg, d = resultCB ∨ d = remarkCB →
            response_entry d mark msg c1 eventData = response_entry d mark msg c eventData).
  { intros d mark msg Hdd. unfold response_entry, pending_request.
    destruct Hdd as [-> | ->]; by rewrite HR, HM. }
  case_bool_decide as E5; [|case_bool_decide as E6; [|case_bool_decide as E7;
    [|case_bool_decide as E8]]]; rewrite returning_snd.
  - destruct (response_trace resultCB ObsResultCB "Result for request" c1 eventData)
      as (logs & Htr & _); [by left|].
    change (fun p : nat * string => onResult p.1 p.2)
      with (fun p : nat * string => resolve resultCB ObsResultCB "Result for request" p.1 p.2).
    rewrite Htr, Hentry by auto. by exists logs.
  - destruct (response_trace remarkCB ObsRemarkCB "Remark for request" c1 eventData)
      as (logs & Htr & _); [by right|].
    change (fun p : nat * string => onRemark p.1 p.2)
      with (fun p : nat * string => resolve remarkCB ObsRemarkCB "Remark for request" p.1 p.2).
    rewrite Htr, Hentry by auto. by exists logs.
  - unfold onConnected. apply log_then.
    by apply (quiet_handshake extends_trace extends_trace_logs).
  - unfold onDisconnected. apply log_then.
    by apply (quiet_reconnection extends_trace extends_trace_logs).
  - unfold log, observe, modify. cbn. by exists [].
Qed.

(** On a connection that delivers nothing more, the polls of a queue of
    notifications hand its events to the sinks, one each, in the order of the
    queue. *)
Lemma notification_polls fuel : ∀ n c ws,
  wsClient c = Some ws → WSClient.feed ws = [] →
  Forall (fun x : QItem => is_Some (notification_sink x.1)) (WSClient.queue ws) →
  delivered (added c (pump (S fuel) n c)) = take n (WSClient.queue ws).
Proof.
  induction n as [|n IH]; intros c ws Hws Hf Hq; cbn [pump].
  { unfold added. by rewrite drop_all. }
  assert (Hfound : found ws = WSClient.queue ws).
  { unfold found, Stream.next_tick. rewrite Hf. cbn. by rewrite app_nil_r. }
  unfold Methods.dispatch.
  destruct (WSClient.queue ws) as [|[t d] q] eqn:Eq.
  - rewrite (dispatchImpl_idle fuel None c ws Hws Hfound). cbn [snd].
    set (c1 := set_wsClient _ _).
    rewrite (added_same c c1) by done.
    rewrite (IH c1 (WSClient.set_feed [] ws)); cbn; rewrite ?Eq; try done.
    + by rewrite take_nil.
    + subst c1. unfold Stream.next_tick. rewrite Hf. reflexivity.
  - rewrite (dispatchImpl_head fuel None c ws t d q Hws Hfound I).
    apply Forall_cons in Hq as [[sink Hs] Hq]. cbn in Hs.
    rewrite (route_notification _ _ _ _ sink) by done.
    rewrite returning_snd, emit_eq. cbn [snd].
    set (c2 := set_trace _ _).
    destruct (steps_pump extends_trace extends_trace_tolerated (S fuel) n c2) as [d3 Ht3].
    assert (Hws2 : wsClient c2 = Some (WSClient.set_queue q (WSClient.set_feed [] ws))).
    { subst c2. cbn. unfold Stream.next_tick. rewrite Hf. reflexivity. }
    specialize (IH c2 _ Hws2 eq_refl Hq).
    rewrite (added_app c2 _ d3 Ht3) in IH.
    rewrite (added_app c _ ([ObsDispatch t d; ObsEmit sink d]
               ++ map (fun h => ObsHandler sink (h_name h) d) (called (listeners c sink) d)
               ++ d3)).
    + rewrite !delivered_app, IH.
      destruct (delivered_handlers sink d (called (listeners c sink) d)) as [-> _].
      cbn. by rewrite (kind_sink _ _ Hs).
    + rewrite Ht3. subst c2. cbn. by rewrite <- !app_assoc.
Qed.

(** C9: the events are handed over in the order of the pushes, each at
    most once.  However the pushes of the transport and the polls of the
    consumer interleave, what [n] unfiltered polls in a row hand to the
    listeners of the sinks and to the completion callbacks are events that the
    polls dispatched, in the order of the dispatches and at most once for each
    dispatch, and the events dispatched form a subsequence of the events
    pushed, in the order of the pushes, every pushed event at most once.  An
    unfiltered poll that finds an event, queued or arriving while it blocks,
    takes the oldest one and enters its handler before anything else: the
    emission on the matching sink, the callback of the pending request or the
    warning of the correlator, the first step of the handshake or of the
    reconnection.  And when nothing more arrives, [n] polls dispatch exactly
    the first [n] events of a queue without Connected and Disconnected events,
    and hand to the sinks exactly the first [n] events of a queue of
    notifications. *)
Theorem dispatch_fifo (fuel n : nat) (c : Client) :
  sublist (delivered (added c (pump fuel n c))) (dispatched (added c (pump fuel n c)))
  ∧ sublist (dispatched (added c (pump fuel n c))) (pushed c)
  ∧ (∀ ws x others, wsClient c = Some ws → found ws = x :: others →
       ∃ delta, added c (Methods.dispatch (S fuel) c).2
                = ObsDispatch x.1 x.2 :: entry c x ++ delta)
  ∧ (∀ ws, wsClient c = Some ws → WSClient.feed ws = [] →
       Forall (fun x => x.1 ≠ ON_CONNECTED ∧ x.1 ≠ ON_DISCONNECTED) (WSClient.queue ws) →
       dispatched (added c (pump (S fuel) n c)) = take n (WSClient.queue ws))
  ∧ (∀ ws, wsClient c = Some ws → WSClient.feed ws = [] →
       Forall (fun x : QItem => is_Some (notification_sink x.1)) (WSClient.queue ws) →
       delivered (added c (pump (S fuel) n c)) = take n (WSClient.queue ws)).
Proof.
  split; [|split; [|split; [|split]]].
  - destruct (deliveries_pump fuel n c) as (delta & Hd & Hs).
    by rewrite (added_app _ _ _ Hd).
  - destruct (steps_pump extends_trace extends_trace_tolerated fuel n c) as [delta Hd].
    pose proof (steps_pump in_order in_order_tolerated fuel n c) as Ho.
    unfold in_order in Ho. rewrite Hd, dispatched_app, <- app_assoc in Ho.
    apply sublist_app_inv_l in Ho.
    rewrite (added_app _ _ _ Hd). etrans; [|exact Ho]. by apply sublist_inserts_r.
  - intros ws [t d] q Hws Hq. unfold Methods.dispatch.
    rewrite (dispatchImpl_head fuel None c ws t d q Hws Hq I).
    destruct (route_entry fuel t d c
                (set_trace (trace c ++ [ObsDispatch t d]) (polled c ws q)) eq_refl eq_refl)
      as [delta Hd].
    exists delta. apply added_app. rewrite Hd. cbn. by rewrite <- app_assoc.
  - intros ws. apply plain_polls.
  - intros ws. apply notification_polls.
Qed.

Lemma dispatch_fifo_witness :
  let q := [(ON_TICKER, DObj "a"); (ON_RESULT, DPair 7 "r"); (ON_TRADE, DObj "b")] in
  let c := Scenario.ready q [] in
  let c' := Scenario.ready [(ON_TICKER, DObj "a")] [Scenario.tick [WSClient.Wallet "w"]] in
  let c'' := Scenario.ready [(ON_TICKER, DObj "a"); (ON_TRADE, DObj "b");
                             (ON_WALLET, DObj "w")] [] in
  sublist (delivered (added c' (pump 3 3 c'))) (dispatched (added c' (pump 3 3 c')))
  ∧ sublist (dispatched (added c' (pump 3 3 c'))) (pushed c')
  ∧ pushed c' = [(ON_TICKER, DObj "a"); (ON_WALLET, DObj "w")]
  ∧ (∃ delta, added c (Methods.dispatch 3 c).2
              = ObsDispatch ON_TICKER (DObj "a") :: ObsEmit TickerEvent (DObj "a") :: delta)
  ∧ dispatched (added c (pump 3 2 c)) = [(ON_TICKER, DObj "a"); (ON_RESULT, DPair 7 "r")]
  ∧ delivered (added c'' (pump 3 2 c'')) = [(ON_TICKER, DObj "a"); (ON_TRADE, DObj "b")].
Proof.
  intros q c c' c''.
  destruct (dispatch_fifo 2 2 c) as (_ & _ & Hhead & Hexact & _).
  destruct (dispatch_fifo 3 3 c') as (H1 & H2 & _).
  destruct (dispatch_fifo 2 2 c'') as (_ & _ & _ & _ & Hsinks).
  split; [exact H1|]. split; [exact H2|]. split; [reflexivity|].
  split; [exact (Hhead _ (ON_TICKER, DObj "a") _ eq_refl eq_refl)|].
  split.
  - apply (Hexact _ eq_refl eq_refl). repeat constructor; discriminate.
  - apply (Hsinks _ eq_refl eq_refl). repeat constructor; by eexists.
Defined.

(** ** The worker thread *)

(** Whatever its outcome, a call of [start] leaves the thread reference set:
    it was set already, or the initialization assigns it before it polls. *)
Lemma start_sets_thread fuel c : is_Some (thread (Methods.start fuel c).2).
Proof.
  set (r := Methods.start fuel c).
  assert (Er : r = Methods.start fuel c) by done. clearbody r.
  unfold Methods.start in Er. unfold bind at 1, get at 1 in Er. cbn beta iota in Er.
  destruct (thread c) as [k|] eqn:Ht; cbn [is_None negb] in Er.
  { subst r. cbn. rewrite Ht. eauto. }
  unfold initializeClient in Er.
  unfold bind, log, observe, modify, Stream.new_WSClient, Stream.connect, Stream.new_Thread,
    Stream.the_wsClient, get, ret, raise in Er.
  cbn -[initLoop dispatchImpl] in Er.
  set (c4 := set_thread _ _) in Er.
  pose proof (steps_initLoop keeps_thread keeps_thread_tolerated (dispatchImpl fuel)
                (steps_dispatchImpl keeps_thread keeps_thread_tolerated fuel) fuel c4) as Hk.
  assert (H4 : is_Some (thread c4)) by (subst c4; cbn; eauto).
  specialize (Hk H4).
  destruct (initLoop (dispatchImpl fuel) fuel c4) as [[[]|e|] c5];
    cbn [fst snd] in *; subst r; [|exact Hk..].
  destruct (truthy (initializationOk c5)); cbn;
    destruct (negb (truthy (initializationOk c5))); exact Hk.
Qed.

(** C10: once [start] has been called, whether it returned, raised or is cut
    short, every later call of [start], after any calls of the other methods,
    [stop] and [join] among them, raises "Already running" and changes
    nothing: the thread reference, once assigned, is never cleared. *)
Theorem start_single_use (fuel fuel2 : nat) (ops : list Op) (c : Client) :
  let after := run_ops ops (Methods.start fuel c).2 in
  Methods.start fuel2 after = (Raise (Exception "Already running"), after).
Proof.
  intros after.
  pose proof (start_sets_thread fuel c) as Hs.
  pose proof (steps_run_ops keeps_thread keeps_thread_tolerated ops _ Hs) as [k Hk].
  fold after in Hk. unfold Methods.start, bind, get. cbn beta iota. rewrite Hk. reflexivity.
Qed.

(** A client whose first initialization fails, stopped and joined, cannot be
    started again. *)
Example start_after_failure :
  let world := [Scenario.session [Scenario.tick []]] in
  let r := Methods.start 5 (Methods.fresh true world) in
  r.1 = Raise (Exception "Initialization failed") ∧
  (Methods.start 5 (run_ops [OpStop; OpJoin] r.2)).1 = Raise (Exception "Already running").
Proof. vm_compute. done. Qed.

(** * Further properties of the code *)

(** ** The correlator on its own *)

Lemma unregisterCallbacks_pending c requestId :
  pending_request c requestId = true →
  unregisterCallbacks requestId c
  = (Return tt, set_resultCB (delete requestId (resultCB c))
                  (set_remarkCB (delete requestId (remarkCB c)) c)).
Proof.
  unfold pending_request. intros [HR HM]%andb_true_iff. unfold_py.
  rewrite HR. cbn. rewrite HM. reflexivity.
Qed.

Lemma unregisterCallbacks_absent c requestId :
  pending_request c requestId = false →
  unregisterCallbacks requestId c = (Raise AssertionError, c).
Proof.
  unfold pending_request. intros H. unfold_py.
  destruct (contains (resultCB c) requestId); cbn in *; [|reflexivity].
  rewrite H. reflexivity.
Qed.

(** X1: registering a fresh request and unregistering it again is a round
    trip.  After the registration both dictionaries hold the request with the
    callbacks given and [__callbacksRegistered] answers True; the requests
    already there are not touched; and the unregistration gives back the
    client exactly as it was before. *)
Theorem register_unregister_roundtrip
    (c : Client) (requestId : RequestId) (r m : option Callback) :
  contains (resultCB c) requestId = false →
  contains (remarkCB c) requestId = false →
  ∃ c1, registerCallbacks requestId r m c = (Return tt, c1) ∧
        callbacksRegistered requestId c1 = (Return true, c1) ∧
        resultCB c1 !! requestId = Some r ∧ remarkCB c1 !! requestId = Some m ∧
        (∀ other, other ≠ requestId →
           resultCB c1 !! other = resultCB c !! other ∧
           remarkCB c1 !! other = remarkCB c !! other) ∧
        unregisterCallbacks requestId c1 = (Return tt, c).
Proof.
  intros HR HM. eexists. split; [by apply registerCallbacks_fresh|].
  set (c1 := set_remarkCB _ _).
  assert (Hp : pending_request c1 requestId = true).
  { unfold pending_request. subst c1. cbn. by rewrite !contains_insert. }
  split; [unfold callbacksRegistered, get; fold (pending_request c1 requestId); by rewrite Hp|].
  split; [apply lookup_insert_eq|]. split; [apply lookup_insert_eq|].
  split; [intros other Ho; split; by apply lookup_insert_ne|].
  rewrite (unregisterCallbacks_pending _ _ Hp). f_equal. subst c1.
  apply contains_false in HR, HM. destruct c; cbn in *.
  by rewrite !delete_insert_eq, !delete_id.
Qed.

Lemma register_unregister_roundtrip_witness :
  let c := Scenario.ready [] [] in
  ∃ c1, registerCallbacks 7 (Some (Scenario.quiet 1)) None c = (Return tt, c1) ∧
        callbacksRegistered 7 c1 = (Return true, c1) ∧
        resultCB c1 !! 7%nat = Some (Some (Scenario.quiet 1)) ∧
        remarkCB c1 !! 7%nat = Some None ∧
        (∀ other, other ≠ 7%nat →
           resultCB c1 !! other = resultCB c !! other ∧
           remarkCB c1 !! other = remarkCB c !! other) ∧
        unregisterCallbacks 7 c1 = (Return tt, c).
Proof.
  intros c.
  exact (register_unregister_roundtrip c 7%nat (Some (Scenario.quiet 1)) None eq_refl eq_refl).
Defined.

(** X2: unregistering a request that the two dictionaries do not both hold
    fails its assertion and removes nothing, also from the dictionary that
    does hold it; a request that both hold is removed from both, and no other
    entry changes. *)
Theorem unregisterCallbacks_missing (c : Client) (requestId : RequestId) :
  let r := unregisterCallbacks requestId c in
  (pending_request c requestId = false → r = (Raise AssertionError, c)) ∧
  (pending_request c requestId = true →
     r.1 = Return tt ∧
     resultCB r.2 !! requestId = None ∧ remarkCB r.2 !! requestId = None ∧
     ∀ other, other ≠ requestId →
       resultCB r.2 !! other = resultCB c !! other ∧
       remarkCB r.2 !! other = remarkCB c !! other).
Proof.
  intros r. subst r. split; intros Hp.
  - by apply unregisterCallbacks_absent.
  - rewrite (unregisterCallbacks_pending _ _ Hp). cbn.
    split; [done|]. split; [apply lookup_delete_eq|]. split; [apply lookup_delete_eq|].
    intros other Ho. split; by apply lookup_delete_ne.
Qed.

(** ** Responses nobody waits for *)

(** The kind of a response picks the dictionary, the mark and the warning. *)
Lemma route_response dispatch fuel eventType requestId data c :
  eventType = ON_RESULT ∨ eventType = ON_REMARK →
  route dispatch fuel eventType (DPair requestId data) c
  = returning false
      (resolve (if bool_decide (eventType = ON_RESULT) then resultCB else remarkCB)
               (if bool_decide (eventType = ON_RESULT) then ObsResultCB else ObsRemarkCB)
               (if bool_decide (eventType = ON_RESULT) then "Result for request"
                else "Remark for request") requestId data) c.
Proof. intros [-> | ->]; reflexivity. Qed.

(** X3: a result or a remark whose request id is not in the dictionary of
    its kind (a late or unsolicited response) is only logged: the poll returns
    False, the trace gains the dispatch mark and one warning, so no callback
    and no listener is called, and both dictionaries stay as they were. *)
Theorem dispatch_unknown_response
    (fuel : nat) (eventFilter : option (list nat)) (c : Client) (ws : WSClient.t)
    (eventType : nat) (requestId : RequestId) (data : Payload) (rest : list QItem) :
  wsClient c = Some ws →
  found ws = (eventType, DPair requestId data) :: rest →
  passes eventFilter eventType →
  (eventType = ON_RESULT ∧ resultCB c !! requestId = None) ∨
  (eventType = ON_REMARK ∧ remarkCB c !! requestId = None) →
  ∃ c', dispatchImpl (S fuel) eventFilter c = (Return false, c') ∧
        added c c' = [ObsDispatch eventType (DPair requestId data);
                      ObsLog WARNING (if bool_decide (eventType = ON_RESULT)
                                      then "Result for request" else "Remark for request")] ∧
        resultCB c' = resultCB c ∧ remarkCB c' = remarkCB c.
Proof.
  intros Hws Hq Hp Hcase.
  rewrite (dispatchImpl_head fuel eventFilter c ws _ _ rest Hws Hq Hp).
  rewrite route_response by (destruct Hcase as [[-> _]|[-> _]]; auto).
  rewrite returning_eq.
  set (c1 := set_trace _ _).
  set (d := if bool_decide (eventType = ON_RESULT) then resultCB else remarkCB).
  set (mark := if bool_decide (eventType = ON_RESULT) then ObsResultCB else ObsRemarkCB).
  set (msg := if bool_decide (eventType = ON_RESULT) then _ else _).
  assert (Hd : d = resultCB ∨ d = remarkCB) by (subst d; case_bool_decide; auto).
  assert (Hn : d c1 !! requestId = None).
  { subst d c1. destruct Hcase as [[-> H]|[-> H]]; exact H. }
  destruct (resolve_cases d mark msg requestId data c1 Hd)
    as [(_ & ->)|[(Hs & _)|(cb & _ & Hcb & _)]].
  - eexists. split; [reflexivity|]. split; [|done].
    apply added_app. subst c1. cbn. by rewrite <- app_assoc.
  - rewrite Hn in Hs. by destruct Hs.
  - congruence.
Qed.

Lemma dispatch_unknown_response_witness :
  let c := Scenario.ready [(ON_REMARK, DPair 9 "late")] [] in
  ∃ c', dispatchImpl 1 None c = (Return false, c') ∧
        added c c' = [ObsDispatch ON_REMARK (DPair 9 "late");
                      ObsLog WARNING "Remark for request"] ∧
        resultCB c' = resultCB c ∧ remarkCB c' = remarkCB c.
Proof.
  intros c.
  exact (dispatch_unknown_response 0 None c _ ON_REMARK 9%nat "late" [] eq_refl eq_refl I
           (or_intror (conj eq_refl eq_refl))).
Defined.

(** What a completion handler adds to the trace for a pending request: at
    most one call of a callback of the request. *)
Lemma resolve_pending d mark msg requestId data c :
  d = resultCB ∨ d = remarkCB →
  (∀ i x, is_completion requestId (mark i x) = bool_decide (i = requestId)) →
  pending_request c requestId = true →
  let r := resolve d mark msg requestId data c in
  pending_request r.2 requestId = false ∧
  resultCB r.2 !! requestId = None ∧ remarkCB r.2 !! requestId = None ∧
  ∃ cb, d c !! requestId = Some cb ∧
        List.filter (is_completion requestId) (added c r.2)
        = match cb with Some _ => [mark requestId data] | None => [] end.
Proof.
  intros Hd Hmark Hp r.
  destruct (resolve_cases d mark msg requestId data c Hd)
    as [(Hn & _)|[(_ & Hpf & _)|(cb & logs & Hcb & _ & Htr & Hl & HR & HM & _)]].
  - exfalso. unfold pending_request in Hp. apply andb_true_iff in Hp as [H1 H2].
    apply contains_true in H1, H2. destruct Hd as [-> | ->]; rewrite Hn in *;
      [by destruct H1|by destruct H2].
  - congruence.
  - fold r in Htr, HR, HM. split.
    { unfold pending_request. by rewrite HR, contains_delete. }
    split; [rewrite HR; apply lookup_delete_eq|].
    split; [rewrite HM; apply lookup_delete_eq|].
    exists cb. split; [done|]. rewrite (added_app _ _ _ Htr).
    destruct cb; [|done]. cbn. rewrite Hmark, bool_decide_eq_true_2 by done.
    by rewrite (filter_foreign _ logs (is_log_foreign _ _ Hl)).
Qed.

Lemma resolve_absent d mark msg requestId data c :
  d c !! requestId = None →
  resolve d mark msg requestId data c
  = (Return tt, set_trace (trace c ++ [ObsLog WARNING msg]) c).
Proof.
  intros Hn. unfold resolve, subscript, try_except, bind, get. by rewrite Hn.
Qed.

(** X4: a request completes at most once.  Handling a result or a remark for
    a pending request calls at most one callback of the request, the one of
    that kind, and removes the request from both dictionaries, whether the
    callback returns or raises; a second response for the same request, of
    either kind, then calls nothing: it is logged as a warning and the handler
    returns. *)
Theorem request_completes_at_most_once
    (c : Client) (requestId : RequestId) (data data' : Payload) (first second : bool) :
  pending_request c requestId = true →
  let r1 := completion first requestId data c in
  let r2 := completion second requestId data' r1.2 in
  List.filter (is_completion requestId) (added c r1.2)
    = match (if first then resultCB c else remarkCB c) !! requestId with
      | Some (Some _) => [if first then ObsResultCB requestId data
                          else ObsRemarkCB requestId data]
      | _ => []
      end ∧
  pending_request r1.2 requestId = false ∧
  r2.1 = Return tt ∧
  added r1.2 r2.2 = [ObsLog WARNING (if second then "Result for request"
                                     else "Remark for request")].
Proof.
  intros Hp r1 r2.
  assert (H1 : ∃ d mark msg, r1 = resolve d mark msg requestId data c ∧
                (d = resultCB ∨ d = remarkCB) ∧
                d = (if first then resultCB else remarkCB) ∧
                mark = (if first then ObsResultCB else ObsRemarkCB) ∧
                ∀ i x, is_completion requestId (mark i x) = bool_decide (i = requestId)).
  { subst r1. destruct first; cbn [completion]; eexists _, _, _;
      (split; [reflexivity|]); repeat split; auto. }
  destruct H1 as (d & mark & msg & E1 & Hd & Hd' & Hm' & Hmark).
  destruct (resolve_pending d mark msg requestId data c Hd Hmark Hp)
    as (Hp1 & HR1 & HM1 & cb & Hcb & Hf).
  rewrite <- E1 in Hp1, HR1, HM1, Hf.
  split.
  { rewrite Hf. subst d mark. destruct first; rewrite Hcb; by destruct cb. }
  split; [done|].
  assert (E2 : r2 = (Return tt, set_trace (trace r1.2 ++
                       [ObsLog WARNING (if second then "Result for request"
                                        else "Remark for request")]) r1.2)).
  { subst r2. destruct second; cbn [completion].
    - rewrite onResult_resolve. by apply resolve_absent.
    - rewrite onRemark_resolve. by apply resolve_absent. }
  rewrite E2. split; [done|]. by apply added_app.
Qed.

Lemma request_completes_at_most_once_witness :
  let c := set_remarkCB {[ 7%nat := Some (Scenario.quiet 2) ]}
             (set_resultCB {[ 7%nat := Some (Scenario.failing 1 (OtherError 3)) ]}
                (Scenario.ready [] [])) in
  let r1 := onResult 7 "r" c in
  let r2 := onRemark 7 "late" r1.2 in
  r1.1 = Raise (OtherError 3) ∧
  List.filter (is_completion 7) (added c r1.2) = [ObsResultCB 7 "r"] ∧
  pending_request r1.2 7 = false ∧
  r2.1 = Return tt ∧
  added r1.2 r2.2 = [ObsLog WARNING "Remark for request"].
Proof.
  intros c r1 r2. split; [reflexivity|].
  exact (request_completes_at_most_once c 7%nat "r" "late" true false eq_refl).
Defined.

(** ** Stopping *)

(** X5: [stop] never raises, whatever the state of the client (not
    started, running, connection already lost) and whatever shutting the
    transport down does: it returns, and [eof] is True afterwards.  It
    dispatches nothing and drops nothing: the queue, the two dictionaries and
    the thread reference are as they were. *)
Theorem stop_never_raises (c : Client) :
  let r := Methods.stop c in
  r.1 = Return tt ∧
  Methods.eof r.2 = (Return true, r.2) ∧
  (WSClient.queue <$> wsClient r.2) = (WSClient.queue <$> wsClient c) ∧
  resultCB r.2 = resultCB c ∧ remarkCB r.2 = remarkCB c ∧
  thread r.2 = thread c ∧
  dispatched (added c r.2) = [].
Proof.
  intros r. assert (Er : r = Methods.stop c) by done. clearbody r.
  unfold Methods.stop, Stream.is_alive, Stream.stopClient, Stream.the_wsClient in *.
  unfold_py. cbn in Er.
  destruct (thread c) as [k|] eqn:Et; cbn in Er;
    [destruct (wsClient c) as [ws|] eqn:Hw; cbn in Er;
       [destruct (bool_decide (k = WSClient.serial ws)) eqn:Ek; cbn in Er;
          [destruct (bool_decide (WSClient.feed ws = [])) eqn:Ef; cbn in Er|]|]|].
  all: subst r; cbn; repeat (rewrite ?Et, ?Hw, ?Ek, ?Ef; cbn);
    repeat (split; [reflexivity|]).
  all: first [by rewrite (added_app c _ []) by (by rewrite app_nil_r)
             |by erewrite added_app by reflexivity].
Qed.

(** ** A client that has not been started *)

(** X6: the constructor accepts exactly the eighteen currencies and raises
    "Invalid currency" for any other; the client it returns trades on paper
    exactly when a credential is missing, has no request pending and is not
    at [eof]; and until [start] is called there is no transport object, so
    [dispatch] raises AttributeError and changes nothing, while [join]
    returns at once. *)
Theorem new_client_not_started
    (currency : string) (apiKey apiSecret : option string) (world : list WSClient.Session) :
  match Methods.init currency apiKey apiSecret world with
  | Return c =>
      currency ∈ Methods.currencies ∧
      (paperTrading c = true ↔ (apiKey = None ∨ apiSecret = None)) ∧
      Methods.eof c = (Return false, c) ∧
      (∀ requestId, pending_request c requestId = false) ∧
      (∀ fuel, Methods.dispatch (S fuel) c = (Raise AttributeError, c)) ∧
      Methods.join c = (Return tt, c)
  | Raise e => (currency ∉ Methods.currencies) ∧ e = Exception "Invalid currency"
  | Diverge => False
  end.
Proof.
  unfold Methods.init. case_bool_decide as Hc; cbn [negb]; [|done].
  split; [done|]. split.
  { cbn. destruct apiKey, apiSecret; cbn; intuition congruence. }
  split; [done|]. split; [done|]. split; [|done].
  intros fuel. by apply dispatchImpl_absent.
Qed.

(** ** What the hooks put on the queue *)

Lemma enqueued_one h :
  (length (enqueued [h]) ≤ 1)%nat ∧
  Forall (fun x => (1 ≤ x.1 ≤ 8)%nat) (enqueued [h]).
Proof.
  destruct h as [| | | | |[i|] ?| | | |? []| |]; cbn; split; try lia;
    repeat constructor; cbn; unfold ON_TICKER, ON_WALLET, ON_TRADE, ON_USER_ORDER,
      ON_RESULT, ON_REMARK, ON_CONNECTED, ON_DISCONNECTED; lia.
Qed.

(** X7: the hooks only append.  Whatever hooks the transport fires, the
    events already queued stay where they are, ahead of the new ones; the new
    events follow the order of the hooks, at most one per hook (none for the
    hooks that only log, for a remark without id and for a trade of the
    private channel); and every one of them has one of the eight kinds that
    [dispatchImpl] knows. *)
Theorem hooks_only_append (ws : WSClient.t) (hs : list WSClient.Hook) :
  WSClient.queue (WSClient.fire_all ws hs) = WSClient.queue ws ++ enqueued hs ∧
  enqueued hs = concat (map (fun h => enqueued [h]) hs) ∧
  (length (enqueued hs) ≤ length hs)%nat ∧
  Forall (fun x => (1 ≤ x.1 ≤ 8)%nat) (enqueued hs).
Proof.
  split; [apply fire_all_queue|]. split; [apply enqueued_flat|].
  rewrite enqueued_flat. induction hs as [|h hs [IH1 IH2]]; cbn [map concat].
  - split; [done|constructor].
  - destruct (enqueued_one h) as [H1 H2]. rewrite length_app. cbn [length].
    split; [lia|]. by apply Forall_app.
Qed.

(** ** Events of no known kind, and empty polls *)

(** X8: an event whose kind is none of the eight is reported as invalid and
    dropped: the poll takes it off the queue, logs one error, calls no
    listener and no callback, and returns False. *)
Theorem dispatch_invalid_event
    (fuel : nat) (eventFilter : option (list nat)) (c : Client) (ws : WSClient.t)
    (eventType : nat) (eventData : EventData) (rest : list QItem) :
  wsClient c = Some ws →
  found ws = (eventType, eventData) :: rest →
  passes eventFilter eventType →
  (eventType < 1 ∨ 8 < eventType)%nat →
  dispatchImpl (S fuel) eventFilter c
  = (Return false,
     set_trace (trace c ++ [ObsDispatch eventType eventData;
                            ObsLog ERROR "Invalid event received to dispatch"])
               (polled c ws rest)).
Proof.
  intros Hws Hq Hp Hk.
  rewrite (dispatchImpl_head fuel eventFilter c ws _ _ rest Hws Hq Hp).
  unfold route.
  repeat (case_bool_decide as E;
          [exfalso; rewrite E in Hk;
           unfold ON_TICKER, ON_WALLET, ON_TRADE, ON_USER_ORDER,
             ON_RESULT, ON_REMARK, ON_CONNECTED, ON_DISCONNECTED in Hk; lia|clear E]).
  rewrite returning_eq. unfold_py. cbn. by rewrite <- app_assoc.
Qed.

Lemma dispatch_invalid_event_witness :
  let c := Scenario.ready [(0%nat, DNone); (ON_TICKER, DObj "t")] [] in
  ∃ ws, wsClient c = Some ws ∧
  dispatchImpl 1 None c
  = (Return false,
     set_trace (trace c ++ [ObsDispatch 0 DNone;
                            ObsLog ERROR "Invalid event received to dispatch"])
               (polled c ws [(ON_TICKER, DObj "t")])).
Proof.
  intros c. eexists. split; [reflexivity|].
  apply (dispatch_invalid_event 0 None c _ 0%nat DNone [(ON_TICKER, DObj "t")] eq_refl eq_refl I).
  left. lia.
Defined.

Lemma route_swallows_QueueEmpty dispatch fuel eventType eventData c :
  (route dispatch fuel eventType eventData c).1 ≠ Raise QueueEmpty.
Proof.
  assert (H : ∀ b m, (returning b m c).1 ≠ Raise QueueEmpty).
  { intros b m. rewrite returning_eq. destruct (m c) as [[?|e|] ?]; cbn; try done.
    destruct e; cbn; done. }
  unfold route. repeat case_bool_decide; apply H.
Qed.

(** X9: [Queue.Empty] never leaves [dispatchImpl], whether it comes from the
    queue or from a listener or callback that the poll runs; and a poll of an
    empty queue on which nothing arrives returns False when the 10 ms timeout
    has passed, having changed nothing but the clock. *)
Theorem dispatchImpl_swallows_QueueEmpty
    (fuel : nat) (eventFilter : option (list nat)) (c : Client) :
  (dispatchImpl fuel eventFilter c).1 ≠ Raise QueueEmpty ∧
  ∀ ws, wsClient c = Some ws → WSClient.queue ws = [] → WSClient.feed ws = [] →
        dispatchImpl (S fuel) eventFilter c
        = (Return false, set_clock (clock c + Stream.QUEUE_TIMEOUT) c).
Proof.
  split.
  - destruct fuel as [|fuel]; [done|].
    destruct (wsClient c) as [ws|] eqn:Hws; [|by rewrite dispatchImpl_absent].
    destruct (WSClient.queue ws ++ enqueued (WSClient.arrivals (Stream.next_tick ws)))
      as [|[t d] q] eqn:Hq.
    + by destruct (dispatchImpl_empty fuel eventFilter c ws Hws Hq) as (c' & -> & _).
    + rewrite (dispatchImpl_polled fuel eventFilter c ws t d q Hws Hq).
      destruct (match eventFilter with Some f => _ | None => false end); [done|].
      apply route_swallows_QueueEmpty.
  - intros ws Hws Hq Hf.
    rewrite (dispatchImpl_idle fuel eventFilter c ws Hws).
    2:{ unfold found, Stream.next_tick. by rewrite Hf, Hq. }
    unfold Stream.next_tick. rewrite Hf, Hq. cbn.
    destruct c, ws; cbn in *. by subst.
Qed.

(** ** Invariants of the client *)

(** For a relation that the assignments of the code keep, every method of
    the client relates the state it starts in to the state it ends in,
    whatever its outcome. *)
Section Kept.
Variable R : Client → Client → Prop.
Hypothesis HK : Keeps R.

Lemma inv_ret {A} (a : A) : steps R (ret a).
Proof. intros c. apply (keep_refl R HK). Qed.

Lemma inv_raise {A} e : steps R (@raise A e).
Proof. intros c. apply (keep_refl R HK). Qed.

Lemma inv_diverge {A} : steps R (@diverge A).
Proof. intros c. apply (keep_refl R HK). Qed.

Lemma inv_get {A} (f : Client → A) : steps R (get f).
Proof. intros c. apply (keep_refl R HK). Qed.

Lemma inv_modify f : (∀ c, R c (f c)) → steps R (modify f).
Proof. intros H c. apply H. Qed.

Lemma inv_bind {A B} (m : Py A) (k : A → Py B) :
  steps R m → (∀ a, steps R (k a)) → steps R (bind m k).
Proof.
  intros Hm Hk c. unfold bind. specialize (Hm c).
  destruct (m c) as [[a|e|] c1]; cbn in *; [|done..].
  eapply (keep_trans R HK); [exact Hm|apply Hk].
Qed.

Lemma inv_try_except {A} (m : Py A) catches handler :
  steps R m → (∀ e, steps R (handler e)) → steps R (try_except m catches handler).
Proof.
  intros Hm Hh c. unfold try_except. specialize (Hm c).
  destruct (m c) as [[a|e|] c1]; cbn in *; [done| |done].
  destruct (catches e); [|done]. eapply (keep_trans R HK); [exact Hm|apply Hh].
Qed.

Lemma inv_try_finally {A} (m : Py A) cleanup :
  steps R m → (∀ a, steps R (cleanup a)) → steps R (try_finally m cleanup).
Proof.
  intros Hm Hc c. unfold try_finally. specialize (Hm c).
  destruct (m c) as [[a|e|] c1]; cbn in *; [| |done].
  - specialize (Hc (Some a) c1). destruct (cleanup (Some a) c1) as [[[]|e|] c2];
      cbn in *; eapply (keep_trans R HK); eauto.
  - specialize (Hc None c1). destruct (cleanup None c1) as [[[]|e'|] c2];
      cbn in *; eapply (keep_trans R HK); eauto.
Qed.

Lemma inv_observe o : steps R (observe o).
Proof. intros c. apply (keep_trace R HK). Qed.

Lemma inv_registerCallbacks i r m : steps R (registerCallbacks i r m).
Proof. intros c. apply (keep_register R HK). Qed.

Lemma inv_unregisterCallbacks i : steps R (unregisterCallbacks i).
Proof. intros c. apply (keep_unregister R HK). Qed.

End Kept.

Ltac inv_step R HK :=
  first
    [ match goal with
      | H : context [steps R _] |- steps R _ => solve [apply H]
      end
    | apply (inv_ret R HK) | apply (inv_raise R HK) | apply (inv_diverge R HK)
    | apply (inv_get R HK) | apply (inv_observe R HK)
    | apply (inv_registerCallbacks R HK) | apply (inv_unregisterCallbacks R HK)
    | apply (inv_bind R HK); [|intros ?]
    | apply (inv_try_except R HK); [|intros ?]
    | apply (inv_try_finally R HK); [|intros ?]
    | apply (inv_modify R); intros ?;
      first [ apply (keep_clock R HK) | apply (keep_outs R HK)
            | apply (keep_initializationOk R HK) | apply (keep_nextRequestId R HK)
            | apply (keep_wsClient R HK) | apply (keep_thread R HK)
            | apply (keep_stopped R HK) | apply (keep_enableReconnection R HK) ]
    | match goal with
      | |- steps R (match ?x with _ => _ end) => destruct x
      | |- steps R (let (_, _) := ?x in _) => destruct x
      end ].

Ltac inv_steps R HK := repeat inv_step R HK.

Section KeptByMethods.
Variable R : Client → Client → Prop.
Hypothesis HK : Keeps R.

Lemma inv_log l m : steps R (log l m).
Proof. unfold log. inv_steps R HK. Qed.

Lemma inv_call f data : steps R (call f data).
Proof. unfold call. pose proof inv_log. inv_steps R HK. Qed.

Lemma inv_onResult i data : steps R (onResult i data).
Proof. unfold onResult, subscript. pose proof inv_log. pose proof inv_call. inv_steps R HK. Qed.

Lemma inv_onRemark i data : steps R (onRemark i data).
Proof. unfold onRemark, subscript. pose proof inv_log. pose proof inv_call. inv_steps R HK. Qed.

Lemma inv_call_handlers sink d hs : steps R (call_handlers sink hs d).
Proof. induction hs as [|h hs IH]; cbn [call_handlers]; inv_steps R HK. Qed.

Lemma inv_emit sink d : steps R (emit sink d).
Proof. unfold emit. pose proof inv_call_handlers. inv_steps R HK. Qed.

Lemma inv_returning b m : steps R m → steps R (returning b m).
Proof. intros. unfold returning. inv_steps R HK. Qed.

Lemma inv_the_wsClient : steps R Stream.the_wsClient.
Proof. unfold Stream.the_wsClient. inv_steps R HK. Qed.

Lemma inv_send : steps R Stream.send.
Proof. unfold Stream.send. pose proof inv_the_wsClient. inv_steps R HK. Qed.

Lemma inv_connect : steps R Stream.connect.
Proof. unfold Stream.connect. pose proof inv_the_wsClient. inv_steps R HK. Qed.

Lemma inv_requestId : steps R Stream.requestPrivateIdKey.
Proof. unfold Stream.requestPrivateIdKey. pose proof inv_send. inv_steps R HK. Qed.

Lemma inv_is_alive : steps R Stream.is_alive.
Proof. unfold Stream.is_alive. inv_steps R HK. Qed.

Lemma inv_time_sleep s : steps R (time_sleep s).
Proof. unfold time_sleep. inv_steps R HK. Qed.

Lemma inv_Queue_get : steps R Stream.Queue_get.
Proof.
  unfold Stream.Queue_get. cbv zeta. pose proof inv_the_wsClient. inv_steps R HK.
Qed.

Lemma inv_new_WSClient : steps R Stream.new_WSClient.
Proof.
  intros c. cbn.
  eapply (keep_trans R HK); [apply (keep_connections R HK)|].
  eapply (keep_trans R HK); [apply (keep_sessions R HK)|].
  apply (keep_wsClient R HK).
Qed.

Lemma inv_new_Thread : steps R Stream.new_Thread.
Proof. unfold Stream.new_Thread. pose proof inv_the_wsClient. inv_steps R HK. Qed.

Lemma inv_stopClient : steps R Stream.stopClient.
Proof. unfold Stream.stopClient. pose proof inv_the_wsClient. inv_steps R HK. Qed.

Lemma inv_join : steps R Stream.join.
Proof. unfold Stream.join. inv_steps R HK. Qed.

Section KeptOpen.
Variable dispatch : option (list nat) → Py bool.
Hypothesis Hdispatch : ∀ f, steps R (dispatch f).

Lemma inv_waitLoop i start timeout : ∀ fuel, steps R (waitLoop dispatch fuel i start timeout).
Proof.
  induction fuel as [|fuel IH]; cbn [waitLoop]; unfold time_time, callbacksRegistered;
    inv_steps R HK.
Qed.

Lemma inv_waitResponse fuel i r m timeout :
  steps R (waitResponse dispatch fuel i r m timeout).
Proof.
  unfold waitResponse, time_time, unregisterCallbacks_without_argument.
  pose proof inv_waitLoop. inv_steps R HK.
Qed.

Lemma inv_requestPrivateIdKey fuel : steps R (requestPrivateIdKey dispatch fuel).
Proof.
  unfold requestPrivateIdKey.
  pose proof inv_log. pose proof inv_requestId. pose proof inv_waitResponse. inv_steps R HK.
Qed.

Lemma inv_onConnected fuel : steps R (onConnected dispatch fuel).
Proof.
  unfold onConnected, Stream.unsubscribeChannel, Stream.subscribePrivateChannel.
  pose proof inv_log. pose proof inv_send. pose proof inv_requestPrivateIdKey.
  inv_steps R HK.
Qed.

Lemma inv_initLoop : ∀ fuel, steps R (initLoop dispatch fuel).
Proof.
  induction fuel as [|fuel IH]; cbn [initLoop]; pose proof inv_is_alive; inv_steps R HK.
Qed.

Lemma inv_initializeClient fuel : steps R (initializeClient dispatch fuel).
Proof.
  unfold initializeClient.
  pose proof inv_log. pose proof inv_connect. pose proof inv_initLoop.
  pose proof inv_new_WSClient. pose proof inv_new_Thread. inv_steps R HK.
Qed.

Lemma inv_reconnectLoop : ∀ fuel, steps R (reconnectLoop dispatch fuel).
Proof.
  induction fuel as [|fuel IH]; cbn [reconnectLoop];
    pose proof inv_log; pose proof inv_initializeClient; pose proof inv_time_sleep;
    inv_steps R HK.
Qed.

Lemma inv_onDisconnected fuel : steps R (onDisconnected dispatch fuel).
Proof.
  unfold onDisconnected. pose proof inv_log. pose proof inv_reconnectLoop. inv_steps R HK.
Qed.

Lemma inv_route fuel t d : steps R (route dispatch fuel t d).
Proof.
  unfold route, unpack.
  pose proof inv_log. pose proof inv_emit. pose proof inv_onResult.
  pose proof inv_onRemark. pose proof inv_onConnected. pose proof inv_onDisconnected.
  repeat case_bool_decide; apply inv_returning; inv_steps R HK.
Qed.

Lemma inv_dispatchImpl_body fuel f : steps R (dispatchImpl_body dispatch fuel f).
Proof.
  unfold dispatchImpl_body.
  pose proof inv_Queue_get. pose proof inv_route. inv_steps R HK.
Qed.

End KeptOpen.

Lemma inv_dispatchImpl : ∀ fuel f, steps R (dispatchImpl fuel f).
Proof.
  induction fuel as [|fuel IH]; intros f; cbn [dispatchImpl].
  - apply (inv_diverge R HK).
  - apply inv_dispatchImpl_body. apply IH.
Qed.

Lemma inv_start fuel : steps R (Methods.start fuel).
Proof.
  unfold Methods.start.
  pose proof (inv_initializeClient (dispatchImpl fuel) (inv_dispatchImpl fuel)).
  inv_steps R HK.
Qed.

Lemma inv_stop : steps R Methods.stop.
Proof.
  unfold Methods.stop.
  pose proof inv_log. pose proof inv_is_alive. pose proof inv_stopClient. inv_steps R HK.
Qed.

Lemma inv_Methods_join : steps R Methods.join.
Proof. unfold Methods.join. pose proof inv_join. inv_steps R HK. Qed.

Lemma inv_run_op op c : R c (run_op op c).
Proof.
  destruct op; cbn [run_op].
  - apply inv_start.
  - apply inv_stop.
  - apply inv_Methods_join.
  - apply (keep_refl R HK).
  - apply inv_dispatchImpl.
  - exact (inv_waitResponse (dispatchImpl fuel) (inv_dispatchImpl fuel) fuel _ _ _ _ c).
  - exact (inv_requestPrivateIdKey (dispatchImpl fuel) (inv_dispatchImpl fuel) fuel c).
  - apply (keep_enableReconnection R HK).
  - apply (keep_subscribe R HK).
Qed.

Lemma inv_run_ops ops : ∀ c, R c (run_ops ops c).
Proof.
  unfold run_ops. induction ops as [|op ops IH]; intros c; cbn [foldl].
  - apply (keep_refl R HK).
  - eapply (keep_trans R HK); [apply inv_run_op|apply IH].
Qed.

End KeptByMethods.

Lemma stays_stopped_kept : Keeps stays_stopped.
Proof.
  split; unfold stays_stopped; try done.
  - auto.
  - intros i r m c. unfold_py.
    destruct (contains (resultCB c) i); cbn; [done|].
    destruct (contains (remarkCB c) i); cbn; done.
  - intros i c. unfold_py.
    destruct (contains (resultCB c) i); cbn; [|done].
    destruct (contains (remarkCB c) i); cbn; done.
Qed.

Lemma same_requests_kept : Keeps keeps_same_requests.
Proof.
  split; unfold keeps_same_requests; try done.
  - auto.
  - intros i r m c Hs.
    destruct (contains (resultCB c) i) eqn:HR.
    { unfold_py. by rewrite HR. }
    destruct (contains (remarkCB c) i) eqn:HM.
    { unfold_py. rewrite HR. cbn. by rewrite HM. }
    rewrite registerCallbacks_fresh by done. intros j. cbn.
    destruct (decide (j = i)) as [->|Hne]; [by rewrite !contains_insert|].
    unfold contains. rewrite !lookup_insert_ne by done. apply Hs.
  - intros i c Hs.
    destruct (pending_request c i) eqn:Hp.
    + rewrite unregisterCallbacks_pending by done. intros j. cbn.
      destruct (decide (j = i)) as [->|Hne]; [by rewrite !contains_delete|].
      unfold contains. rewrite !lookup_delete_ne by done. apply Hs.
    + by rewrite unregisterCallbacks_absent.
Qed.

(** X10: [eof] is final.  Once the client is stopped (by [stop], by a failed
    [start], by a disconnection with reconnection disabled), no call of any
    method makes [eof] answer False again. *)
Theorem eof_is_final (ops : list Op) (c : Client) :
  stopped c = true →
  Methods.eof (run_ops ops c) = (Return true, run_ops ops c).
Proof.
  intros Hs. unfold Methods.eof, get.
  by rewrite (inv_run_ops stays_stopped stays_stopped_kept ops c Hs).
Qed.

Lemma eof_is_final_witness :
  let c := (Methods.stop (Methods.fresh true [Scenario.session [Scenario.tick [WSClient.Opened];
                                                                Scenario.tick []]])).2 in
  let ops := [OpStart 5; OpDispatchImpl 5 None; OpSetEnableReconnection true; OpJoin] in
  (Methods.eof (run_ops ops c)).1 = Return true.
Proof.
  intros c ops. by rewrite (eof_is_final ops c eq_refl).
Defined.

Lemma same_requests_fresh paper world : same_requests (Methods.fresh paper world).
Proof. intros i. reflexivity. Qed.

(** X11: the two dictionaries always hold the same request ids.  Every
    method keeps this, whatever it returns or raises, so it holds of every
    state a client reaches; a request is then pending exactly when the result
    dictionary holds it, and the assertions of [__unregisterCallbacks] cannot
    fail on a request that one of the dictionaries holds. *)
Theorem dictionaries_hold_same_requests (ops : list Op) (c : Client) :
  same_requests c →
  let c' := run_ops ops c in
  same_requests c' ∧
  ∀ requestId,
    pending_request c' requestId = contains (resultCB c') requestId ∧
    (contains (resultCB c') requestId = true ∨ contains (remarkCB c') requestId = true →
     (unregisterCallbacks requestId c').1 = Return tt).
Proof.
  intros Hs c'.
  pose proof (inv_run_ops keeps_same_requests same_requests_kept ops c Hs) as Hs'.
  fold c' in Hs'. split; [done|]. intros i.
  unfold pending_request. specialize (Hs' i). split.
  - rewrite <- Hs'. by destruct (contains (resultCB c') i).
  - intros H. rewrite unregisterCallbacks_pending; [done|].
    unfold pending_request. rewrite <- Hs' in *. by destruct H as [-> | ->].
Qed.

Lemma dictionaries_hold_same_requests_witness :
  let ops := [OpStart Scenario.fuel; OpDispatchImpl Scenario.fuel None;
              OpDispatchImpl Scenario.fuel None] in
  let c' := run_ops ops Scenario.live in
  pending_request c' 1 = contains (resultCB c') 1 ∧
  (unregisterCallbacks 1 c').1 = Return tt.
Proof.
  intros ops c'.
  destruct (dictionaries_hold_same_requests ops Scenario.live (same_requests_fresh false _))
    as [_ H].
  destruct (H 1%nat) as [H1 H2]. split; [exact H1|]. apply H2. left. by vm_compute.
Defined.

(** ** The handshake *)

(** [__initializeClient] up to its loop: the attributes it assigns, and what
    it returns once the loop has ended. *)
Lemma initializeClient_eq dispatch fuel c :
  initializeClient dispatch fuel c =
    match initLoop dispatch fuel (connecting c) with
    | (Return _, c5) =>
        (Return (initializationOk c5),
         set_trace (trace c5 ++ [if truthy (initializationOk c5)
                                 then ObsLog INFO "Initialization ok."
                                 else ObsLog ERROR "Initialization failed."]) c5)
    | (Raise e, c5) => (Raise e, c5)
    | (Diverge, c5) => (Diverge, c5)
    end.
Proof.
  unfold initializeClient.
  unfold bind, log, observe, modify, Stream.new_WSClient, Stream.connect, Stream.new_Thread,
    Stream.the_wsClient, get, ret, raise.
  cbn -[initLoop].
  change (set_thread _ _) with (connecting c).
  destruct (initLoop dispatch fuel (connecting c)) as [[[]|e|] c5]; [|done..].
  destruct (truthy (initializationOk c5)); reflexivity.
Qed.

(** The handshake of a client that trades on paper: it unsubscribes from
    the depth channel, and the outcome of that send decides. *)
Lemma onConnected_paper dispatch fuel c ws :
  wsClient c = Some ws → paperTrading c = true →
  onConnected dispatch fuel c =
    (Return tt,
     match WSClient.send_error (WSClient.session ws) with
     | None =>
         set_initializationOk (Some true)
           (set_trace (trace c ++ [ObsLog INFO "Connection opened.";
                        ObsLog INFO "Unsubscribing from depth notifications channel."]) c)
     | Some _ =>
         set_trace (trace c ++ [ObsLog INFO "Connection opened.";
                      ObsLog INFO "Unsubscribing from depth notifications channel.";
                      ObsLog ERROR "handshake error"])
           (set_initializationOk (Some false) c)
     end).
Proof.
  intros Hws Hp. unfold onConnected, Stream.unsubscribeChannel, Stream.send, Stream.the_wsClient.
  unfold_py. unfold observe, modify. cbn. rewrite Hws. cbn.
  destruct (WSClient.send_error (WSClient.session ws)); cbn.
  - by rewrite <- !app_assoc.
  - rewrite Hp. cbn. by rewrite <- !app_assoc.
Qed.

Lemma is_alive_running c ws :
  wsClient c = Some ws → thread c = Some (WSClient.serial ws) →
  Stream.is_alive c = (Return (negb (bool_decide (WSClient.feed ws = []))), c).
Proof.
  intros Hws Ht. unfold Stream.is_alive. unfold_py. rewrite Ht, Hws.
  by rewrite bool_decide_eq_true_2.
Qed.

(** The loop of [__initializeClient] on a connection whose transport first
    reports that it is open, for a client that trades on paper. *)
Lemma initLoop_opened n fuel c ws t ticks q :
  wsClient c = Some ws → thread c = Some (WSClient.serial ws) →
  initializationOk c = None → paperTrading c = true →
  WSClient.queue ws = [] → WSClient.feed ws = t :: ticks →
  enqueued (WSClient.arrivals t) = (ON_CONNECTED, DNone) :: q →
  initLoop (dispatchImpl (S n)) (S (S fuel)) c
  = (Return tt,
     (onConnected (dispatchImpl n) n
        (set_trace (trace c ++ [ObsDispatch ON_CONNECTED DNone]) (polled c ws q))).2).
Proof.
  intros Hws Ht Hok Hp Hq Hf Harr.
  cbn [initLoop]. unfold bind at 1, get at 1. rewrite Hok. cbn [is_None].
  unfold bind at 1. rewrite (is_alive_running c ws Hws Ht), Hf. cbn [bool_decide negb].
  rewrite bool_decide_eq_false_2 by done. cbn [negb].
  unfold bind at 1.
  assert (Hfound : found ws = (ON_CONNECTED, DNone) :: q).
  { unfold found, Stream.next_tick. by rewrite Hf, Hq. }
  rewrite (dispatchImpl_head n (Some [ON_CONNECTED]) c ws _ _ q Hws Hfound) by done.
  unfold route. decide_types. rewrite returning_eq.
  set (c1 := set_trace _ _).
  rewrite (onConnected_paper (dispatchImpl n) n c1 _ eq_refl Hp). cbn [fst snd].
  unfold bind, get. by destruct (WSClient.send_error _).
Qed.

(** The loop of [__initializeClient] on a connection that never opens: it
    polls until the transport thread has ended, discarding what arrives, and
    leaves everything but the transport and the clock as it was. *)
Lemma initLoop_unopened n : ∀ ticks fuel c ws,
  wsClient c = Some ws → thread c = Some (WSClient.serial ws) →
  initializationOk c = None →
  WSClient.feed ws = ticks →
  Forall (fun x : QItem => x.1 ≠ ON_CONNECTED) (WSClient.queue ws ++ scheduled ticks) →
  (length ticks < fuel)%nat →
  ∃ ws', initLoop (dispatchImpl (S n)) fuel c
         = (Return tt, set_wsClient (Some ws') (set_clock (clock c + duration ticks) c)) ∧
         WSClient.feed ws' = [] ∧ WSClient.serial ws' = WSClient.serial ws.
Proof.
  induction ticks as [|t ticks IH]; intros fuel c ws Hws Ht Hok Hf Hall Hfuel;
    (destruct fuel as [|fuel]; [cbn in Hfuel; lia|]);
    cbn [initLoop]; unfold bind at 1, get at 1; rewrite Hok; cbn [is_None];
    unfold bind at 1; rewrite (is_alive_running c ws Hws Ht), Hf.
  - cbn. exists ws. split; [|done]. unfold ret. f_equal.
    destruct c; cbn in *. rewrite Z.add_0_r. by subst.
  - rewrite bool_decide_eq_false_2 by done. cbn [negb]. unfold bind at 1.
    destruct (fire_all_rest (WSClient.arrivals t) (WSClient.set_feed ticks ws))
      as (Hfeed & Hserial & _).
    assert (Hnt : Stream.next_tick ws = t) by (unfold Stream.next_tick; by rewrite Hf).
    assert (Hrec : ∀ ws1 c1,
              c1 = set_wsClient (Some ws1) (set_clock (clock c + WSClient.elapsed t) c) →
              WSClient.feed ws1 = ticks → WSClient.serial ws1 = WSClient.serial ws →
              Forall (fun x : QItem => x.1 ≠ ON_CONNECTED) (WSClient.queue ws1 ++ scheduled ticks) →
              ∃ ws', initLoop (dispatchImpl (S n)) fuel c1
                     = (Return tt, set_wsClient (Some ws')
                                     (set_clock (clock c + duration (t :: ticks)) c)) ∧
                     WSClient.feed ws' = [] ∧ WSClient.serial ws' = WSClient.serial ws).
    { intros ws1 c1 -> Hf1 Hs1 Hall1.
      destruct (IH fuel (set_wsClient (Some ws1) (set_clock (clock c + WSClient.elapsed t) c))
                  ws1 eq_refl) as (ws' & E & Hf' & Hs'); try done.
      - cbn. by rewrite Hs1.
      - cbn in Hfuel. lia.
      - exists ws'. rewrite E. split; [|split; [done|congruence]]. f_equal.
        cbn. by rewrite Z.add_assoc. }
    destruct (found ws) as [|[ty d] q] eqn:Hfound.
    + rewrite (dispatchImpl_idle n _ c ws Hws Hfound). cbn beta iota. rewrite Hnt, Hf.
      cbn [tail]. eapply Hrec; [reflexivity|done|done|].
      rewrite fire_all_queue. cbn [WSClient.queue WSClient.set_feed].
      unfold found in Hfound. rewrite Hnt in Hfound. rewrite Hfound. cbn.
      rewrite scheduled_cons in Hall. apply Forall_app in Hall as [_ Hall].
      by apply Forall_app in Hall as [_ Hall].
    + unfold found in Hfound.
      rewrite (dispatchImpl_polled n _ c ws ty d q Hws Hfound).
      rewrite scheduled_cons, app_assoc in Hall. rewrite Hnt in Hfound.
      rewrite Hfound in Hall. apply Forall_cons in Hall as [Hty Hall]. cbn in Hty.
      assert (type_in ty [ON_CONNECTED] = false) as ->.
      { unfold type_in. apply bool_decide_eq_false. intros H. apply elem_of_cons in H as [->|H]; [done|by apply elem_of_nil in H]. }
      cbn [negb]. cbn beta iota. rewrite Hnt, Hf. cbn [tail].
      eapply Hrec; [reflexivity|done|done|done].
Qed.

(** One attempt to connect on a connection that never opens. *)
Lemma initializeClient_unopened n fuel c :
  never_opens (Stream.next_session c) →
  (length (WSClient.script (Stream.next_session c)) < fuel)%nat →
  ∃ c', initializeClient (dispatchImpl (S n)) fuel c = (Return None, c') ∧
        initializationOk c' = None ∧ stopped c' = stopped c ∧
        paperTrading c' = paperTrading c ∧ enableReconnection c' = enableReconnection c ∧
        sessions c' = tail (sessions c) ∧ connections c' = S (connections c) ∧
        clock c' = clock c + duration (WSClient.script (Stream.next_session c)) ∧
        thread c' = Some (connections c) ∧
        (Stream.is_alive c').1 = Return false ∧
        trace c' = trace c ++ [ObsLog INFO "Initializing MtGox client.";
                               ObsLog ERROR "Initialization failed."].
Proof.
  intros Hno Hfuel. rewrite initializeClient_eq.
  destruct (initLoop_unopened n (WSClient.script (Stream.next_session c)) fuel (connecting c)
              (WSClient.new (connections c) (Stream.next_session c)))
    as (ws' & -> & Hf & Hs); try done.
  cbn [initializationOk set_wsClient set_clock connecting set_thread set_sessions
       set_connections set_initializationOk set_trace truthy].
  eexists. split; [reflexivity|]. cbn.
  repeat (split; [reflexivity|]).
  split.
  { unfold Stream.is_alive. unfold_py. cbn. rewrite Hf, Hs. cbn.
    by rewrite bool_decide_eq_true_2. }
  by rewrite <- app_assoc.
Qed.

Lemma WSClient_ext (w1 w2 : WSClient.t) :
  WSClient.serial w1 = WSClient.serial w2 → WSClient.queue w1 = WSClient.queue w2 →
  WSClient.feed w1 = WSClient.feed w2 → WSClient.session w1 = WSClient.session w2 →
  w1 = w2.
Proof. destruct w1, w2; cbn. by intros -> -> -> ->. Qed.

(** One attempt to connect, for a client that trades on paper, on a
    connection whose transport first reports that it is open. *)
Lemma initializeClient_opened n fuel c s rest t ticks q :
  sessions c = s :: rest → WSClient.script s = t :: ticks →
  enqueued (WSClient.arrivals t) = (ON_CONNECTED, DNone) :: q →
  paperTrading c = true →
  ∃ c', initializeClient (dispatchImpl (S n)) (S (S fuel)) c
        = (Return (Some (is_None (WSClient.send_error s))), c') ∧
        initializationOk c' = Some (is_None (WSClient.send_error s)) ∧
        stopped c' = stopped c ∧
        paperTrading c' = paperTrading c ∧ enableReconnection c' = enableReconnection c ∧
        sessions c' = rest ∧ connections c' = S (connections c) ∧
        clock c' = clock c + WSClient.elapsed t ∧
        thread c' = Some (connections c) ∧
        wsClient c' = Some {| WSClient.serial := connections c; WSClient.queue := q;
                              WSClient.feed := ticks; WSClient.session := s |} ∧
        nextRequestId c' = nextRequestId c ∧
        resultCB c' = resultCB c ∧ remarkCB c' = remarkCB c ∧
        ∃ delta, trace c' = trace c ++ delta ∧ dispatched delta = [(ON_CONNECTED, DNone)].
Proof.
  intros Hse Hsc Harr Hp. rewrite initializeClient_eq.
  assert (Hns : Stream.next_session c = s) by (unfold Stream.next_session; by rewrite Hse).
  rewrite (initLoop_opened n fuel (connecting c)
             (WSClient.new (connections c) (Stream.next_session c)) t ticks q);
    try done; [|rewrite Hns; exact Hsc].
  erewrite onConnected_paper; [|reflexivity|exact Hp]. cbn [fst snd].
  assert (Htick : Stream.next_tick (WSClient.new (connections c) s) = t).
  { unfold Stream.next_tick. cbn. by rewrite Hsc. }
  assert (Hws1 : WSClient.fire_all
                   (WSClient.set_feed (tail (WSClient.feed (WSClient.new (connections c) s)))
                                      (WSClient.new (connections c) s))
                   (WSClient.arrivals t)
                 = {| WSClient.serial := connections c;
                      WSClient.queue := (ON_CONNECTED, DNone) :: q;
                      WSClient.feed := ticks; WSClient.session := s |}).
  { cbn. rewrite Hsc. cbn.
    set (w0 := {| WSClient.serial := connections c; WSClient.queue := [];
                  WSClient.feed := ticks; WSClient.session := s |}).
    destruct (fire_all_rest (WSClient.arrivals t) w0) as (H1 & H2 & H3).
    apply WSClient_ext; cbn; try done.
    by rewrite fire_all_queue. }
  unfold polled. rewrite Hns, Htick, Hws1.
  cbn [WSClient.session WSClient.set_queue].
  destruct (WSClient.send_error s); eexists; (split; [reflexivity|]);
    cbn; rewrite ?Hse; cbn; repeat (split; [reflexivity|]).
  all: eexists; (split; [rewrite <- !app_assoc; reflexivity|reflexivity]).
Qed.

(** X12: starting a client that trades on paper, on a connection whose
    transport first reports that it is open: [start] unsubscribes from the
    depth channel and is done, without requesting a private id key.  It
    returns when that send succeeds; when the send raises, the error is
    caught, and [start] raises "Initialization failed" and leaves the client
    stopped.  Either way the thread is set, one connection is used, and the
    only event dispatched is the Connected event. *)
Theorem start_on_paper
    (fuel : nat) (c : Client) (s : WSClient.Session) (rest : list WSClient.Session)
    (t : WSClient.Tick) (ticks : list WSClient.Tick) (q : list QItem) :
  thread c = None → paperTrading c = true →
  sessions c = s :: rest → WSClient.script s = t :: ticks →
  enqueued (WSClient.arrivals t) = (ON_CONNECTED, DNone) :: q →
  let r := Methods.start (S (S fuel)) c in
  r.1 = match WSClient.send_error s with
        | None => Return tt
        | Some _ => Raise (Exception "Initialization failed")
        end ∧
  initializationOk r.2 = Some (is_None (WSClient.send_error s)) ∧
  stopped r.2 = match WSClient.send_error s with
                | None => stopped c
                | Some _ => true
                end ∧
  thread r.2 = Some (connections c) ∧
  wsClient r.2 = Some {| WSClient.serial := connections c; WSClient.queue := q;
                         WSClient.feed := ticks; WSClient.session := s |} ∧
  sessions r.2 = rest ∧
  clock r.2 = clock c + WSClient.elapsed t ∧
  nextRequestId r.2 = nextRequestId c ∧
  resultCB r.2 = resultCB c ∧ remarkCB r.2 = remarkCB c ∧
  dispatched (added c r.2) = [(ON_CONNECTED, DNone)].
Proof.
  intros Ht Hp Hse Hsc Harr r.
  assert (Er : r = Methods.start (S (S fuel)) c) by done. clearbody r.
  unfold Methods.start in Er. unfold bind at 1, get at 1 in Er. rewrite Ht in Er.
  cbn [is_None negb] in Er. unfold bind at 1 in Er.
  destruct (initializeClient_opened (S fuel) fuel c s rest t ticks q Hse Hsc Harr Hp)
    as (c' & E & Hok & Hst & _ & _ & Hses & _ & Hcl & Hth & Hws & Hid & HR & HM & delta & Htr & Hd).
  rewrite E in Er. clear E.
  destruct (WSClient.send_error s); cbn in Er; subst r; cbn;
    rewrite ?Hok, ?Hst, ?Hth, ?Hws, ?Hses, ?Hcl, ?Hid, ?HR, ?HM;
    repeat (split; [reflexivity|]); by rewrite (added_app c _ delta).
Qed.

Lemma start_on_paper_witness :
  let c := Methods.fresh true [Scenario.session [Scenario.tick [WSClient.Opened; WSClient.Ticker "a"];
                                                 Scenario.tick []]] in
  let r := Methods.start 2 c in
  r.1 = Return tt ∧ initializationOk r.2 = Some true ∧ stopped r.2 = false ∧
  nextRequestId r.2 = 0%nat ∧ dispatched (added c r.2) = [(ON_CONNECTED, DNone)] ∧
  (Methods.dispatch 2 r.2).1 = Return true.
Proof.
  intros c r.
  destruct (start_on_paper 0 c _ [] (Scenario.tick [WSClient.Opened; WSClient.Ticker "a"])
              [Scenario.tick []] [(ON_TICKER, DObj "a")] eq_refl eq_refl eq_refl eq_refl eq_refl)
    as (H1 & H2 & H3 & _ & _ & _ & _ & H4 & _ & _ & H5).
  repeat (split; [assumption|]). reflexivity.
Defined.

(** X13: when the transport thread of the connection ends without the
    connection ever being reported open, [start] raises "Initialization
    failed" and leaves the client at [eof]: it has polled for as long as the
    thread lived, dispatched none of the events that arrived meanwhile, and
    called no listener. *)
Theorem start_fails_when_connection_never_opens (fuel : nat) (c : Client) :
  thread c = None →
  never_opens (Stream.next_session c) →
  (length (WSClient.script (Stream.next_session c)) < fuel)%nat →
  let r := Methods.start fuel c in
  r.1 = Raise (Exception "Initialization failed") ∧
  Methods.eof r.2 = (Return true, r.2) ∧
  initializationOk r.2 = None ∧
  (Stream.is_alive r.2).1 = Return false ∧
  clock r.2 = clock c + duration (WSClient.script (Stream.next_session c)) ∧
  added c r.2 = [ObsLog INFO "Initializing MtGox client.";
                 ObsLog ERROR "Initialization failed."].
Proof.
  intros Ht Hno Hfuel r.
  assert (Er : r = Methods.start fuel c) by done. clearbody r.
  destruct fuel as [|n]; [lia|].
  unfold Methods.start in Er. unfold bind at 1, get at 1 in Er. rewrite Ht in Er.
  cbn [is_None negb] in Er. unfold bind at 1 in Er.
  destruct (initializeClient_unopened n (S n) c Hno Hfuel)
    as (c' & E & Hok & _ & _ & _ & _ & _ & Hcl & Hth & Hal & Htr).
  rewrite E in Er. clear E. cbn in Er. subst r.
  cbn. unfold Methods.eof, get. cbn.
  split; [done|]. split; [done|]. split; [done|]. split.
  { revert Hal. unfold Stream.is_alive. unfold_py. cbn. destruct (thread c'); cbn; done. }
  split; [done|]. by apply added_app.
Qed.

Lemma start_fails_when_connection_never_opens_witness :
  let c := Methods.fresh false [Scenario.session [Scenario.tick [WSClient.Ticker "a"];
                                                  Scenario.tick [WSClient.DisconnectionDetected]]] in
  let r := Methods.start 3 c in
  r.1 = Raise (Exception "Initialization failed") ∧
  Methods.eof r.2 = (Return true, r.2) ∧
  initializationOk r.2 = None ∧
  (Stream.is_alive r.2).1 = Return false ∧
  clock r.2 = 2 ∧
  added c r.2 = [ObsLog INFO "Initializing MtGox client.";
                 ObsLog ERROR "Initialization failed."].
Proof.
  intros c.
  apply (start_fails_when_connection_never_opens 3 c eq_refl).
  - repeat constructor; discriminate.
  - cbn. lia.
Defined.

(** ** Reconnection *)

(** The loop of [__onDisconnected] for a client that trades on paper: the
    attempts on connections that never open fail one after the other, each
    followed by a sleep, and the first connection that opens ends the loop. *)
Lemma reconnectLoop_retries n s rest t ticks q :
  WSClient.script s = t :: ticks →
  enqueued (WSClient.arrivals t) = (ON_CONNECTED, DNone) :: q →
  WSClient.send_error s = None →
  ∀ fails fuel c,
    stopped c = false → paperTrading c = true →
    sessions c = fails ++ s :: rest →
    Forall never_opens fails →
    (length fails + 3 ≤ fuel)%nat →
    Forall (fun f => (length (WSClient.script f) + length fails + 1 < fuel)%nat) fails →
    ∃ c' delta,
      reconnectLoop (dispatchImpl (S n)) fuel c = (Return tt, c') ∧
      initializationOk c' = Some true ∧ stopped c' = false ∧
      sessions c' = rest ∧
      connections c' = (connections c + length fails + 1)%nat ∧
      clock c' = clock c + downtime fails + WSClient.elapsed t ∧
      wsClient c' = Some {| WSClient.serial := (connections c + length fails)%nat;
                            WSClient.queue := q; WSClient.feed := ticks;
                            WSClient.session := s |} ∧
      thread c' = Some (connections c + length fails)%nat ∧
      trace c' = trace c ++ delta ∧ dispatched delta = [(ON_CONNECTED, DNone)].
Proof.
  intros Hsc Harr Hsend.
  induction fails as [|f fails IH]; intros fuel c Hst Hp Hse Hno Hfuel Hlen;
    (destruct fuel as [|fuel]; [cbn in Hfuel; lia|]);
    cbn [reconnectLoop]; unfold bind at 1, get at 1; rewrite Hst;
    unfold bind at 1, log at 1, observe at 1, modify at 1; cbn beta iota;
    unfold bind at 1.
  - destruct fuel as [|[|fuel]]; [cbn in Hfuel; lia..|].
    cbn [app] in Hse.
    destruct (initializeClient_opened n fuel
                (set_trace (trace c ++ [ObsLog INFO "Reconnecting"]) c) s rest t ticks q
                Hse Hsc Harr Hp)
      as (c' & -> & Hok & Hst' & _ & _ & Hses & Hcon & Hcl & Hth & Hws & _ & _ & _ & delta & Htr & Hd).
    rewrite Hsend. cbn [is_None truthy]. unfold ret.
    exists c', (ObsLog INFO "Reconnecting" :: delta).
    split; [done|]. rewrite Hsend in Hok. cbn in *.
    rewrite Nat.add_0_r, Z.add_0_r, Hst', Hst, Hses, Hcon, Hcl, Hws, Hth, Htr, <- app_assoc.
    repeat (split; [done || lia|]). done.
  - apply Forall_cons in Hno as [Hf Hno]. apply Forall_cons in Hlen as [Hlf Hlen].
    cbn [length] in Hfuel, Hlf, Hlen.
    set (c0 := set_trace (trace c ++ [ObsLog INFO "Reconnecting"]) c).
    assert (Hns : Stream.next_session c0 = f).
    { unfold Stream.next_session. subst c0. cbn. by rewrite Hse. }
    destruct (initializeClient_unopened n fuel c0) as
      (c1 & -> & Hok & Hst1 & Hp1 & _ & Hse1 & Hcon1 & Hcl1 & _ & _ & Htr1).
    { by rewrite Hns. }
    { rewrite Hns. lia. }
    cbn [truthy]. unfold bind at 1, time_sleep, modify. cbn beta iota.
    set (c2 := set_clock _ c1).
    destruct (IH fuel c2) as (c' & delta & -> & Hok' & Hst' & Hses' & Hcon' & Hcl' & Hws' & Hth' & Htr' & Hd').
    + subst c2. cbn. by rewrite Hst1.
    + subst c2. cbn. by rewrite Hp1.
    + subst c2 c0. cbn in *. by rewrite Hse1, Hse.
    + done.
    + lia.
    + eapply Forall_impl; [exact Hlen|]. cbn. intros; lia.
    + exists c', ([ObsLog INFO "Reconnecting"; ObsLog INFO "Initializing MtGox client.";
                   ObsLog ERROR "Initialization failed."] ++ delta).
      split; [done|]. change (downtime (f :: fails))
        with (duration (WSClient.script f) + 5000 + downtime fails).
      subst c2 c0. cbn in *. rewrite Hns in Hcl1.
      rewrite Hcon1 in *. rewrite Hcl1 in Hcl'.
      assert ((S (connections c) + length fails)%nat = (connections c + S (length fails))%nat)
        as E by lia. rewrite E in *.
      rewrite Hok', Hst', Hses', Hcon', Hcl', Hws', Hth', Htr', Htr1, <- !app_assoc.
      repeat (split; [done || lia|]). done.
Qed.

(** X14: reconnection retries until a connection opens.  When a
    Disconnected event is dispatched with reconnection enabled, on a client
    that is not stopped and trades on paper, every attempt on a connection
    that never opens is followed by a sleep of five seconds and by another
    attempt on a new connection; the first connection that opens ends the
    loop, and the poll returns True with the client initialized again on that
    connection.  What was still queued on the lost connection is gone with
    its queue. *)
Theorem reconnection_retries_until_open
    (fuel : nat) (c : Client) (ws : WSClient.t) (left : list QItem)
    (fails : list WSClient.Session) (s : WSClient.Session) (rest : list WSClient.Session)
    (t : WSClient.Tick) (ticks : list WSClient.Tick) (q : list QItem) :
  wsClient c = Some ws → found ws = (ON_DISCONNECTED, DNone) :: left →
  enableReconnection c = true → stopped c = false → paperTrading c = true →
  sessions c = fails ++ s :: rest →
  Forall never_opens fails →
  WSClient.script s = t :: ticks →
  enqueued (WSClient.arrivals t) = (ON_CONNECTED, DNone) :: q →
  WSClient.send_error s = None →
  (length fails + 4 ≤ fuel)%nat →
  Forall (fun f => (length (WSClient.script f) + length fails + 2 < fuel)%nat) fails →
  let r := Methods.dispatch fuel c in
  r.1 = Return true ∧
  initializationOk r.2 = Some true ∧ stopped r.2 = false ∧
  sessions r.2 = rest ∧
  connections r.2 = (connections c + length fails + 1)%nat ∧
  clock r.2 = clock c + WSClient.elapsed (Stream.next_tick ws) + downtime fails
              + WSClient.elapsed t ∧
  wsClient r.2 = Some {| WSClient.serial := (connections c + length fails)%nat;
                         WSClient.queue := q; WSClient.feed := ticks;
                         WSClient.session := s |} ∧
  dispatched (added c r.2) = [(ON_DISCONNECTED, DNone); (ON_CONNECTED, DNone)].
Proof.
  intros Hws Hfound Hen Hst Hp Hse Hno Hsc Harr Hsend Hfuel Hlen r.
  assert (Er : r = Methods.dispatch fuel c) by done. clearbody r.
  destruct fuel as [|[|n]]; [lia..|].
  unfold Methods.dispatch in Er.
  rewrite (dispatchImpl_head (S n) None c ws _ _ left Hws Hfound I) in Er.
  unfold route in Er. revert Er. decide_types. intros Er.
  rewrite returning_eq in Er. unfold onDisconnected in Er.
  unfold bind at 1, log at 1, observe at 1, modify at 1 in Er. cbn beta iota in Er.
  unfold bind at 1, get at 1 in Er.
  cbn [enableReconnection set_trace polled set_wsClient set_clock] in Er.
  rewrite Hen in Er.
  set (c1 := set_trace _ _) in Er.
  destruct (reconnectLoop_retries n s rest t ticks q Hsc Harr Hsend fails (S n) c1)
    as (c' & delta & E & Hok' & Hst' & Hses' & Hcon' & Hcl' & Hws' & Hth' & Htr' & Hd');
    try done; try lia.
  { eapply Forall_impl; [exact Hlen|]. cbn. intros; lia. }
  rewrite E in Er. subst r. cbn [fst snd].
  repeat (split; [done|]).
  rewrite (added_app c c' ([ObsDispatch ON_DISCONNECTED DNone;
                            ObsLog ERROR "Disconnection detected"] ++ delta)).
  - by rewrite dispatched_app, Hd'.
  - rewrite Htr'. subst c1. cbn. by rewrite <- !app_assoc.
Qed.

Lemma reconnection_retries_until_open_witness :
  let world := [Scenario.session [];
                Scenario.session [Scenario.tick [WSClient.Ticker "a"]; Scenario.tick []];
                Scenario.session [Scenario.tick [WSClient.Opened]; Scenario.tick []]] in
  let c := set_sessions world
             (Scenario.ready [(ON_DISCONNECTED, DNone); (ON_TICKER, DObj "lost")] []) in
  let r := Methods.dispatch 7 c in
  r.1 = Return true ∧
  initializationOk r.2 = Some true ∧ stopped r.2 = false ∧
  sessions r.2 = [] ∧
  connections r.2 = 4%nat ∧
  clock r.2 = 10003 ∧
  wsClient r.2 = Some {| WSClient.serial := 3; WSClient.queue := [];
                         WSClient.feed := [Scenario.tick []];
                         WSClient.session := Scenario.session [Scenario.tick [WSClient.Opened];
                                                               Scenario.tick []] |} ∧
  dispatched (added c r.2) = [(ON_DISCONNECTED, DNone); (ON_CONNECTED, DNone)].
Proof.
  intros world c.
  apply (reconnection_retries_until_open 7 c
           {| WSClient.serial := 0;
              WSClient.queue := [(ON_DISCONNECTED, DNone); (ON_TICKER, DObj "lost")];
              WSClient.feed := []; WSClient.session := Scenario.session [] |}
           [(ON_TICKER, DObj "lost")]
           [Scenario.session [];
            Scenario.session [Scenario.tick [WSClient.Ticker "a"]; Scenario.tick []]]
           (Scenario.session [Scenario.tick [WSClient.Opened]; Scenario.tick []]) []
           (Scenario.tick [WSClient.Opened]) [Scenario.tick []] []);
    try reflexivity.
  - repeat constructor; discriminate.
  - cbn. lia.
  - repeat constructor; cbn; lia.
Defined.

(** X15: a disconnection ends the client when reconnection is disabled, and
    starts nothing when the client is already stopped.  Dispatching a
    Disconnected event then opens no connection and touches neither the
    handshake result nor the requests; the poll returns True, and [eof] is
    True afterwards. *)
Theorem disconnection_without_reconnection
    (fuel : nat) (eventFilter : option (list nat)) (c : Client) (ws : WSClient.t)
    (rest : list QItem) :
  wsClient c = Some ws → found ws = (ON_DISCONNECTED, DNone) :: rest →
  passes eventFilter ON_DISCONNECTED →
  enableReconnection c = false ∨ stopped c = true →
  dispatchImpl (S (S fuel)) eventFilter c
  = (Return true,
     set_stopped true
       (set_trace (trace c ++ [ObsDispatch ON_DISCONNECTED DNone;
                               ObsLog ERROR "Disconnection detected"])
          (polled c ws rest))).
Proof.
  intros Hws Hfound Hpass Hcase.
  rewrite (dispatchImpl_head (S fuel) eventFilter c ws _ _ rest Hws Hfound Hpass).
  unfold route. decide_types. rewrite returning_eq. unfold onDisconnected.
  unfold bind at 1, log at 1, observe at 1, modify at 1. cbn beta iota.
  unfold bind at 1, get at 1.
  cbn [enableReconnection set_trace polled set_wsClient set_clock].
  destruct (enableReconnection c) eqn:Hen.
  - destruct Hcase as [?|Hst]; [done|].
    cbn [reconnectLoop]. unfold bind, get, ret. cbn. rewrite Hst.
    f_equal. destruct c; cbn in *. subst. by rewrite <- app_assoc.
  - unfold modify. cbn. by rewrite <- app_assoc.
Qed.

Lemma disconnection_without_reconnection_witness :
  let c := (Methods.setEnableReconnection false
              (set_sessions [Scenario.session [Scenario.tick [WSClient.Opened]]]
                 (Scenario.ready [(ON_DISCONNECTED, DNone)] []))).2 in
  let r := Methods.dispatch 2 c in
  r.1 = Return true ∧ Methods.eof r.2 = (Return true, r.2) ∧
  connections r.2 = connections c ∧ sessions r.2 = sessions c.
Proof.
  intros c r. subst r. unfold Methods.dispatch.
  rewrite (disconnection_without_reconnection 0 None c _ [] eq_refl eq_refl I (or_introl eq_refl)).
  repeat split.
Defined.

(** ** The private id key *)

(** Resolving a request whose dictionary holds a callback: the request is
    unregistered, the call is marked, and the callback runs. *)
Lemma resolve_stored d mark msg requestId data c f :
  d c !! requestId = Some (Some f) → pending_request c requestId = true →
  resolve d mark msg requestId data c =
    match call f data
            (set_trace (trace c ++ [mark requestId data])
               (set_resultCB (delete requestId (resultCB c))
                  (set_remarkCB (delete requestId (remarkCB c)) c))) with
    | (Raise e, c2) =>
        if is_KeyError e then (Return tt, set_trace (trace c2 ++ [ObsLog WARNING msg]) c2)
        else (Raise e, c2)
    | x => x
    end.
Proof.
  intros Hd Hp. unfold resolve, subscript, try_except.
  unfold bind at 1 2, get at 1. rewrite Hd. unfold ret at 1. cbn beta iota.
  unfold bind at 1. rewrite (unregisterCallbacks_pending c requestId Hp). cbn beta iota.
  unfold bind, observe, modify, log. cbn.
  destruct (call f data _) as [[[]|e|] c2]; try reflexivity.
Qed.

(** The private id key request, step by step, when the first response its
    wait polls is a response for it. *)
Lemma requestPrivateIdKey_answered
    (fuel : nat) (c : Client) (ws : WSClient.t)
    (eventType : nat) (data : Payload) (rest : list QItem) :
  wsClient c = Some ws → WSClient.send_error (WSClient.session ws) = None →
  contains (resultCB c) (nextRequestId c) = false →
  contains (remarkCB c) (nextRequestId c) = false →
  found ws = (eventType, DPair (nextRequestId c) data) :: rest →
  eventType = ON_RESULT ∨ eventType = ON_REMARK →
  let r := Methods.requestPrivateIdKey (S fuel) c in
  r.1 = (if bool_decide (eventType = ON_RESULT) && negb (bool_decide (data = ""))
         then Return data
         else Raise (Exception "Failed to get private id key")) ∧
  nextRequestId r.2 = S (nextRequestId c) ∧
  resultCB r.2 = resultCB c ∧ remarkCB r.2 = remarkCB c ∧
  wsClient r.2 = wsClient (polled c ws rest) ∧
  paperTrading r.2 = paperTrading c ∧ initializationOk r.2 = initializationOk c ∧
  trace r.2
  = trace c ++ [ObsLog INFO "Requesting private id key.";
                ObsDispatch eventType (DPair (nextRequestId c) data)]
    ++ (if bool_decide (eventType = ON_RESULT)
        then [ObsResultCB (nextRequestId c) data]
        else [ObsRemarkCB (nextRequestId c) data;
              ObsLog ERROR "Remark requesting private id key"]).
Proof.
  intros Hws Hsend HR HM Hfound Hty r.
  assert (Er : r = Methods.requestPrivateIdKey (S fuel) c) by done. clearbody r.
  unfold Methods.requestPrivateIdKey, requestPrivateIdKey in Er.
  unfold bind at 1, get at 1 in Er. cbn beta iota in Er.
  unfold bind at 1, modify at 1 in Er. cbn beta iota in Er.
  unfold bind at 1, log at 1, observe at 1, modify at 1 in Er. cbn beta iota in Er.
  unfold bind at 1 in Er.
  set (c2 := set_trace _ _) in Er.
  assert (Ereq : Stream.requestPrivateIdKey c2
                 = (Return (nextRequestId c), set_nextRequestId (S (nextRequestId c)) c2)).
  { unfold Stream.requestPrivateIdKey, Stream.send, Stream.the_wsClient. unfold_py.
    subst c2. cbn. rewrite Hws. cbn. by rewrite Hsend. }
  rewrite Ereq in Er. cbn beta iota in Er. clear Ereq.
  set (c3 := set_nextRequestId _ _) in Er.
  unfold bind at 1 in Er. unfold waitResponse in Er. unfold bind at 1 in Er.
  rewrite registerCallbacks_fresh in Er by (subst c3 c2; cbn; assumption).
  cbn beta iota in Er.
  set (c4 := set_remarkCB _ _) in Er.
  unfold bind at 1, time_time at 1, get at 1 in Er. cbn beta iota in Er.
  unfold try_finally in Er. cbn [waitLoop] in Er.
  unfold bind at 1, time_time at 1, get at 1 in Er. cbn beta iota in Er.
  rewrite Z.sub_diag in Er. change (0 <? 30000) with true in Er. cbn beta iota in Er.
  unfold bind at 1 in Er.
  rewrite (dispatchImpl_head fuel (Some [ON_RESULT; ON_REMARK]) c4 ws eventType
             (DPair (nextRequestId c) data) rest) in Er; try done.
  2:{ destruct Hty as [-> | ->]; reflexivity. }
  rewrite route_response in Er by done. rewrite returning_eq in Er.
  set (c5 := set_trace _ (polled c4 ws rest)) in Er.
  assert (Hp5 : pending_request c5 (nextRequestId c) = true).
  { unfold pending_request. subst c5 c4. cbn. by rewrite !contains_insert. }
  assert (HR5 : resultCB c5 !! nextRequestId c
                = Some (Some (PrivateIdKeyOnResult (length (outs c))))).
  { subst c5 c4. cbn. apply lookup_insert_eq. }
  assert (HM5 : remarkCB c5 !! nextRequestId c = Some (Some PrivateIdKeyOnRemark)).
  { subst c5 c4. cbn. apply lookup_insert_eq. }
  assert (Hdel : delete (nextRequestId c) (resultCB c5) = resultCB c
                 ∧ delete (nextRequestId c) (remarkCB c5) = remarkCB c).
  { subst c5 c4 c3 c2. cbn. apply contains_false in HR, HM.
    by rewrite !delete_insert_eq, !delete_id. }
  destruct Hdel as [Hd1 Hd2].
  destruct Hty as [-> | ->];
    [change (bool_decide (ON_RESULT = ON_RESULT)) with true in *
    |change (bool_decide (ON_REMARK = ON_RESULT)) with false in *]; cbn beta iota in *.
  - rewrite (resolve_stored _ _ _ _ _ _ _ HR5 Hp5), Hd1, Hd2 in Er.
    cbn [call] in Er. unfold modify in Er. cbn beta iota in Er.
    unfold bind at 1, callbacksRegistered, get at 1 in Er.
    cbn [resultCB remarkCB set_outs set_trace set_resultCB set_remarkCB] in Er.
    rewrite HR in Er. cbn [andb negb] in Er. unfold ret at 1 in Er. cbn beta iota in Er.
    unfold ret at 1 in Er. cbn beta iota in Er.
    unfold bind at 1, get at 1 in Er.
    cbn [outs set_outs set_trace set_resultCB set_remarkCB] in Er.
    assert (Hout : <[length (outs c) := Some data]> (outs c5) !! length (outs c)
                   = Some (Some data)).
    { apply list_lookup_insert_eq. subst c5 c4 c3 c2. cbn. rewrite length_app. cbn. lia. }
    rewrite Hout in Er. cbn [andb].
    destruct (bool_decide (data = "")); subst r; cbn [fst snd negb];
      (split; [reflexivity|]); subst c5 c4 c3 c2; cbn;
      repeat (split; [reflexivity|]); by rewrite <- !app_assoc.
  - rewrite (resolve_stored _ _ _ _ _ _ _ HM5 Hp5), Hd1, Hd2 in Er.
    cbn [call] in Er. unfold log, observe, modify in Er. cbn beta iota in Er.
    unfold bind at 1, callbacksRegistered, get at 1 in Er.
    cbn [resultCB remarkCB set_outs set_trace set_resultCB set_remarkCB] in Er.
    rewrite HR in Er. cbn [andb negb] in Er. unfold ret at 1 in Er. cbn beta iota in Er.
    unfold ret at 1 in Er. cbn beta iota in Er.
    unfold bind at 1, get at 1 in Er.
    cbn [outs set_outs set_trace set_resultCB set_remarkCB] in Er.
    assert (Hout : outs c5 !! length (outs c) = Some None).
    { subst c5 c4 c3 c2. cbn. by apply list_lookup_middle. }
    rewrite Hout in Er. cbn [andb].
    subst r; cbn [fst snd negb];
      (split; [reflexivity|]); subst c5 c4 c3 c2; cbn;
      repeat (split; [reflexivity|]); by rewrite <- !app_assoc.
Qed.

(** X16: the private id key request and its answer.  The request gets the
    next request id; when the first response polled is the result for it, the
    call returns the key; when the key is the empty string, or when the
    response is a remark for the request (which is logged as an error), the
    call raises "Failed to get private id key".  Either way exactly one
    callback of the request has been called and the request is no longer
    registered. *)
Theorem requestPrivateIdKey_answers
    (fuel : nat) (c : Client) (ws : WSClient.t)
    (eventType : nat) (data : Payload) (rest : list QItem) :
  wsClient c = Some ws → WSClient.send_error (WSClient.session ws) = None →
  contains (resultCB c) (nextRequestId c) = false →
  contains (remarkCB c) (nextRequestId c) = false →
  found ws = (eventType, DPair (nextRequestId c) data) :: rest →
  eventType = ON_RESULT ∨ eventType = ON_REMARK →
  let r := Methods.requestPrivateIdKey (S fuel) c in
  r.1 = (if bool_decide (eventType = ON_RESULT) && negb (bool_decide (data = ""))
         then Return data
         else Raise (Exception "Failed to get private id key")) ∧
  nextRequestId r.2 = S (nextRequestId c) ∧
  resultCB r.2 = resultCB c ∧ remarkCB r.2 = remarkCB c ∧
  added c r.2
  = [ObsLog INFO "Requesting private id key.";
     ObsDispatch eventType (DPair (nextRequestId c) data)]
    ++ (if bool_decide (eventType = ON_RESULT)
        then [ObsResultCB (nextRequestId c) data]
        else [ObsRemarkCB (nextRequestId c) data;
              ObsLog ERROR "Remark requesting private id key"]).
Proof.
  intros Hws Hsend HR HM Hfound Hty r.
  destruct (requestPrivateIdKey_answered fuel c ws eventType data rest Hws Hsend HR HM Hfound Hty)
    as (H1 & H2 & H3 & H4 & _ & _ & _ & H5).
  fold r in H1, H2, H3, H4, H5. repeat (split; [assumption|]).
  apply added_app. by rewrite H5.
Qed.

Lemma requestPrivateIdKey_answers_witness :
  let c := Scenario.ready [] [Scenario.tick [WSClient.Result 0 "key"]] in
  let c' := Scenario.ready [(ON_REMARK, DPair 0 "denied")] [] in
  (Methods.requestPrivateIdKey 1 c).1 = Return "key" ∧
  (Methods.requestPrivateIdKey 1 c').1 = Raise (Exception "Failed to get private id key").
Proof.
  intros c c'. split.
  - exact (proj1 (requestPrivateIdKey_answers 0 c _ ON_RESULT "key" []
                    eq_refl eq_refl eq_refl eq_refl eq_refl (or_introl eq_refl))).
  - exact (proj1 (requestPrivateIdKey_answers 0 c' _ ON_REMARK "denied" []
                    eq_refl eq_refl eq_refl eq_refl eq_refl (or_intror eq_refl))).
Defined.

(** X17: a handshake that fails is recorded, not raised.  Whatever goes
    wrong in [__onConnected] (a send that raises, the private id key request
    failing or timing out, the TypeError of the cleanup in [waitResponse]) is
    caught there: the handler never raises.  It leaves [initializationOk] True
    when every step returned, and False, with the error logged, as soon as
    one step raised, whatever the exception: the send of the unsubscription,
    the request of the private id key, which only an authenticated client
    makes, or the send of the subscription.  The handler does not return only
    when the request does not.  In particular a failing first send gives False
    without any request being made. *)
Theorem handshake_errors_are_recorded
    (dispatch : option (list nat) → Py bool) (fuel : nat) (c : Client) :
  let r := onConnected dispatch fuel c in
  let c0 := set_trace (trace c ++ [ObsLog INFO "Connection opened."]) c in
  let c1 := set_trace
              (trace c0 ++ [ObsLog INFO "Unsubscribing from depth notifications channel."])
              c0 in
  let succeeded (c' : Client) : Outcome unit * Client :=
    (Return tt, set_initializationOk (Some true) c') in
  let failed (c' : Client) : Outcome unit * Client :=
    (Return tt, set_trace (trace c' ++ [ObsLog ERROR "handshake error"])
                  (set_initializationOk (Some false) c')) in
  (∀ e, r.1 ≠ Raise e) ∧
  (r.1 = Return tt →
   initializationOk r.2 = Some true ∨ initializationOk r.2 = Some false) ∧
  (∀ ws code, wsClient c = Some ws →
     WSClient.send_error (WSClient.session ws) = Some code →
     r.1 = Return tt ∧ initializationOk r.2 = Some false ∧
     nextRequestId r.2 = nextRequestId c) ∧
  match Stream.unsubscribeChannel c1 with
  | (Raise e, c2) => r = failed c2
  | (Diverge, c2) => r = (Diverge, c2)
  | (Return _, c2) =>
      if paperTrading c2 then r = succeeded c2
      else
        match requestPrivateIdKey dispatch fuel c2 with
        | (Raise e, c3) => r = failed c3
        | (Diverge, c3) => r = (Diverge, c3)
        | (Return privateIdKey, c3) =>
            match Stream.subscribePrivateChannel privateIdKey
                    (set_trace (trace c3 ++ [ObsLog INFO "Subscribing to private channel."])
                       c3) with
            | (Raise e, c4) => r = failed c4
            | (Diverge, c4) => r = (Diverge, c4)
            | (Return _, c4) => r = succeeded c4
            end
        end
  end.
Proof.
  intros r c0 c1 succeeded failed.
  assert (Er : r = onConnected dispatch fuel c) by done. clearbody r.
  unfold onConnected in Er.
  unfold bind at 1, log at 1, observe at 1, modify at 1 in Er. cbn beta iota in Er.
  fold c0 in Er. unfold try_except in Er.
  unfold bind at 1, log at 1, observe at 1, modify at 1 in Er. cbn beta iota in Er.
  fold c1 in Er. unfold bind at 1 in Er.
  assert (Hcases :
    match Stream.unsubscribeChannel c1 with
    | (Raise e, c2) => r = failed c2
    | (Diverge, c2) => r = (Diverge, c2)
    | (Return _, c2) =>
        if paperTrading c2 then r = succeeded c2
        else
          match requestPrivateIdKey dispatch fuel c2 with
          | (Raise e, c3) => r = failed c3
          | (Diverge, c3) => r = (Diverge, c3)
          | (Return privateIdKey, c3) =>
              match Stream.subscribePrivateChannel privateIdKey
                      (set_trace (trace c3 ++ [ObsLog INFO "Subscribing to private channel."])
                         c3) with
              | (Raise e, c4) => r = failed c4
              | (Diverge, c4) => r = (Diverge, c4)
              | (Return _, c4) => r = succeeded c4
              end
          end
    end).
  { destruct (Stream.unsubscribeChannel c1) as [[[]|e|] c2]; [|exact Er..].
    unfold bind at 1, get at 1 in Er. cbn beta iota in Er. unfold bind at 1 in Er.
    destruct (paperTrading c2); cbn [negb] in Er; [exact Er|].
    unfold bind at 1 in Er.
    destruct (requestPrivateIdKey dispatch fuel c2) as [[key|e|] c3]; [|exact Er..].
    unfold bind at 1, log at 1, observe at 1, modify at 1 in Er. cbn beta iota in Er.
    destruct (Stream.subscribePrivateChannel key _) as [[[]|e|] c4]; exact Er. }
  clear Er.
  split; [|split; [|split; [|exact Hcases]]]; subst succeeded failed; cbn beta in Hcases.
  - intros e.
    destruct (Stream.unsubscribeChannel c1) as [[[]|e1|] c2]; [|by subst r..].
    destruct (paperTrading c2); [by subst r|].
    destruct (requestPrivateIdKey dispatch fuel c2) as [[key|e2|] c3]; [|by subst r..].
    destruct (Stream.subscribePrivateChannel key _) as [[[]|e3|] c4]; by subst r.
  - intros Hr.
    destruct (Stream.unsubscribeChannel c1) as [[[]|e1|] c2]; [|subst r; by auto..].
    destruct (paperTrading c2); [subst r; by auto|].
    destruct (requestPrivateIdKey dispatch fuel c2) as [[key|e2|] c3]; [|subst r; by auto..].
    destruct (Stream.subscribePrivateChannel key _) as [[[]|e3|] c4]; subst r; by auto.
  - intros ws code Hws Hse.
    assert (Eu : Stream.unsubscribeChannel c1 = (Raise (OtherError code), c1)).
    { unfold Stream.unsubscribeChannel, Stream.send, Stream.the_wsClient.
      unfold bind, get, ret, raise. subst c1 c0. cbn. rewrite Hws. cbn. by rewrite Hse. }
    rewrite Eu in Hcases. by subst r.
Qed.

Lemma handshake_errors_are_recorded_witness :
  let c := set_wsClient
             (Some {| WSClient.serial := 0; WSClient.queue := []; WSClient.feed := [];
                      WSClient.session := Scenario.session [] |})
             (Methods.fresh false []) in
  let c2 := set_trace [ObsLog INFO "Connection opened.";
                       ObsLog INFO "Unsubscribing from depth notifications channel."] c in
  let r := onConnected (dispatchImpl Scenario.fuel) Scenario.fuel c in
  (Methods.requestPrivateIdKey Scenario.fuel c2).1 = Raise TypeError ∧
  r.1 = Return tt ∧ initializationOk r.2 = Some false ∧
  last (trace r.2) = Some (ObsLog ERROR "handshake error").
Proof.
  intros c c2 r.
  pose proof (handshake_errors_are_recorded (dispatchImpl Scenario.fuel) Scenario.fuel c)
    as (_ & _ & _ & H).
  change (Stream.unsubscribeChannel _) with (Stream.unsubscribeChannel c2) in H.
  change (Stream.unsubscribeChannel c2) with (Return tt, c2) in H.
  cbn beta iota in H. change (paperTrading c2) with false in H. cbn beta iota in H.
  change (requestPrivateIdKey (dispatchImpl Scenario.fuel) Scenario.fuel c2)
    with (Methods.requestPrivateIdKey Scenario.fuel c2) in H.
  destruct (Methods.requestPrivateIdKey Scenario.fuel c2) as [o c3] eqn:E.
  assert (Eo : o = Raise TypeError).
  { apply (f_equal fst) in E. cbn [fst] in E. rewrite <- E. vm_compute. reflexivity. }
  subst o. fold r in H. rewrite H. cbn.
  split; [reflexivity|]. split; [reflexivity|]. split; [reflexivity|].
  by rewrite last_snoc.
Defined.

(** ** What a wait lets through *)

Lemma is_log_response_activity logs :
  Forall is_log logs → Forall (fun o => response_activity o = true) logs.
Proof. intros H. eapply Forall_impl; [exact H|]. by intros []. Qed.

(** One poll of the wait. *)
Lemma poll_response_activity n c :
  ∃ delta, trace (dispatchImpl n (Some [ON_RESULT; ON_REMARK]) c).2 = trace c ++ delta ∧
           Forall (fun o => response_activity o = true) delta.
Proof.
  destruct n as [|n]; [exists []; by rewrite app_nil_r|].
  destruct (wsClient c) as [ws|] eqn:Hws.
  2:{ rewrite dispatchImpl_absent by done. exists []. by rewrite app_nil_r. }
  destruct (WSClient.queue ws ++ enqueued (WSClient.arrivals (Stream.next_tick ws)))
    as [|[eventType eventData] q] eqn:Hq.
  { destruct (dispatchImpl_empty n (Some [ON_RESULT; ON_REMARK]) c ws Hws Hq)
      as (c' & -> & Ht & _).
    exists []. by rewrite app_nil_r. }
  rewrite (dispatchImpl_polled n _ c ws eventType eventData q Hws Hq).
  destruct (type_in eventType [ON_RESULT; ON_REMARK]) eqn:Hty; cbn [negb].
  2:{ exists []. by rewrite app_nil_r. }
  pose proof (type_in_responses _ Hty) as Hcase.
  set (c1 := set_trace _ _).
  assert (Ht1 : trace c1 = trace c ++ [ObsDispatch eventType eventData]) by done.
  destruct eventData as [|payload|requestId data].
  1,2: match goal with
       | |- context [route _ _ _ ?x ?cc] =>
           exists [ObsDispatch eventType x];
           assert (route (dispatchImpl n) n eventType x cc = (Raise TypeError, cc)) as ->
             by (destruct Hcase; subst eventType; reflexivity)
       end; (split; [done|]); by repeat constructor.
  rewrite route_response by done. rewrite returning_eq.
  set (d := if bool_decide (eventType = ON_RESULT) then resultCB else remarkCB).
  set (mark := if bool_decide (eventType = ON_RESULT) then ObsResultCB else ObsRemarkCB).
  set (msg := if bool_decide (eventType = ON_RESULT) then _ else _).
  assert (Hd : d = resultCB ∨ d = remarkCB) by (subst d; case_bool_decide; auto).
  assert (Hmark : ∀ i x, response_activity (mark i x) = true).
  { intros. subst mark. by case_bool_decide. }
  assert (Hr2 : ∀ (x : Outcome unit * Client),
            (match x with
             | (Return _, c') => (Return false, c')
             | (Raise e, c') => if is_QueueEmpty e then (Return false, c') else (Raise e, c')
             | (Diverge, c') => (@Diverge bool, c')
             end).2 = x.2).
  { intros [[?|e|] ?]; cbn; try done. by destruct (is_QueueEmpty e). }
  rewrite Hr2.
  destruct (resolve_cases d mark msg requestId data c1 Hd)
    as [(_ & ->)|[(_ & _ & ->)|(cb & logs & _ & _ & Htr & Hl & _)]].
  - eexists [_; _]. cbn. rewrite <- app_assoc. split; [done|]. by repeat constructor.
  - exists [ObsDispatch eventType (DPair requestId data)]. split; [done|]. by repeat constructor.
  - rewrite Htr, Ht1, <- app_assoc. eexists. split; [reflexivity|].
    constructor; [done|]. destruct cb; [|constructor].
    constructor; [done|]. by apply is_log_response_activity.
Qed.

Lemma waitLoop_response_activity n requestId start timeout : ∀ fuel c,
  ∃ delta, trace (waitLoop (dispatchImpl n) fuel requestId start timeout c).2
           = trace c ++ delta ∧
           Forall (fun o => response_activity o = true) delta.
Proof.
  induction fuel as [|fuel IH]; intros c; cbn [waitLoop].
  { exists []. by rewrite app_nil_r. }
  unfold bind at 1, time_time, get. cbn beta iota.
  destruct (clock c - start <? timeout).
  2:{ exists []. by rewrite app_nil_r. }
  unfold bind at 1.
  destruct (poll_response_activity n c) as (d1 & Ht1 & Hf1).
  destruct (dispatchImpl n (Some [ON_RESULT; ON_REMARK]) c) as [[b|e|] c1];
    cbn [snd] in *; [|by exists d1..].
  unfold bind, callbacksRegistered, get. cbn beta iota.
  destruct (negb _); [by exists d1|].
  destruct (IH c1) as (d2 & Ht2 & Hf2). exists (d1 ++ d2).
  rewrite Ht2, Ht1, <- app_assoc. split; [done|]. by apply Forall_app.
Qed.

(** X18: while [waitResponse] runs, no listener of any sink is notified.
    All that the call lets the outside see is the dispatch of results and
    remarks, the calls of their completion callbacks, and log lines; no
    emission on a sink and no call of a listener is among it, whatever the
    queue holds and whatever arrives. *)
Theorem waitResponse_notifies_no_listener
    (fuel : nat) (requestId : RequestId) (r m : option Callback) (timeout : Z) (c : Client) :
  let out := Methods.waitResponse fuel requestId r m timeout c in
  ∃ delta, trace out.2 = trace c ++ delta ∧
           Forall (fun o => response_activity o = true) delta ∧
           List.filter is_emission (added c out.2) = [].
Proof.
  intros out. assert (Eo : out = Methods.waitResponse fuel requestId r m timeout c) by done.
  clearbody out. unfold Methods.waitResponse, waitResponse in Eo.
  unfold bind at 1 in Eo.
  pose proof (registerCallbacks_trace requestId r m c) as Htr.
  destruct (registerCallbacks requestId r m c) as [[[]|e|] c1]; cbn [snd] in Htr.
  2,3: subst out; exists []; cbn [snd]; rewrite app_nil_r;
       (split; [done|]); (split; [constructor|]);
       by rewrite (added_app c c1 []) by (by rewrite app_nil_r).
  unfold bind, time_time, get, try_finally in Eo. cbn beta iota in Eo.
  destruct (waitLoop_response_activity fuel requestId (clock c1) timeout fuel c1)
    as (delta & Ht & Hf).
  assert (E2 : out.2 = (waitLoop (dispatchImpl fuel) fuel requestId (clock c1) timeout c1).2).
  { rewrite Eo. destruct (waitLoop _ _ _ _ _ c1) as [[[]|e|] c2]; cbn; done. }
  exists delta. rewrite E2, Ht, Htr. split; [done|]. split; [done|].
  rewrite (added_app c _ delta) by (by rewrite Ht, Htr).
  clear -Hf. induction Hf as [|o l Ho _ IH]; [done|]. cbn.
  destruct o; cbn in *; try done.
Qed.

(** X19: the handshake of an authenticated client is decided by the answer
    to its private id key request.  On a connection whose sends go through,
    when the first response that the wait polls is the result with a non-empty
    key, the handler announces the subscription to the private channel in the
    log and records the handshake as successful; when the key is empty or the
    response is a remark, it announces no subscription, logs the handshake
    error and records the handshake as failed.  In both cases the handler
    returns, one request id is used up, the callbacks of the request are
    removed again, the response is the only item taken from the queue, and
    what the outside sees is exactly the log lines of the steps, the dispatch
    of the response and the call of its callback.  (A send that goes through
    leaves no observation of its own in this embedding, so the statement
    speaks of the announcements and of the recorded outcome, not of the
    messages sent.) *)
Theorem authenticated_handshake
    (fuel : nat) (c : Client) (ws : WSClient.t)
    (eventType : nat) (data : Payload) (rest : list QItem) :
  paperTrading c = false →
  wsClient c = Some ws → WSClient.send_error (WSClient.session ws) = None →
  contains (resultCB c) (nextRequestId c) = false →
  contains (remarkCB c) (nextRequestId c) = false →
  found ws = (eventType, DPair (nextRequestId c) data) :: rest →
  eventType = ON_RESULT ∨ eventType = ON_REMARK →
  let ok := bool_decide (eventType = ON_RESULT) && negb (bool_decide (data = "")) in
  let r := onConnected (dispatchImpl (S fuel)) (S fuel) c in
  r.1 = Return tt ∧
  initializationOk r.2 = Some ok ∧
  nextRequestId r.2 = S (nextRequestId c) ∧
  resultCB r.2 = resultCB c ∧ remarkCB r.2 = remarkCB c ∧
  wsClient r.2 = wsClient (polled c ws rest) ∧
  added c r.2
  = [ObsLog INFO "Connection opened.";
     ObsLog INFO "Unsubscribing from depth notifications channel.";
     ObsLog INFO "Requesting private id key.";
     ObsDispatch eventType (DPair (nextRequestId c) data)]
    ++ (if bool_decide (eventType = ON_RESULT)
        then [ObsResultCB (nextRequestId c) data]
        else [ObsRemarkCB (nextRequestId c) data;
              ObsLog ERROR "Remark requesting private id key"])
    ++ [if ok then ObsLog INFO "Subscribing to private channel."
        else ObsLog ERROR "handshake error"].
Proof.
  intros Hp Hws Hsend HR HM Hfound Hty ok r.
  assert (Er : r = onConnected (dispatchImpl (S fuel)) (S fuel) c) by done. clearbody r.
  unfold onConnected in Er.
  unfold bind at 1, log at 1, observe at 1, modify at 1 in Er. cbn beta iota in Er.
  unfold try_except in Er.
  unfold bind at 1, log at 1, observe at 1, modify at 1 in Er. cbn beta iota in Er.
  unfold bind at 1 in Er.
  set (c2 := set_trace _ (set_trace _ c)) in Er.
  assert (Esend : ∀ c' ws', wsClient c' = Some ws' →
            WSClient.send_error (WSClient.session ws') = None →
            Stream.send c' = (Return tt, c')).
  { intros c' ws' H1 H2. unfold Stream.send, Stream.the_wsClient. unfold_py.
    rewrite H1. cbn. by rewrite H2. }
  unfold Stream.unsubscribeChannel in Er. rewrite (Esend c2 ws Hws Hsend) in Er.
  cbn beta iota in Er.
  unfold bind at 1, get at 1 in Er. cbn [paperTrading set_trace c2] in Er.
  rewrite Hp in Er. cbn [negb] in Er. unfold bind at 1 2 in Er.
  change (requestPrivateIdKey (dispatchImpl (S fuel)) (S fuel))
    with (Methods.requestPrivateIdKey (S fuel)) in Er.
  destruct (requestPrivateIdKey_answered fuel c2 ws eventType data rest Hws Hsend HR HM Hfound Hty)
    as (H1 & H2 & H3 & H4 & H5 & _ & _ & H6).
  destruct (Methods.requestPrivateIdKey (S fuel) c2) as [o c3]. cbn [fst snd] in *.
  fold ok in H1. subst o.
  assert (Hadd : ∀ c4 tail_, trace c4 = trace c3 ++ tail_ →
            added c c4 = [ObsLog INFO "Connection opened.";
                          ObsLog INFO "Unsubscribing from depth notifications channel.";
                          ObsLog INFO "Requesting private id key.";
                          ObsDispatch eventType (DPair (nextRequestId c) data)]
                         ++ (if bool_decide (eventType = ON_RESULT)
                             then [ObsResultCB (nextRequestId c) data]
                             else [ObsRemarkCB (nextRequestId c) data;
                                   ObsLog ERROR "Remark requesting private id key"])
                         ++ tail_).
  { intros c4 tail_ Ht. apply added_app. rewrite Ht, H6. subst c2. cbn.
    by rewrite <- !app_assoc. }
  destruct ok eqn:Hok; cbn beta iota in Er.
  - unfold bind at 1, log at 1, observe at 1, modify at 1 in Er. cbn beta iota in Er.
    unfold Stream.subscribePrivateChannel in Er.
    destruct (fire_all_rest (WSClient.arrivals (Stream.next_tick ws))
                (WSClient.set_feed (tail (WSClient.feed ws)) ws)) as (_ & _ & Hsess).
    erewrite Esend in Er; [| cbn; rewrite H5; reflexivity | cbn; by rewrite Hsess].
    unfold modify in Er. subst r. cbn.
    repeat (split; [assumption || reflexivity|]). by apply Hadd.
  - unfold modify, bind, log, observe, modify in Er. subst r. cbn.
    repeat (split; [assumption || reflexivity|]). by apply Hadd.
Qed.

Lemma authenticated_handshake_witness :
  let c := set_wsClient
             (Some {| WSClient.serial := 0; WSClient.queue := [];
                      WSClient.feed := [Scenario.tick [WSClient.Result 0 "key"]];
                      WSClient.session := Scenario.session [] |})
             (Methods.fresh false []) in
  let c' := set_wsClient
              (Some {| WSClient.serial := 0; WSClient.queue := [];
                       WSClient.feed := [Scenario.tick [WSClient.Remark (Some 0%nat) "denied"]];
                       WSClient.session := Scenario.session [] |})
              (Methods.fresh false []) in
  let r := onConnected (dispatchImpl 1) 1 c in
  let r' := onConnected (dispatchImpl 1) 1 c' in
  (r.1 = Return tt ∧ initializationOk r.2 = Some true ∧ nextRequestId r.2 = 1%nat ∧
   last (trace r.2) = Some (ObsLog INFO "Subscribing to private channel.")) ∧
  (r'.1 = Return tt ∧ initializationOk r'.2 = Some false ∧ nextRequestId r'.2 = 1%nat ∧
   ObsLog INFO "Subscribing to private channel." ∉ trace r'.2).
Proof.
  intros c c' r r'.
  destruct (authenticated_handshake 0 c _ ON_RESULT "key" []
              eq_refl eq_refl eq_refl eq_refl eq_refl eq_refl (or_introl eq_refl))
    as (H1 & H2 & H3 & _).
  destruct (authenticated_handshake 0 c' _ ON_REMARK "denied" []
              eq_refl eq_refl eq_refl eq_refl eq_refl eq_refl (or_intror eq_refl))
    as (H1' & H2' & H3' & _).
  split.
  - repeat (split; [assumption|]). reflexivity.
  - repeat (split; [assumption|]). vm_compute. intros H.
    repeat (apply elem_of_cons in H as [H|H]; [discriminate|]).
    by apply elem_of_nil in H.
Defined.

(** ** The edges of a wait *)

(** X20: waiting on a request id that is already registered fails before
    anything else happens: the assertion of the registration is raised as it
    is (it is outside the [try]), no poll is made, and the client, the
    callbacks registered first included, is left exactly as it was. *)
Theorem waitResponse_on_pending_request
    (dispatch : option (list nat) → Py bool) (fuel : nat) (requestId : RequestId)
    (r m : option Callback) (timeout : Z) (c : Client) :
  contains (resultCB c) requestId = true ∨ contains (remarkCB c) requestId = true →
  waitResponse dispatch fuel requestId r m timeout c = (Raise AssertionError, c).
Proof.
  intros H. unfold waitResponse. unfold bind at 1.
  assert (registerCallbacks requestId r m c = (Raise AssertionError, c)) as ->; [|done].
  unfold_py. destruct (contains (resultCB c) requestId) eqn:ER; cbn; [done|].
  destruct H as [H|H]; [done|]. by rewrite H.
Qed.

Lemma waitResponse_on_pending_request_witness :
  let c := (Methods.waitResponse 10 7 (Some (Scenario.quiet 1)) (Some (Scenario.quiet 2)) 20
              (Scenario.ready [] (Scenario.silence 5))).2 in
  Methods.waitResponse 10 7 (Some (Scenario.quiet 3)) None 20 c = (Raise AssertionError, c).
Proof.
  intros c. apply waitResponse_on_pending_request. left. reflexivity.
Defined.

(** X21: a wait with a timeout that is not positive makes no poll at all:
    the loop is not entered, so the queue and the clock are left alone, and
    the cleanup, which is then due, raises TypeError and leaves the request
    registered. *)
Theorem waitResponse_without_time
    (dispatch : option (list nat) → Py bool) (fuel : nat) (requestId : RequestId)
    (r m : option Callback) (timeout : Z) (c : Client) :
  (timeout <= 0) →
  contains (resultCB c) requestId = false →
  contains (remarkCB c) requestId = false →
  waitResponse dispatch (S fuel) requestId r m timeout c
  = (Raise TypeError,
     set_remarkCB (<[requestId := m]> (remarkCB c))
       (set_resultCB (<[requestId := r]> (resultCB c)) c)).
Proof.
  intros Ht HR HM. unfold waitResponse. unfold bind at 1.
  rewrite registerCallbacks_fresh by done. cbn beta iota.
  unfold bind, time_time, get, try_finally. cbn [waitLoop]. unfold bind, time_time, get.
  cbn beta iota. rewrite Z.sub_diag.
  assert ((0 <? timeout) = false) as -> by (apply Z.ltb_ge; lia). reflexivity.
Qed.

Lemma waitResponse_without_time_witness :
  let c := Scenario.ready [(ON_RESULT, DPair 7 "r")] [] in
  let out := Methods.waitResponse 1 7 (Some (Scenario.quiet 1)) None 0 c in
  out.1 = Raise TypeError ∧ wsClient out.2 = wsClient c ∧ pending_request out.2 7 = true.
Proof.
  intros c out. subst out. unfold Methods.waitResponse.
  rewrite (waitResponse_without_time (dispatchImpl 1) 0 7 _ _ 0 c); [done|lia|done|done].
Defined.

(** ** From the transport to the listeners *)

(** X22: what the transport reports is what the listeners get.  When the
    transport reports a ticker, a trade of the public channel, a user order
    or a wallet update, and the consumer polls, the listeners of the matching
    sink, and only they, are called with the very payload reported, in the
    order of their subscription up to the first that raises; the poll returns
    True when they all return, and the queue is empty again. *)
Theorem report_reaches_listeners
    (sink : Sink) (payload : Payload) (fuel : nat) (c : Client) (ws : WSClient.t) :
  WSClient.queue ws = [] → WSClient.feed ws = [] →
  let c1 := set_wsClient (Some (WSClient.fire ws (report sink payload))) c in
  let r := Methods.dispatch (S fuel) c1 in
  added c1 r.2
  = ObsDispatch (kind sink) (DObj payload) :: ObsEmit sink (DObj payload) ::
      map (fun h => ObsHandler sink (h_name h) (DObj payload))
          (called (listeners c sink) (DObj payload)) ∧
  (raised (listeners c sink) (DObj payload) = None → r.1 = Return true) ∧
  (WSClient.queue <$> wsClient r.2) = Some [].
Proof.
  intros Hq Hf c1 r.
  assert (Er : r = Methods.dispatch (S fuel) c1) by done. clearbody r.
  set (ws1 := WSClient.fire ws (report sink payload)) in c1.
  assert (Hfound : found ws1 = [(kind sink, DObj payload)]).
  { unfold found, Stream.next_tick. subst ws1.
    destruct (fire_rest ws (report sink payload)) as (-> & _). rewrite Hf.
    rewrite fire_queue, Hq. cbn. rewrite app_nil_r. by destruct sink. }
  unfold Methods.dispatch in Er.
  rewrite (dispatchImpl_head fuel None c1 ws1 _ _ [] eq_refl Hfound I) in Er.
  assert (Eroute : ∀ c', route (dispatchImpl fuel) fuel (kind sink) (DObj payload) c'
                         = returning true (emit sink (DObj payload)) c').
  { intros c'. by destruct sink. }
  rewrite Eroute, returning_eq, emit_eq in Er.
  cbn [listeners set_trace polled set_wsClient set_clock c1] in Er.
  destruct (raised (listeners c sink) (DObj payload)) as [e|] eqn:Era;
    try destruct (is_QueueEmpty e); subst r; cbn [fst snd];
    (split; [apply added_app; cbn; rewrite <- app_assoc; reflexivity|]);
    (split; [intros; congruence|]); reflexivity.
Qed.

Lemma report_reaches_listeners_witness :
  let listener := {| h_name := 1; h_run := fun _ => None |} in
  let c := Methods.subscribe WalletEvent listener (Scenario.ready [] []) in
  let ws := WSClient.new 0 (Scenario.session []) in
  let c1 := set_wsClient (Some (WSClient.fire ws (WSClient.Wallet "w"))) c in
  let r := Methods.dispatch 1 c1 in
  added c1 r.2 = [ObsDispatch ON_WALLET (DObj "w"); ObsEmit WalletEvent (DObj "w");
                  ObsHandler WalletEvent 1 (DObj "w")] ∧
  r.1 = Return true.
Proof.
  intros listener c ws c1 r.
  destruct (report_reaches_listeners WalletEvent "w" 0 c ws eq_refl eq_refl) as (H1 & H2 & _).
  split; [exact H1|]. by apply H2.
Defined.

(** X23: an exception of a listener reaches the caller of the poll.  When
    a listener of the matching sink raises, the listeners subscribed after it
    are not called and [dispatchImpl] raises that exception (a [Queue.Empty]
    excepted, which is swallowed and gives True); the event has been taken
    off the queue all the same, so it is not dispatched again. *)
Theorem listener_exception_propagates
    (fuel : nat) (eventFilter : option (list nat)) (c : Client) (ws : WSClient.t)
    (sink : Sink) (eventData : EventData) (rest : list QItem) (e : Exn) :
  wsClient c = Some ws →
  found ws = (kind sink, eventData) :: rest →
  passes eventFilter (kind sink) →
  raised (listeners c sink) eventData = Some e →
  let r := dispatchImpl (S fuel) eventFilter c in
  r.1 = (if is_QueueEmpty e then Return true else Raise e) ∧
  added c r.2
  = ObsDispatch (kind sink) eventData :: ObsEmit sink eventData ::
      map (fun h => ObsHandler sink (h_name h) eventData)
          (called (listeners c sink) eventData) ∧
  (WSClient.queue <$> wsClient r.2) = Some rest.
Proof.
  intros Hws Hfound Hp Hra r.
  assert (Er : r = dispatchImpl (S fuel) eventFilter c) by done. clearbody r.
  rewrite (dispatchImpl_head fuel eventFilter c ws _ _ rest Hws Hfound Hp) in Er.
  assert (Eroute : ∀ c', route (dispatchImpl fuel) fuel (kind sink) eventData c'
                         = returning true (emit sink eventData) c').
  { intros c'. by destruct sink. }
  rewrite Eroute, returning_eq, emit_eq in Er.
  cbn [listeners set_trace polled set_wsClient set_clock] in Er. rewrite Hra in Er.
  destruct (is_QueueEmpty e); subst r; cbn [fst snd];
    (split; [reflexivity|]);
    (split; [apply added_app; cbn; rewrite <- app_assoc; reflexivity|reflexivity]).
Qed.

Lemma listener_exception_propagates_witness :
  let first := {| h_name := 1; h_run := fun _ => Some (OtherError 9) |} in
  let second := {| h_name := 2; h_run := fun _ => None |} in
  let c := Methods.subscribe TickerEvent second
             (Methods.subscribe TickerEvent first
                (Scenario.ready [(ON_TICKER, DObj "t"); (ON_TRADE, DObj "u")] [])) in
  let r := dispatchImpl 1 None c in
  r.1 = Raise (OtherError 9) ∧
  added c r.2 = [ObsDispatch ON_TICKER (DObj "t"); ObsEmit TickerEvent (DObj "t");
                 ObsHandler TickerEvent 1 (DObj "t")] ∧
  (WSClient.queue <$> wsClient r.2) = Some [(ON_TRADE, DObj "u")].
Proof.
  intros first second c.
  exact (listener_exception_propagates 0 None c _ TickerEvent (DObj "t")
           [(ON_TRADE, DObj "u")] (OtherError 9) eq_refl eq_refl I eq_refl).
Defined.

(** ** A wait that is answered at once *)

(** X24: a remark resolves a wait just as a result does.  When the first
    response that [waitResponse] polls is a result or a remark for its
    request, and the callback registered for that kind, if any, returns, the
    call returns True in both cases (the value does not tell a result from a
    remark); exactly the callback of that kind has been called, once, with
    the data of the response, none at all when None was registered for it;
    and both dictionaries are as they were before the call. *)
Theorem waitResponse_answered_at_once
    (fuel : nat) (requestId : RequestId) (rcb mcb : option Callback) (timeout : Z)
    (c : Client) (ws : WSClient.t) (eventType : nat) (data : Payload) (rest : list QItem) :
  wsClient c = Some ws →
  found ws = (eventType, DPair requestId data) :: rest →
  eventType = ON_RESULT ∨ eventType = ON_REMARK →
  0 < timeout →
  contains (resultCB c) requestId = false →
  contains (remarkCB c) requestId = false →
  returns_normally (if bool_decide (eventType = ON_RESULT) then rcb else mcb) data →
  let r := Methods.waitResponse (S fuel) requestId rcb mcb timeout c in
  r.1 = Return true ∧
  List.filter (is_completion requestId) (added c r.2)
  = match (if bool_decide (eventType = ON_RESULT) then rcb else mcb) with
    | Some _ => [if bool_decide (eventType = ON_RESULT) then ObsResultCB requestId data
                 else ObsRemarkCB requestId data]
    | None => []
    end ∧
  resultCB r.2 = resultCB c ∧ remarkCB r.2 = remarkCB c.
Proof.
  intros Hws Hfound Hty Htime HR HM Hret r.
  assert (Er : r = Methods.waitResponse (S fuel) requestId rcb mcb timeout c) by done.
  clearbody r. unfold Methods.waitResponse, waitResponse in Er.
  unfold bind at 1 in Er. rewrite registerCallbacks_fresh in Er by done.
  cbn beta iota in Er. set (c1 := set_remarkCB _ _) in Er.
  unfold bind at 1, time_time at 1, get at 1 in Er. cbn beta iota in Er.
  unfold try_finally in Er. cbn [waitLoop] in Er.
  unfold bind at 1, time_time at 1, get at 1 in Er. cbn beta iota in Er.
  rewrite Z.sub_diag in Er.
  assert ((0 <? timeout) = true) as Hlt by (apply Z.ltb_lt; lia).
  rewrite Hlt in Er. cbn beta iota in Er. unfold bind at 1 in Er.
  rewrite (dispatchImpl_head fuel (Some [ON_RESULT; ON_REMARK]) c1 ws eventType
             (DPair requestId data) rest) in Er; try done.
  2:{ destruct Hty as [-> | ->]; reflexivity. }
  rewrite route_response in Er by done. rewrite returning_eq in Er.
  set (c2 := set_trace _ (polled c1 ws rest)) in Er.
  set (d := if bool_decide (eventType = ON_RESULT) then resultCB else remarkCB) in Er.
  set (mark := if bool_decide (eventType = ON_RESULT) then ObsResultCB else ObsRemarkCB) in Er.
  set (msg := if bool_decide (eventType = ON_RESULT) then _ else _) in Er.
  assert (Hd : d = resultCB ∨ d = remarkCB) by (subst d; case_bool_decide; auto).
  assert (Hstored : d c2 !! requestId
                    = Some (if bool_decide (eventType = ON_RESULT) then rcb else mcb)).
  { subst d c2 c1. case_bool_decide; cbn; apply lookup_insert_eq. }
  assert (Hdel : delete requestId (resultCB c2) = resultCB c
                 ∧ delete requestId (remarkCB c2) = remarkCB c).
  { subst c2 c1. cbn. apply contains_false in HR, HM.
    by rewrite !delete_insert_eq, !delete_id. }
  destruct Hdel as [Hd1 Hd2].
  destruct (resolve_cases d mark msg requestId data c2 Hd)
    as [(Hn & _)|[(_ & Hpf & _)|(cb & logs & Hcb & _ & Htr & Hl & HR' & HM' & _ & Hok)]].
  { congruence. }
  { exfalso. revert Hpf. unfold pending_request. subst c2 c1. cbn.
    by rewrite !contains_insert. }
  rewrite Hstored in Hcb. injection Hcb as <-. specialize (Hok Hret).
  rewrite Hd1 in HR'. rewrite Hd2 in HM'.
  destruct (resolve d mark msg requestId data c2) as [o c3]. cbn [fst snd] in *. subst o.
  unfold bind at 1, callbacksRegistered, get at 1 in Er. rewrite HR', HR in Er.
  cbn [andb negb] in Er. unfold ret in Er. subst r. cbn [fst snd].
  split; [done|]. split; [|done].
  rewrite (added_app c c3 (ObsDispatch eventType (DPair requestId data) ::
            match (if bool_decide (eventType = ON_RESULT) then rcb else mcb) with
            | Some _ => mark requestId data :: logs
            | None => []
            end)).
  2:{ rewrite Htr. subst c2 c1. cbn. by rewrite <- app_assoc. }
  cbn. destruct (if bool_decide (eventType = ON_RESULT) then rcb else mcb); [|done].
  subst mark. cbn.
  rewrite (filter_foreign _ logs (is_log_foreign _ _ Hl)).
  case_bool_decide; cbn; by rewrite bool_decide_eq_true_2.
Qed.

Lemma waitResponse_answered_at_once_witness :
  let c := Scenario.ready [(ON_REMARK, DPair 7 "denied")] [] in
  let r := Methods.waitResponse 1 7 (Some (Scenario.quiet 1)) (Some (Scenario.quiet 2)) 20 c in
  r.1 = Return true ∧
  List.filter (is_completion 7) (added c r.2) = [ObsRemarkCB 7 "denied"] ∧
  resultCB r.2 = resultCB c ∧ remarkCB r.2 = remarkCB c.
Proof.
  intros c.
  exact (waitResponse_answered_at_once 0 7 (Some (Scenario.quiet 1)) (Some (Scenario.quiet 2))
           20 c _ ON_REMARK "denied" [] eq_refl eq_refl (or_intror eq_refl) eq_refl
           eq_refl eq_refl eq_refl).
Defined.

(** ** What the value of a poll tells *)

(** X25: a poll that returns True has dispatched an event, and the event was
    no response.  Whenever [dispatchImpl] returns True, the first thing it
    added to the trace is the dispatch of an event that passed its filter, of
    a kind other than CommandResult and CommandRemark; an empty poll, a
    filtered event, a response and an event of no known kind all give
    False. *)
Theorem true_means_dispatched
    (fuel : nat) (eventFilter : option (list nat)) (c : Client) :
  let r := dispatchImpl fuel eventFilter c in
  r.1 = Return true →
  ∃ eventType eventData delta,
    added c r.2 = ObsDispatch eventType eventData :: delta ∧
    passes eventFilter eventType ∧
    (1 ≤ eventType ≤ 8)%nat ∧ eventType ≠ ON_RESULT ∧ eventType ≠ ON_REMARK.
Proof.
  intros r. assert (Er : r = dispatchImpl fuel eventFilter c) by done. clearbody r.
  destruct fuel as [|fuel]; [by subst r|].
  destruct (wsClient c) as [ws|] eqn:Hws.
  2:{ rewrite dispatchImpl_absent in Er by done. by subst r. }
  destruct (found ws) as [|[t d] q] eqn:Hq.
  { rewrite (dispatchImpl_idle fuel eventFilter c ws Hws Hq) in Er. by subst r. }
  unfold found in Hq. rewrite (dispatchImpl_polled fuel eventFilter c ws t d q Hws Hq) in Er.
  destruct (match eventFilter with Some f => negb (type_in t f) | None => false end) eqn:Hf;
    [by subst r|].
  assert (Hpass : passes eventFilter t).
  { destruct eventFilter as [f|]; cbn in *; [|done]. by destruct (type_in t f). }
  set (c1 := set_trace _ _) in Er.
  destruct (steps_route extends_trace extends_trace_tolerated (dispatchImpl fuel)
              (steps_dispatchImpl extends_trace extends_trace_tolerated fuel) fuel t d c1)
    as [delta Hd].
  rewrite <- Er in Hd. intros Hr. exists t, d, delta.
  split; [apply added_app; rewrite Hd; subst c1; cbn; by rewrite <- app_assoc|].
  split; [done|].
  assert (Hfalse : ∀ m, (returning false m c1).1 ≠ Return true).
  { intros m. rewrite returning_eq. destruct (m c1) as [[?|e|] ?]; cbn; try done.
    by destruct (is_QueueEmpty e). }
  unfold route in Er.
  repeat (case_bool_decide as E;
          [subst t; first [by (exfalso; eapply Hfalse; rewrite <- Er; exact Hr)
                          |(split; [cbv; lia|split; discriminate])]|clear E]).
  exfalso. eapply Hfalse. rewrite <- Er. exact Hr.
Qed.

Lemma true_means_dispatched_witness :
  let c := Scenario.ready [(ON_TICKER, DObj "t")] [] in
  ∃ eventType eventData delta,
    added c (dispatchImpl 1 None c).2 = ObsDispatch eventType eventData :: delta ∧
    passes None eventType ∧
    (1 ≤ eventType ≤ 8)%nat ∧ eventType ≠ ON_RESULT ∧ eventType ≠ ON_REMARK.
Proof.
  intros c. exact (true_means_dispatched 1 None c eq_refl).
Defined.

(** X26: with an empty filter nothing is ever dispatched.  A poll whose
    filter is the empty list takes the oldest event it finds off the queue
    and discards it, whatever its kind: it returns False and leaves the trace
    and the dictionaries as they were. *)
Theorem empty_filter_discards_all
    (fuel : nat) (c : Client) (ws : WSClient.t) :
  wsClient c = Some ws →
  ∃ c' ws', dispatchImpl (S fuel) (Some []) c = (Return false, c') ∧
            trace c' = trace c ∧
            resultCB c' = resultCB c ∧ remarkCB c' = remarkCB c ∧
            wsClient c' = Some ws' ∧ WSClient.queue ws' = tail (found ws).
Proof.
  intros Hws. destruct (found ws) as [|[t d] q] eqn:Hq.
  - rewrite (dispatchImpl_idle fuel _ c ws Hws Hq). eexists _, _.
    repeat (split; [reflexivity|]). cbn. rewrite fire_all_queue. exact Hq.
  - unfold found in Hq. rewrite (dispatchImpl_polled fuel _ c ws t d q Hws Hq).
    cbn. eexists _, _. repeat (split; [reflexivity|]). reflexivity.
Qed.

Lemma empty_filter_discards_all_witness :
  let c := Scenario.ready [(ON_CONNECTED, DNone); (ON_TICKER, DObj "t")] [] in
  ∃ c' ws', dispatchImpl 1 (Some []) c = (Return false, c') ∧
            trace c' = trace c ∧
            resultCB c' = resultCB c ∧ remarkCB c' = remarkCB c ∧
            wsClient c' = Some ws' ∧ WSClient.queue ws' = [(ON_TICKER, DObj "t")].
Proof.
  intros c. exact (empty_filter_discards_all 0 c _ eq_refl).
Defined.
